(** * The Lithium EventBus and the delay controller

    A shallow embedding of two documents of
    [config/lithium/decorators/delay.ts]: the [EventBus] class (the static
    class that starts at the third document of that file), which takes up
    most of this development, and the [DelayController] class with its
    [delay] decorator (the first document), in the module [Delay].

    The [EventBus] class keeps all of its state in static fields and in
    the objects those fields reference, so the embedding threads one
    [State] record through every operation:

    - [Map<string, Channel>] and [Map<string, Set<...>>] are finite maps
      from names to object references; the objects themselves (channels,
      listener sets, the closures created by [on]) live in stores indexed
      by their reference, because the code keeps using a reference after
      the registry entry is gone;
    - a JavaScript [Set] is the list of its entries in insertion order,
      where a deleted entry leaves an empty slot, exactly as ECMA-262
      describes [[SetData]]: this is what makes [forEach] see the entries
      added while it runs;
    - [Map.prototype.forEach] over the channels walks the entries in the
      order of their insertion; a name is inserted only by [channel], for
      the channel object it has just created, so this is the order of the
      channel references ([channel_entries]);
    - [setTimeout], [clearTimeout] and [Date.now] act on a virtual clock and
      a table of pending timers, and the closures handed to [setTimeout]
      are the constructors of [task]; a timer keeps its delay as a signed
      32-bit integer ([timer_delay]), so the properties that name the time
      at which a timer fires are stated for delays below [2^31] ms;
    - the caller's callbacks (hooks, subscribers, listeners) are opaque
      function identities; what they do when called is given by the
      environment ([invoke]), and every call the broker makes is recorded
      in a ghost [trace].  The trace also holds what the callbacks write
      themselves ([EvJournal]): a property that counts the calls of a hook
      counts them in the record of the broker and in the journal of the
      hook, which only a real call extends.

    Left out: the console output, a browser store that refuses access
    (reads and writes of the two stores always succeed; only [JSON.parse]
    may fail), and the [LazyController] of the second document, whose
    behaviour is that of the browser's [IntersectionObserver]. *)

From stdpp Require Import gmap strings list fin_maps.

Set Default Proof Using "Type".
Open Scope Z_scope.

(** ** Values *)

(** The values that travel through the broker ([T = any]).  Numbers are the
    integers; only [undefined] and [null] are told apart by the code. *)
Inductive value :=
| VUndefined
| VNull
| VBool (b : bool)
| VNum (z : Z)
| VStr (s : string).

(** [v !== undefined && v !== null] *)
Definition present (v : value) : bool :=
  match v with
  | VUndefined | VNull => false
  | _ => true
  end.

(** [v !== undefined] *)
Definition defined (v : value) : bool :=
  match v with
  | VUndefined => false
  | _ => true
  end.

(** Truthiness of an optional number: [undefined] and [0] are falsy. *)
Definition truthy (n : option Z) : option Z :=
  match n with
  | Some z => if z =? 0 then None else Some z
  | None => None
  end.

(** Truthiness of an optional boolean. *)
Definition truthy_bool (b : option bool) : bool := default false b.

(** Identity of a function object supplied by the caller. *)
Abbreviation fn := nat.

(** ** Configuration records *)

Inductive StorageType := memory | session | local.

Definition is_memory (st : StorageType) : bool :=
  match st with memory => true | _ => false end.

(** [ChannelConfig]: every field is optional in the source.  An absent
    [initialValue] reads as [undefined].  [validate] and [transform] are
    value-level functions and are taken to be pure and total. *)
Record ChannelConfig := {
  cfg_initialValue : value;
  cfg_storage : option StorageType;
  cfg_storageKey : option string;
  cfg_ttl : option Z;
  cfg_autoCleanup : option bool;
  cfg_onChange : option fn;
  cfg_onInit : option fn;
  cfg_onClear : option fn;
  cfg_validate : option (value → bool);
  cfg_transform : option (value → value);
  cfg_debounce : option Z;
  cfg_throttle : option Z
}.

(** The object literal [{}] . *)
Definition empty_config : ChannelConfig :=
  {| cfg_initialValue := VUndefined; cfg_storage := None;
     cfg_storageKey := None; cfg_ttl := None; cfg_autoCleanup := None;
     cfg_onChange := None; cfg_onInit := None; cfg_onClear := None;
     cfg_validate := None; cfg_transform := None;
     cfg_debounce := None; cfg_throttle := None |}.

(** The object literal [{ initialValue: value }] built by [publish]. *)
Definition initial_only (v : value) : ChannelConfig :=
  {| cfg_initialValue := v; cfg_storage := None;
     cfg_storageKey := None; cfg_ttl := None; cfg_autoCleanup := None;
     cfg_onChange := None; cfg_onInit := None; cfg_onClear := None;
     cfg_validate := None; cfg_transform := None;
     cfg_debounce := None; cfg_throttle := None |}.

(** [ListenerOptions] *)
Record ListenerOptions := {
  opt_validate : option (value → bool);
  opt_transform : option (value → value);
  opt_debounce : option Z;
  opt_throttle : option Z;
  opt_once : option bool
}.

Definition no_options : ListenerOptions :=
  {| opt_validate := None; opt_transform := None; opt_debounce := None;
     opt_throttle := None; opt_once := None |}.

(** The object literal [{ once: true }] built by [once]. *)
Definition once_only : ListenerOptions :=
  {| opt_validate := None; opt_transform := None; opt_debounce := None;
     opt_throttle := None; opt_once := Some true |}.

(** ** JavaScript sets *)

(** [[SetData]]: entries in insertion order, [None] for a deleted entry. *)
Abbreviation SetData A := (list (option A)).

Section SetData.
Context {A : Type} (eqb : A → A → bool).

Definition entry_is (x : A) (e : option A) : bool :=
  match e with
  | Some y => eqb x y
  | None => false
  end.

Definition set_has (x : A) (d : SetData A) : bool := existsb (entry_is x) d.

(** [Set.prototype.add]: append unless already a member. *)
Definition set_add (x : A) (d : SetData A) : SetData A :=
  if set_has x d then d else d ++ [Some x].

(** [Set.prototype.delete]: the entry becomes empty, its slot stays. *)
Definition set_delete (x : A) (d : SetData A) : SetData A :=
  map (λ e, if entry_is x e then None else e) d.

(** [Set.prototype.clear]: every entry becomes empty. *)
Definition set_clear (d : SetData A) : SetData A := map (λ _, None) d.

(** [Set.prototype.size] *)
Definition set_size (d : SetData A) : nat :=
  length (filter (λ e, is_Some e) d).
End SetData.

(** ** Objects *)

(** The [Channel] interface.  [signal] holds the current value of the
    channel's [Signal.State]. *)
Record Channel := {
  signal : value;
  storage : StorageType;
  storageKey : string;
  subscribers : SetData fn;
  ttl : option Z;
  autoCleanup : bool;
  timeoutId : option Z;
  createdAt : Z;
  config : option ChannelConfig;
  isInitialized : bool;
  onChangeDebounceTimer : option Z;
  onChangeLastCall : option Z
}.

(** The variables captured by one [wrappedListener] closure of [on]:
    the arguments of [on], the listener set it was added to, and the three
    [let] variables of the call. *)
Record Wrapper := {
  w_eventName : string;
  w_listener : fn;
  w_options : option ListenerOptions;
  w_listeners : nat;
  debounceTimer : option Z;
  lastCallTime : Z;
  hasExecuted : bool
}.

(** The closures handed to [setTimeout]. *)
Inductive task :=
| TTLExpire (channelName : string)
| OnChangeCallback (channelName : string) (a : nat) (h : fn) (newValue oldValue : value)
| ExecuteListener (lid : nat) (transformedData : value).

(** Ghost record of the calls made into caller-supplied functions.  The
    broker writes every entry but [EvJournal]: that one is the note which
    a callback that keeps a journal of its own calls adds when it runs. *)
Inductive event :=
| EvOnInit (a : nat) (v : value)
| EvOnChange (a : nat) (newValue oldValue : value)
| EvOnClear (a : nat)
| EvSubscriber (a : nat) (cb : fn) (v : value)
| EvWrapped (lid : nat) (data : value)
| EvListener (lid : nat) (v : value)
| EvJournal (f : fn) (args : list value).

(** ** Broker state *)

Record State := {
  channels : gmap string nat;
  chan_heap : list Channel;
  eventListeners : gmap string nat;
  sets : list (SetData nat);
  wrappers : list Wrapper;
  initialized : bool;
  sessionStorage : gmap string string;
  localStorage : gmap string string;
  now : Z;
  timers : list (option (Z * task));
  trace : list (Z * event)
}.

Definition initial_state (t0 : Z) : State :=
  {| channels := ∅; chan_heap := []; eventListeners := ∅; sets := [];
     wrappers := []; initialized := false; sessionStorage := ∅;
     localStorage := ∅; now := t0; timers := []; trace := [] |}.

Definition with_channels (f : gmap string nat → gmap string nat) (s : State) : State :=
  {| channels := f (channels s); chan_heap := chan_heap s;
     eventListeners := eventListeners s; sets := sets s;
     wrappers := wrappers s; initialized := initialized s;
     sessionStorage := sessionStorage s; localStorage := localStorage s;
     now := now s; timers := timers s; trace := trace s |}.

Definition with_chan_heap (f : list Channel → list Channel) (s : State) : State :=
  {| channels := channels s; chan_heap := f (chan_heap s);
     eventListeners := eventListeners s; sets := sets s;
     wrappers := wrappers s; initialized := initialized s;
     sessionStorage := sessionStorage s; localStorage := localStorage s;
     now := now s; timers := timers s; trace := trace s |}.

Definition with_eventListeners (f : gmap string nat → gmap string nat) (s : State) : State :=
  {| channels := channels s; chan_heap := chan_heap s;
     eventListeners := f (eventListeners s); sets := sets s;
     wrappers := wrappers s; initialized := initialized s;
     sessionStorage := sessionStorage s; localStorage := localStorage s;
     now := now s; timers := timers s; trace := trace s |}.

Definition with_sets (f : list (SetData nat) → list (SetData nat)) (s : State) : State :=
  {| channels := channels s; chan_heap := chan_heap s;
     eventListeners := eventListeners s; sets := f (sets s);
     wrappers := wrappers s; initialized := initialized s;
     sessionStorage := sessionStorage s; localStorage := localStorage s;
     now := now s; timers := timers s; trace := trace s |}.

Definition with_wrappers (f : list Wrapper → list Wrapper) (s : State) : State :=
  {| channels := channels s; chan_heap := chan_heap s;
     eventListeners := eventListeners s; sets := sets s;
     wrappers := f (wrappers s); initialized := initialized s;
     sessionStorage := sessionStorage s; localStorage := localStorage s;
     now := now s; timers := timers s; trace := trace s |}.

Definition with_initialized (b : bool) (s : State) : State :=
  {| channels := channels s; chan_heap := chan_heap s;
     eventListeners := eventListeners s; sets := sets s;
     wrappers := wrappers s; initialized := b;
     sessionStorage := sessionStorage s; localStorage := localStorage s;
     now := now s; timers := timers s; trace := trace s |}.

Definition with_sessionStorage (f : gmap string string → gmap string string) (s : State) : State :=
  {| channels := channels s; chan_heap := chan_heap s;
     eventListeners := eventListeners s; sets := sets s;
     wrappers := wrappers s; initialized := initialized s;
     sessionStorage := f (sessionStorage s); localStorage := localStorage s;
     now := now s; timers := timers s; trace := trace s |}.

Definition with_localStorage (f : gmap string string → gmap string string) (s : State) : State :=
  {| channels := channels s; chan_heap := chan_heap s;
     eventListeners := eventListeners s; sets := sets s;
     wrappers := wrappers s; initialized := initialized s;
     sessionStorage := sessionStorage s; localStorage := f (localStorage s);
     now := now s; timers := timers s; trace := trace s |}.

Definition with_now (t : Z) (s : State) : State :=
  {| channels := channels s; chan_heap := chan_heap s;
     eventListeners := eventListeners s; sets := sets s;
     wrappers := wrappers s; initialized := initialized s;
     sessionStorage := sessionStorage s; localStorage := localStorage s;
     now := t; timers := timers s; trace := trace s |}.

Definition with_timers (f : list (option (Z * task)) → list (option (Z * task))) (s : State) : State :=
  {| channels := channels s; chan_heap := chan_heap s;
     eventListeners := eventListeners s; sets := sets s;
     wrappers := wrappers s; initialized := initialized s;
     sessionStorage := sessionStorage s; localStorage := localStorage s;
     now := now s; timers := f (timers s); trace := trace s |}.

(** Record a call into a caller-supplied function, stamped with the time. *)
Definition log (e : event) (s : State) : State :=
  {| channels := channels s; chan_heap := chan_heap s;
     eventListeners := eventListeners s; sets := sets s;
     wrappers := wrappers s; initialized := initialized s;
     sessionStorage := sessionStorage s; localStorage := localStorage s;
     now := now s; timers := timers s; trace := trace s ++ [(now s, e)] |}.

(** Field updates of a channel object. *)
Definition chan_set_signal (v : value) (c : Channel) : Channel :=
  {| signal := v; storage := storage c; storageKey := storageKey c;
     subscribers := subscribers c; ttl := ttl c; autoCleanup := autoCleanup c;
     timeoutId := timeoutId c; createdAt := createdAt c; config := config c;
     isInitialized := isInitialized c;
     onChangeDebounceTimer := onChangeDebounceTimer c;
     onChangeLastCall := onChangeLastCall c |}.

Definition chan_set_subscribers (f : SetData fn → SetData fn) (c : Channel) : Channel :=
  {| signal := signal c; storage := storage c; storageKey := storageKey c;
     subscribers := f (subscribers c); ttl := ttl c; autoCleanup := autoCleanup c;
     timeoutId := timeoutId c; createdAt := createdAt c; config := config c;
     isInitialized := isInitialized c;
     onChangeDebounceTimer := onChangeDebounceTimer c;
     onChangeLastCall := onChangeLastCall c |}.

Definition chan_set_timeoutId (t : option Z) (c : Channel) : Channel :=
  {| signal := signal c; storage := storage c; storageKey := storageKey c;
     subscribers := subscribers c; ttl := ttl c; autoCleanup := autoCleanup c;
     timeoutId := t; createdAt := createdAt c; config := config c;
     isInitialized := isInitialized c;
     onChangeDebounceTimer := onChangeDebounceTimer c;
     onChangeLastCall := onChangeLastCall c |}.

Definition chan_set_isInitialized (b : bool) (c : Channel) : Channel :=
  {| signal := signal c; storage := storage c; storageKey := storageKey c;
     subscribers := subscribers c; ttl := ttl c; autoCleanup := autoCleanup c;
     timeoutId := timeoutId c; createdAt := createdAt c; config := config c;
     isInitialized := b;
     onChangeDebounceTimer := onChangeDebounceTimer c;
     onChangeLastCall := onChangeLastCall c |}.

Definition chan_set_onChangeDebounceTimer (t : option Z) (c : Channel) : Channel :=
  {| signal := signal c; storage := storage c; storageKey := storageKey c;
     subscribers := subscribers c; ttl := ttl c; autoCleanup := autoCleanup c;
     timeoutId := timeoutId c; createdAt := createdAt c; config := config c;
     isInitialized := isInitialized c;
     onChangeDebounceTimer := t;
     onChangeLastCall := onChangeLastCall c |}.

Definition chan_set_onChangeLastCall (t : option Z) (c : Channel) : Channel :=
  {| signal := signal c; storage := storage c; storageKey := storageKey c;
     subscribers := subscribers c; ttl := ttl c; autoCleanup := autoCleanup c;
     timeoutId := timeoutId c; createdAt := createdAt c; config := config c;
     isInitialized := isInitialized c;
     onChangeDebounceTimer := onChangeDebounceTimer c;
     onChangeLastCall := t |}.

(** [channel.field = ...] through the reference [a]. *)
Definition update_chan (a : nat) (f : Channel → Channel) (s : State) : State :=
  with_chan_heap (alter f a) s.

(** Field updates of a wrapped-listener closure. *)
Definition wr_set_debounceTimer (t : option Z) (w : Wrapper) : Wrapper :=
  {| w_eventName := w_eventName w; w_listener := w_listener w;
     w_options := w_options w; w_listeners := w_listeners w;
     debounceTimer := t; lastCallTime := lastCallTime w;
     hasExecuted := hasExecuted w |}.

Definition wr_set_lastCallTime (t : Z) (w : Wrapper) : Wrapper :=
  {| w_eventName := w_eventName w; w_listener := w_listener w;
     w_options := w_options w; w_listeners := w_listeners w;
     debounceTimer := debounceTimer w; lastCallTime := t;
     hasExecuted := hasExecuted w |}.

Definition wr_set_hasExecuted (b : bool) (w : Wrapper) : Wrapper :=
  {| w_eventName := w_eventName w; w_listener := w_listener w;
     w_options := w_options w; w_listeners := w_listeners w;
     debounceTimer := debounceTimer w; lastCallTime := lastCallTime w;
     hasExecuted := b |}.

Definition update_wrapper (lid : nat) (f : Wrapper → Wrapper) (s : State) : State :=
  with_wrappers (alter f lid) s.

Definition update_set (sid : nat) (f : SetData nat → SetData nat) (s : State) : State :=
  with_sets (alter f sid) s.

(** ** The host environment *)

(** How a call into caller code ends. *)
Inductive outcome := Returned | Thrown.

(** What the broker does not define itself: the behaviour of the functions
    its callers hand in, and the [JSON] built-in.  [invoke f args s] runs
    the function [f] on [args] in broker state [s]; the function may call
    back into the broker, so it returns the state it leaves behind ([None]
    when it never returns).  [JSON_parse] is [None] where [JSON.parse]
    throws; [JSON_stringify] is [None] where [JSON.stringify] returns
    [undefined]. *)
Class Host := {
  invoke : fn → list value → State → option (outcome * State);
  JSON_parse : string → option value;
  JSON_stringify : value → option string
}.

(** ** Timers and clock *)

(** The time a timer waits.  [setTimeout] keeps its delay as a signed
    32-bit integer: a negative delay counts as 0, and a delay of [2^31]
    milliseconds or more does not fit, so that the timer fires at once. *)
Definition timer_delay (delay : Z) : Z :=
  if delay <? 2147483648 then Z.max 0 delay else 0.

(** [setTimeout(task, delay)]: handles are positive and never reused. *)
Definition setTimeout (tk : task) (delay : Z) (s : State) : Z * State :=
  (Z.of_nat (length (timers s)) + 1,
   with_timers (λ ts, ts ++ [Some (now s + timer_delay delay, tk)]) s).

(** [clearTimeout(id)] *)
Definition clearTimeout (id : Z) (s : State) : State :=
  if 1 <=? id then with_timers (<[Z.to_nat (id - 1) := None]>) s else s.

(** [if (handle) clearTimeout(handle)] *)
Definition clear_if_set (handle : option Z) (s : State) : State :=
  match truthy handle with
  | Some id => clearTimeout id s
  | None => s
  end.

(** ** Live iteration *)

(** [Set.prototype.forEach] (ECMA-262): walk the entries by index, skip
    the empty ones, and read the number of entries again after every call,
    so that entries appended while iterating are visited too.  [entries]
    reads the set being iterated out of the current state. *)
Fixpoint forEach {A : Type} (fuel : nat) (entries : State → SetData A)
    (callbackfn : A → State → option State) (index : nat) (s : State)
    : option State :=
  match fuel with
  | O => None
  | S fuel' =>
      match entries s !! index with
      | None => Some s
      | Some None => forEach fuel' entries callbackfn (S index) s
      | Some (Some e) =>
          s' ← callbackfn e s;
          forEach fuel' entries callbackfn (S index) s'
      end
  end.

Section EventBus.
Context `{Host}.

(** *** Storage helpers *)

Definition store_of (st : StorageType) (s : State) : gmap string string :=
  match st with
  | session => sessionStorage s
  | _ => localStorage s
  end.

Definition with_store (st : StorageType)
    (f : gmap string string → gmap string string) (s : State) : State :=
  match st with
  | session => with_sessionStorage f s
  | _ => with_localStorage f s
  end.

(** [getFromStorage]; the result [VUndefined] is the source's
    [undefined]. *)
Definition getFromStorage (key : string) (st : StorageType) (s : State) : value :=
  if is_memory st then VUndefined
  else match store_of st s !! key with
       | None => VUndefined
       | Some raw =>
           if String.eqb raw "" then VUndefined
           else default VUndefined (JSON_parse raw)
       end.

(** [saveToStorage]: [setItem] turns a non-string argument into a
    string, so an [undefined] from [JSON.stringify] is stored as the text
    ["undefined"]. *)
Definition saveToStorage (key : string) (v : value) (st : StorageType)
    (s : State) : State :=
  if is_memory st then s
  else with_store st (<[key := default "undefined"%string (JSON_stringify v)]>) s.

(** [removeFromStorage] *)
Definition removeFromStorage (key : string) (st : StorageType) (s : State) : State :=
  if is_memory st then s
  else with_store st (delete key) s.

(** *** Calls into caller code *)

(** [try { f(...args) } catch (error) { console.error(...) }], recorded
    in the trace. *)
Definition call_hook (e : event) (f : fn) (args : list value) (s : State)
    : option State :=
  r ← invoke f args (log e s);
  Some r.2.

(** *** Channels *)

(** [init]: wires the page-teardown hook on first use. *)
Definition init (s : State) : State :=
  if initialized s then s else with_initialized true s.

(** [channel(channelName, config?)]; the result is the reference of the
    channel whose signal is returned. *)
Definition channel (channelName : string) (cfg : option ChannelConfig)
    (s : State) : option (nat * State) :=
  let s := init s in
  match channels s !! channelName with
  | Some a => Some (a, s)
  | None =>
      let c := default empty_config cfg in
      let initialValue := cfg_initialValue c in
      let storage_ := default memory (cfg_storage c) in
      let storageKey_ := default ("lithium:" +:+ channelName) (cfg_storageKey c) in
      let ttl_ := cfg_ttl c in
      let autoCleanup_ := default false (cfg_autoCleanup c) in
      let storedValue := getFromStorage storageKey_ storage_ s in
      let value_ := if defined storedValue then storedValue else initialValue in
      let isInitialized_ := present value_ in
      let a := length (chan_heap s) in
      let ch :=
        {| signal := value_; storage := storage_; storageKey := storageKey_;
           subscribers := []; ttl := ttl_; autoCleanup := autoCleanup_;
           timeoutId := None; createdAt := now s; config := cfg;
           isInitialized := isInitialized_;
           onChangeDebounceTimer := None; onChangeLastCall := None |} in
      let s1 := with_channels (<[channelName := a]>)
                  (with_chan_heap (λ h, h ++ [ch]) s) in
      let s2 :=
        match truthy ttl_ with
        | Some t =>
            let r := setTimeout (TTLExpire channelName) t s1 in
            update_chan a (chan_set_timeoutId (Some r.1)) r.2
        | None => s1
        end in
      s3 ← (if isInitialized_
            then match cfg ≫= cfg_onInit with
                 | Some h => call_hook (EvOnInit a value_) h [value_] s2
                 | None => Some s2
                 end
            else Some s2);
      Some (a, s3)
  end.

(** [executeCallback] of [executeOnChange] *)
Definition executeCallback (a : nat) (h : fn) (newValue oldValue : value)
    (s : State) : option State :=
  call_hook (EvOnChange a newValue oldValue) h [newValue; oldValue] s.

(** [executeOnChange(channelName, channel, newValue, oldValue)] *)
Definition executeOnChange (channelName : string) (a : nat)
    (newValue oldValue : value) (s : State) : option State :=
  ch ← chan_heap s !! a;
  match config ch ≫= cfg_onChange with
  | None => Some s
  | Some h =>
      let cfg_ := default empty_config (config ch) in
      match truthy (cfg_debounce cfg_) with
      | Some d =>
          let s1 := clear_if_set (onChangeDebounceTimer ch) s in
          let r := setTimeout (OnChangeCallback channelName a h newValue oldValue) d s1 in
          Some (update_chan a (chan_set_onChangeDebounceTimer (Some r.1)) r.2)
      | None =>
          match truthy (cfg_throttle cfg_) with
          | Some t =>
              let lastCall := default 0 (truthy (onChangeLastCall ch)) in
              let timeSinceLastCall := now s - lastCall in
              if t <=? timeSinceLastCall
              then executeCallback a h newValue oldValue
                     (update_chan a (chan_set_onChangeLastCall (Some (now s))) s)
              else Some s
          | None => executeCallback a h newValue oldValue s
          end
      end
  end.

Definition subscribers_of (a : nat) (s : State) : SetData fn :=
  from_option subscribers [] (chan_heap s !! a).

(** [publish(channelName, value)]; [fuel] bounds the walk over the
    subscriber set. *)
Definition publish (fuel : nat) (channelName : string) (v : value)
    (s : State) : option State :=
  match channels s !! channelName with
  | None =>
      r ← channel channelName (Some (initial_only v)) s;
      Some r.2
  | Some a =>
      ch ← chan_heap s !! a;
      let oldValue := signal ch in
      let cfg := config ch in
      if match cfg ≫= cfg_validate with
         | Some validate => negb (validate v)
         | None => false
         end
      then Some s
      else
        let transformedValue :=
          match cfg ≫= cfg_transform with
          | Some transform => transform v
          | None => v
          end in
        let s1 := update_chan a (chan_set_signal transformedValue) s in
        let s2 :=
          if negb (is_memory (storage ch))
          then saveToStorage (storageKey ch) transformedValue (storage ch) s1
          else s1 in
        s3 ← (if negb (isInitialized ch) && present transformedValue
              then
                let s2' := update_chan a (chan_set_isInitialized true) s2 in
                match cfg ≫= cfg_onInit with
                | Some h => call_hook (EvOnInit a transformedValue) h [transformedValue] s2'
                | None => Some s2'
                end
              else Some s2);
        s4 ← (match cfg ≫= cfg_onChange with
              | Some _ => executeOnChange channelName a transformedValue oldValue s3
              | None => Some s3
              end);
        forEach fuel (subscribers_of a)
          (λ callback, call_hook (EvSubscriber a callback transformedValue)
                         callback [transformedValue])
          0%nat s4
  end.

(** [getValue(channelName)]: [VUndefined] is the source's [undefined]. *)
Definition getValue (channelName : string) (s : State) : value :=
  match channels s !! channelName ≫= (chan_heap s !!.) with
  | Some ch => signal ch
  | None => VUndefined
  end.

(** [listChannels()]; the order of the names is not modelled. *)
Definition listChannels (s : State) : list string :=
  (map_to_list (channels s)).*1.

(** [clear(channelName)] *)
Definition clear (channelName : string) (s : State) : option State :=
  match channels s !! channelName with
  | None => Some s
  | Some a =>
      ch ← chan_heap s !! a;
      s1 ← (match config ch ≫= cfg_onClear with
            | Some h => call_hook (EvOnClear a) h [] s
            | None => Some s
            end);
      ch1 ← chan_heap s1 !! a;
      let s2 := clear_if_set (timeoutId ch1) s1 in
      let s3 := clear_if_set (onChangeDebounceTimer ch1) s2 in
      let s4 :=
        if negb (is_memory (storage ch1))
        then removeFromStorage (storageKey ch1) (storage ch1) s3
        else s3 in
      let s5 := update_chan a (chan_set_subscribers (set_clear)) s4 in
      Some (with_channels (delete channelName) s5)
  end.

(** The closure returned by [subscribe]. *)
Record Unsubscribe := {
  u_channel : nat;
  u_callback : fn;
  u_channelName : string
}.

(** [subscribe(channelName, callback)] *)
Definition subscribe (channelName : string) (callback : fn) (s : State)
    : option (Unsubscribe * State) :=
  s1 ← (if bool_decide (is_Some (channels s !! channelName))
        then Some s
        else r ← channel channelName None s; Some r.2);
  a ← channels s1 !! channelName;
  Some ({| u_channel := a; u_callback := callback; u_channelName := channelName |},
        update_chan a (chan_set_subscribers (set_add Nat.eqb callback)) s1).

(** Calling the closure returned by [subscribe]. *)
Definition unsubscribe (u : Unsubscribe) (s : State) : option State :=
  let s1 := update_chan (u_channel u)
              (chan_set_subscribers (set_delete Nat.eqb (u_callback u))) s in
  ch ← chan_heap s1 !! u_channel u;
  if autoCleanup ch && (set_size (subscribers ch) =? 0)%nat
  then clear (u_channelName u) s1
  else Some s1.
(** [getSignal(channelName)]: the reference of the channel whose signal
    is returned, [None] for [undefined]. *)
Definition getSignal (channelName : string) (s : State) : option nat :=
  channels s !! channelName.

(** [signal.get()] on a signal that a caller holds by reference. *)
Definition signal_get (a : nat) (s : State) : option value :=
  signal <$> chan_heap s !! a.

(** The object literal returned by [getChannelInfo]. *)
Record ChannelInfo := {
  info_storage : StorageType;
  info_storageKey : string;
  info_subscribersCount : nat;
  info_ttl : option Z;
  info_autoCleanup : bool;
  info_createdAt : Z;
  info_age : Z
}.

(** [getChannelInfo(channelName)]: [None] is the source's [undefined]. *)
Definition getChannelInfo (channelName : string) (s : State)
    : option ChannelInfo :=
  a ← channels s !! channelName;
  ch ← chan_heap s !! a;
  Some {| info_storage := storage ch; info_storageKey := storageKey ch;
          info_subscribersCount := set_size (subscribers ch);
          info_ttl := ttl ch; info_autoCleanup := autoCleanup ch;
          info_createdAt := createdAt ch;
          info_age := now s - createdAt ch |}.

(** The name under which the [Map] of channels holds the channel object
    [a], if it still holds it. *)
Definition key_of (a : nat) (s : State) : option string :=
  fst <$> head (filter (λ kv, kv.2 = a) (map_to_list (channels s))).



End EventBus.

Section Topics.
Context `{Host}.

(** *** Instant topics *)

Definition listeners_of (sid : nat) (s : State) : SetData nat :=
  default [] (sets s !! sid).

(** The [unlisten] closure of the wrapped listener [lid]. *)
Definition unlisten (lid : nat) (s : State) : State :=
  match wrappers s !! lid with
  | None => s
  | Some w =>
      let s1 := clear_if_set (debounceTimer w) s in
      let s2 := update_set (w_listeners w) (set_delete Nat.eqb lid) s1 in
      if (set_size (listeners_of (w_listeners w) s2) =? 0)%nat
      then with_eventListeners (delete (w_eventName w)) s2
      else s2
  end.

(** The [executeListener] closure of the wrapped listener [lid]: the
    two statements after the call of the caller's listener are inside
    the same [try] block as the call. *)
Definition executeListener (lid : nat) (transformedData : value) (s : State)
    : option State :=
  w ← wrappers s !! lid;
  r ← invoke (w_listener w) [transformedData] (log (EvListener lid transformedData) s);
  match r.1 with
  | Thrown => Some r.2
  | Returned =>
      let s1 := update_wrapper lid (wr_set_hasExecuted true) r.2 in
      if truthy_bool (w_options w ≫= opt_once)
      then Some (unlisten lid s1)
      else Some s1
  end.

(** The [wrappedListener] closure created by [on]. *)
Definition wrappedListener (lid : nat) (data : value) (s : State) : option State :=
  w ← wrappers s !! lid;
  let options := w_options w in
  if truthy_bool (options ≫= opt_once) && hasExecuted w then Some s
  else if match options ≫= opt_validate with
          | Some validate => negb (validate data)
          | None => false
          end
  then Some s
  else
    let transformedData :=
      match options ≫= opt_transform with
      | Some transform => transform data
      | None => data
      end in
    match truthy (options ≫= opt_debounce) with
    | Some d =>
        let s1 := clear_if_set (debounceTimer w) s in
        let r := setTimeout (ExecuteListener lid transformedData) d s1 in
        Some (update_wrapper lid (wr_set_debounceTimer (Some r.1)) r.2)
    | None =>
        match truthy (options ≫= opt_throttle) with
        | Some t =>
            let timeSinceLastCall := now s - lastCallTime w in
            if t <=? timeSinceLastCall
            then executeListener lid transformedData
                   (update_wrapper lid (wr_set_lastCallTime (now s)) s)
            else Some s
        | None => executeListener lid transformedData s
        end
    end.

(** [on(eventName, listener, options?)]; the result identifies the
    wrapped listener, and with it the [unlisten] closure returned. *)
Definition on (eventName : string) (listener : fn)
    (options : option ListenerOptions) (s : State) : nat * State :=
  let r :=
    match eventListeners s !! eventName with
    | Some sid => (sid, s)
    | None =>
        (length (sets s),
         with_eventListeners (<[eventName := length (sets s)]>)
           (with_sets (λ l, l ++ [[]]) s))
    end in
  let lid := length (wrappers r.2) in
  let w :=
    {| w_eventName := eventName; w_listener := listener;
       w_options := options; w_listeners := r.1;
       debounceTimer := None; lastCallTime := 0; hasExecuted := false |} in
  (lid, update_set r.1 (set_add Nat.eqb lid)
          (with_wrappers (λ l, l ++ [w]) r.2)).

(** [once(eventName, listener)] *)
Definition once (eventName : string) (listener : fn) (s : State) : nat * State :=
  on eventName listener (Some once_only) s.

(** [off(eventName)] *)
Definition off (eventName : string) (s : State) : State :=
  with_eventListeners (delete eventName) s.

(** [emit(eventName, data)]; [fuel] bounds the walk over the listener
    set. *)
Definition emit (fuel : nat) (eventName : string) (data : value) (s : State)
    : option State :=
  match eventListeners s !! eventName with
  | None => Some s
  | Some sid =>
      if (set_size (listeners_of sid s) =? 0)%nat then Some s
      else forEach fuel (listeners_of sid)
             (λ lid s', wrappedListener lid data (log (EvWrapped lid data) s'))
             0%nat s
  end.

(** *** The event loop *)

Definition run_task (tk : task) (s : State) : option State :=
  match tk with
  | TTLExpire channelName => clear channelName s
  | OnChangeCallback _ a h newValue oldValue =>
      executeCallback a h newValue oldValue s
  | ExecuteListener lid transformedData =>
      executeListener lid transformedData s
  end.

(** The pending timer that expires first, the oldest one among equals. *)
Fixpoint earliest (i : nat) (ts : list (option (Z * task)))
    (best : option (nat * Z * task)) : option (nat * Z * task) :=
  match ts with
  | [] => best
  | e :: ts' =>
      earliest (S i) ts'
        match e with
        | None => best
        | Some (due, tk) =>
            match best with
            | Some (_, bdue, _) => if due <? bdue then Some (i, due, tk) else best
            | None => Some (i, due, tk)
            end
        end
  end.

Definition next_due (T : Z) (s : State) : option (nat * Z * task) :=
  match earliest 0 (timers s) None with
  | Some (i, due, tk) => if due <=? T then Some (i, due, tk) else None
  | None => None
  end.

(** Let the clock run up to time [T]: every timer that expires on the
    way fires at its expiry time, in expiry order.  [fuel] bounds the
    number of timers fired. *)
Fixpoint advance (fuel : nat) (T : Z) (s : State) : option State :=
  match next_due T s with
  | None => Some (with_now (Z.max (now s) T) s)
  | Some (i, due, tk) =>
      match fuel with
      | O => None
      | S fuel' =>
          s1 ← run_task tk
                 (with_now (Z.max (now s) due)
                    (with_timers (<[i := None]>) s));
          advance fuel' T s1
      end
  end.
End Topics.

(** A host whose callbacks return at once and leave the broker alone. *)
Definition quiet_host : Host :=
  {| invoke := λ _ _ s, Some (Returned, s);
     JSON_parse := λ _, None;
     JSON_stringify := λ _, None |}.

(** ** The delay controller *)

(** The first document of [config/lithium/decorators/delay.ts]: the class
    [DelayController] and the decorator [delay], which replaces a getter
    of a host element by one that shows a placeholder until a delay is
    over.

    One [Element] record stands for a host element with one decorated
    getter: it holds the controller stored under [this[controllerKey]],
    whether the element is connected, and the clock, the pending timers
    and the suspended calls of [load] of the page.  The caller's getter
    and loader are function identities; what they do when called is given
    by the environment ([Caller]), and every call into them and into
    [host.requestUpdate] is recorded in a ghost [trace].  [load] is an
    [async] method: it runs up to its [await] when it is called and the
    rest when the promise of the loader settles, which is the step
    [resume] of the page.  The host element is Lit's: it calls
    [hostConnected] of a controller that registers while the element is
    connected, and the two hooks from its connected and disconnected
    callbacks. *)
Module Delay.

(** [DelayOptions]; a property that the caller left out is [VUndefined],
    respectively [None]. *)
Record DelayOptions := {
  placeholder : value;
  loader : option fn
}.

(** The fields of a [DelayController] (its host is the [Element] that
    holds it). *)
Record DelayController := {
  originalGetter : fn;
  cachedValue : value;
  isLoaded : bool;
  delay : Z;
  options : DelayOptions;
  timeoutId : option Z
}.

(** Ghost record of the calls a controller makes. *)
Inductive effect :=
| LoaderCalled (f : fn)
| GetterCalled (f : fn)
| UpdateRequested.

Record Element := {
  controller : option DelayController;
  isConnected : bool;
  now : Z;
  timers : list (option Z);
  suspended : nat;
  trace : list (Z * effect)
}.

(** The caller's functions: [call_getter f t] is what the getter [f]
    returns when called on the host at time [t], [None] when it throws;
    [call_loader f t] tells whether the loader [f] returns (a promise, or
    anything else to await) or throws. *)
Class Caller := {
  call_getter : fn → Z → option value;
  call_loader : fn → Z → bool
}.

Definition with_controller (f : DelayController → DelayController)
    (e : Element) : Element :=
  {| controller := f <$> controller e; isConnected := isConnected e;
     now := now e; timers := timers e; suspended := suspended e;
     trace := trace e |}.

Definition with_timers (f : list (option Z) → list (option Z))
    (e : Element) : Element :=
  {| controller := controller e; isConnected := isConnected e;
     now := now e; timers := f (timers e); suspended := suspended e;
     trace := trace e |}.

Definition with_suspended (f : nat → nat) (e : Element) : Element :=
  {| controller := controller e; isConnected := isConnected e;
     now := now e; timers := timers e; suspended := f (suspended e);
     trace := trace e |}.

Definition with_isConnected (b : bool) (e : Element) : Element :=
  {| controller := controller e; isConnected := b;
     now := now e; timers := timers e; suspended := suspended e;
     trace := trace e |}.

Definition with_now (t : Z) (e : Element) : Element :=
  {| controller := controller e; isConnected := isConnected e;
     now := t; timers := timers e; suspended := suspended e;
     trace := trace e |}.

Definition log (x : effect) (e : Element) : Element :=
  {| controller := controller e; isConnected := isConnected e;
     now := now e; timers := timers e; suspended := suspended e;
     trace := trace e ++ [(now e, x)] |}.

Definition set_cachedValue (v : value) (c : DelayController) : DelayController :=
  {| originalGetter := originalGetter c; cachedValue := v;
     isLoaded := isLoaded c; delay := delay c; options := options c;
     timeoutId := timeoutId c |}.

Definition set_isLoaded (b : bool) (c : DelayController) : DelayController :=
  {| originalGetter := originalGetter c; cachedValue := cachedValue c;
     isLoaded := b; delay := delay c; options := options c;
     timeoutId := timeoutId c |}.

Definition set_timeoutId (id : option Z) (c : DelayController) : DelayController :=
  {| originalGetter := originalGetter c; cachedValue := cachedValue c;
     isLoaded := isLoaded c; delay := delay c; options := options c;
     timeoutId := id |}.

(** [v ?? d] *)
Definition nullish_or (v d : value) : value := if present v then v else d.

(** The fields that the constructor sets; [opts] is [None] when the
    decorator was applied without options. *)
Definition new_DelayController (getter : fn) (ms : Z)
    (opts : option DelayOptions) : DelayController :=
  let opts := default {| placeholder := VUndefined; loader := None |} opts in
  {| originalGetter := getter; cachedValue := VNull; isLoaded := false;
     delay := ms;
     options := {| placeholder := nullish_or (placeholder opts) VNull;
                   loader := loader opts |};
     timeoutId := None |}.

Section Controller.
Context `{Caller}.

(** [hostConnected()]: start the timer that will call [load]. *)
Definition hostConnected (e : Element) : Element :=
  match controller e with
  | None => e
  | Some c =>
      with_controller
        (set_timeoutId (Some (Z.of_nat (length (timers e)) + 1)))
        (with_timers (λ ts, ts ++ [Some (now e + timer_delay (delay c))]) e)
  end.

(** [hostDisconnected()] *)
Definition hostDisconnected (e : Element) : Element :=
  match controller e with
  | None => e
  | Some c =>
      match truthy (timeoutId c) with
      | Some id =>
          if 1 <=? id then with_timers (<[Z.to_nat (id - 1) := None]>) e else e
      | None => e
      end
  end.

(** The [catch] block of [load]; when the getter throws here, the
    promise of [load] is rejected and nothing else happens. *)
Definition load_catch (e : Element) : Element :=
  match controller e with
  | None => e
  | Some c =>
      let e1 := log (GetterCalled (originalGetter c))
                  (with_controller (set_isLoaded true) e) in
      match call_getter (originalGetter c) (now e) with
      | Some v => log UpdateRequested (with_controller (set_cachedValue v) e1)
      | None => e1
      end
  end.

(** The statements of the [try] block of [load] after the [await]. *)
Definition load_rest (e : Element) : Element :=
  match controller e with
  | None => e
  | Some c =>
      let e1 := log (GetterCalled (originalGetter c))
                  (with_controller (set_isLoaded true) e) in
      match call_getter (originalGetter c) (now e) with
      | Some v => log UpdateRequested (with_controller (set_cachedValue v) e1)
      | None => load_catch e1
      end
  end.

(** [load()], up to the [await] when there is a loader that returns. *)
Definition load (e : Element) : Element :=
  match controller e with
  | None => e
  | Some c =>
      if isLoaded c then e
      else
        match loader (options c) with
        | Some l =>
            let e1 := log (LoaderCalled l) e in
            if call_loader l (now e)
            then with_suspended S e1
            else load_catch e1
        | None => load_rest e
        end
  end.

(** The promise awaited by a suspended [load] settles: [load] goes on
    after the [await] when it is fulfilled, in the [catch] block when it
    is rejected. *)
Definition resume (fulfilled : bool) (e : Element) : Element :=
  match suspended e with
  | O => e
  | S n =>
      let e1 := with_suspended (λ _, n) e in
      if fulfilled then load_rest e1 else load_catch e1
  end.

(** [getValue()] *)
Definition getValue (c : DelayController) : value :=
  if isLoaded c then cachedValue c
  else nullish_or (placeholder (options c)) VNull.

(** The getter that [delay(ms, options)] installs in place of [getter]:
    the first read creates the controller, which registers with the host
    ([addController] calls [hostConnected] at once when the host is
    connected). *)
Definition get (getter : fn) (ms : Z) (opts : option DelayOptions)
    (e : Element) : value * Element :=
  let e' :=
    match controller e with
    | Some _ => e
    | None =>
        let e1 :=
          {| controller := Some (new_DelayController getter ms opts);
             isConnected := isConnected e; now := now e; timers := timers e;
             suspended := suspended e; trace := trace e |} in
        if isConnected e then hostConnected e1 else e1
    end in
  (default VUndefined (getValue <$> controller e'), e').

(** The host's [connectedCallback] and [disconnectedCallback]. *)
Definition connectedCallback (e : Element) : Element :=
  hostConnected (with_isConnected true e).

Definition disconnectedCallback (e : Element) : Element :=
  hostDisconnected (with_isConnected false e).

(** The pending timer that expires first, the oldest one among equals. *)
Fixpoint earliest (i : nat) (ts : list (option Z)) (best : option (nat * Z))
    : option (nat * Z) :=
  match ts with
  | [] => best
  | t :: ts' =>
      earliest (S i) ts'
        match t with
        | None => best
        | Some due =>
            match best with
            | Some (_, bdue) => if due <? bdue then Some (i, due) else best
            | None => Some (i, due)
            end
        end
  end.

Definition next_due (T : Z) (e : Element) : option (nat * Z) :=
  match earliest 0 (timers e) None with
  | Some (i, due) => if due <=? T then Some (i, due) else None
  | None => None
  end.

(** Let the clock run up to time [T]: every timer that expires on the
    way calls [load] at its expiry time.  [fuel] bounds the number of
    timers fired. *)
Fixpoint advance (fuel : nat) (T : Z) (e : Element) : option Element :=
  match next_due T e with
  | None => Some (with_now (Z.max (now e) T) e)
  | Some (i, due) =>
      match fuel with
      | O => None
      | S fuel' =>
          advance fuel' T
            (load (with_now (Z.max (now e) due)
                     (with_timers (<[i := None]>) e)))
      end
  end.
End Controller.

(** A connected element whose decorated getter has not been read. *)
Definition new_element (t0 : Z) : Element :=
  {| controller := None; isConnected := true; now := t0; timers := [];
     suspended := 0; trace := [] |}.
End Delay.

(** ** Vocabulary of the properties *)

(** *** Timers *)

(** The timer with handle [id] is still waiting to fire. *)
Definition pending (id : Z) (s : State) : bool :=
  (1 <=? id) && bool_decide (is_Some (mjoin (timers s !! Z.to_nat (id - 1)))).

(** *** Listener sets under iteration *)

(** A set object only ever changes by appending entries and by emptying
    slots: a slot that holds a member later held that member before. *)
Definition set_grows (l l' : SetData nat) : Prop :=
  (length l ≤ length l')%nat ∧
  ∀ j x, (j < length l)%nat → l' !! j = Some (Some x) → l !! j = Some (Some x).

Definition sets_grow (s s' : State) : Prop :=
  ∀ sid l, sets s !! sid = Some l →
    ∃ l', sets s' !! sid = Some l' ∧ set_grows l l'.

(** A host whose callbacks change listener sets and the trace only the
    way broker operations do. *)
Definition host_monotone `{Host} : Prop :=
  ∀ f args s o s', invoke f args s = Some (o, s') →
    sets_grow s s' ∧ trace s `prefix_of` trace s'.

(** A host in which the function [1] registers the function [2] as a
    listener of topic ["t"], and every other function does nothing. *)
Definition registering_host : Host :=
  {| invoke := λ f _ s,
       if (f =? 1)%nat then Some (Returned, (on "t" 2%nat None s).2)
       else Some (Returned, s);
     JSON_parse := λ _, None;
     JSON_stringify := λ _, None |}.

(** A host in which the function [1] first drops topic ["t"] with [off]
    and then registers the function [2] as its listener, and every other
    function does nothing. *)
Definition off_on_host : Host :=
  {| invoke := λ f _ s,
       if (f =? 1)%nat
       then Some (Returned, (on "t" 2%nat None (off "t" s)).2)
       else Some (Returned, s);
     JSON_parse := λ _, None;
     JSON_stringify := λ _, None |}.

(** Topic ["t"] with the single listener [1]. *)
Definition one_listener : State := (on "t" 1%nat None (initial_state 0)).2.

(** *** Listeners and their wrappers *)

(** The payloads with which the caller's listener behind the wrapped
    listener [lid] has been called, oldest first. *)
Definition calls_of (lid : nat) (tr : list (Z * event)) : list value :=
  omap (λ te : Z * event,
          match te.2 with
          | EvListener l v => if (l =? lid)%nat then Some v else None
          | _ => None
          end) tr.

(** Every call into caller code comes back. *)
Definition host_total `{Host} : Prop :=
  ∀ f args s, is_Some (invoke f args s).

(** The callbacks do not use the topic half of the broker: they leave the
    topic registry, the listener sets and the wrapped listeners as they
    are, and no listener call is recorded on their behalf. *)
Definition host_leaves_topics `{Host} : Prop :=
  ∀ f args s o s', invoke f args s = Some (o, s') →
    eventListeners s' = eventListeners s ∧ sets s' = sets s ∧
    wrappers s' = wrappers s ∧
    ∀ lid, calls_of lid (trace s') = calls_of lid (trace s).

(** The listener set registered for [eventName] exists, and its members
    are wrapped listeners that were created for this very set: [on] adds a
    wrapped listener to no other set than the one it captured. *)
Definition topic_wf (eventName : string) (s : State) : Prop :=
  ∀ sid, eventListeners s !! eventName = Some sid →
    ∃ l, sets s !! sid = Some l ∧
      ∀ j lid, l !! j = Some (Some lid) →
        ∃ w, wrappers s !! lid = Some w ∧ w_listeners w = sid.

(** Number of slots of the listener set of [eventName]. *)
Definition listener_slots (eventName : string) (s : State) : nat :=
  match eventListeners s !! eventName with
  | Some sid => length (listeners_of sid s)
  | None => 0
  end.

(** What a call of a wrapped listener does to the topic half of the
    state. *)
Definition wrapped_effect (lid' : nat) (w' : Wrapper) (st st' : State) : Prop :=
  (∀ x, x ≠ lid' → calls_of x (trace st') = calls_of x (trace st)) ∧
  (∀ x, x ≠ lid' → wrappers st' !! x = wrappers st !! x) ∧
  (∃ w'', wrappers st' !! lid' = Some w'' ∧
          w_listeners w'' = w_listeners w' ∧ w_eventName w'' = w_eventName w' ∧
          w_options w'' = w_options w' ∧ w_listener w'' = w_listener w') ∧
  (sets st' = sets st ∧ eventListeners st' = eventListeners st
   ∨ sets st' = alter (set_delete Nat.eqb lid') (w_listeners w') (sets st) ∧
     (eventListeners st' = eventListeners st
      ∨ set_size (listeners_of (w_listeners w') st') = 0%nat ∧
        eventListeners st' = delete (w_eventName w') (eventListeners st))).

(** Apart from slot [k], the members of the set [sid] are wrapped
    listeners other than [lid] that were created for this set. *)
Definition tracked (sid k lid n : nat) (st : State) : Prop :=
  ∃ l, sets st !! sid = Some l ∧ length l = n ∧
    ∀ j lid', l !! j = Some (Some lid') → j ≠ k →
      lid' ≠ lid ∧ ∃ w, wrappers st !! lid' = Some w ∧ w_listeners w = sid.

(** The closure state with which [on] creates a wrapped listener. *)
Definition fresh_wrapper (eventName : string) (listener : fn)
    (options : option ListenerOptions) (sid : nat) : Wrapper :=
  {| w_eventName := eventName; w_listener := listener; w_options := options;
     w_listeners := sid; debounceTimer := None; lastCallTime := 0;
     hasExecuted := false |}.

(** A host in which the function [1] throws whenever it is called and
    every other function returns; none of them touches the broker. *)
Definition throwing_host : Host :=
  {| invoke := λ f _ s, Some (if (f =? 1)%nat then Thrown else Returned, s);
     JSON_parse := λ _, None;
     JSON_stringify := λ _, None |}.

(** *** Sample channels *)

(** A config whose [validate] accepts the positive numbers only. *)
Definition positive_only : ChannelConfig :=
  {| cfg_initialValue := VNum 1; cfg_storage := None;
     cfg_storageKey := None; cfg_ttl := None; cfg_autoCleanup := None;
     cfg_onChange := None; cfg_onInit := None; cfg_onClear := None;
     cfg_validate := Some (λ v, match v with VNum z => 0 <? z | _ => false end);
     cfg_transform := None; cfg_debounce := None; cfg_throttle := None |}.

(** A session-stored channel with a lifetime, all three hooks and a
    debounced [onChange]. *)
Definition busy_config : ChannelConfig :=
  {| cfg_initialValue := VNum 1; cfg_storage := Some session;
     cfg_storageKey := None; cfg_ttl := Some 1000; cfg_autoCleanup := None;
     cfg_onChange := Some 7%nat; cfg_onInit := Some 8%nat;
     cfg_onClear := Some 9%nat;
     cfg_validate := None; cfg_transform := None;
     cfg_debounce := Some 10; cfg_throttle := None |}.

(** The state after [channel("a", cfg)] in a fresh broker at time [0]. *)
Definition with_channel_a `{Host} (cfg : ChannelConfig) : State :=
  from_option snd (initial_state 0) (channel "a" (Some cfg) (initial_state 0)).

(** A subscribed channel ["a"] under [busy_config] after one publish: its
    TTL timer and its debounce timer are pending and its value is stored. *)
Definition busy_state : State :=
  default (initial_state 0)
    (r ← subscribe (H := quiet_host) "a" 5%nat
           (with_channel_a (H := quiet_host) busy_config);
     publish (H := quiet_host) 3 "a" (VNum 2) r.2).

(** The channel object of [busy_state]. *)
Definition busy_channel : Channel :=
  {| signal := VNum 2; storage := session; storageKey := "lithium:a";
     subscribers := [Some 5%nat]; ttl := Some 1000; autoCleanup := false;
     timeoutId := Some 1; createdAt := 0; config := Some busy_config;
     isInitialized := true; onChangeDebounceTimer := Some 2;
     onChangeLastCall := None |}.

(** *** Hook calls of one channel *)

(** The values with which the [onInit] hook of the channel object [a] has
    been called, oldest first. *)
Definition oninit_of (a : nat) (tr : list (Z * event)) : list value :=
  omap (λ te : Z * event,
          match te.2 with
          | EvOnInit a' v => if (a' =? a)%nat then Some v else None
          | _ => None
          end) tr.

(** The calls of the [onChange] hook of the channel object [a]: time of
    the call, new value, old value. *)
Definition onchange_of (a : nat) (tr : list (Z * event)) : list (Z * value * value) :=
  omap (λ te : Z * event,
          match te.2 with
          | EvOnChange a' newValue oldValue =>
              if (a' =? a)%nat then Some (te.1, newValue, oldValue) else None
          | _ => None
          end) tr.

(** The channel [channelName], its object [a] and the record of its hook
    calls are the same in [s'] as in [s]. *)
Definition chan_frame (channelName : string) (a : nat) (s s' : State) : Prop :=
  channels s' !! channelName = channels s !! channelName ∧
  chan_heap s' !! a = chan_heap s !! a ∧
  oninit_of a (trace s') = oninit_of a (trace s) ∧
  onchange_of a (trace s') = onchange_of a (trace s).

(** The callbacks do not act on the channel [channelName]: they neither
    publish to it nor clear it nor subscribe to it. *)
Definition host_leaves_channel `{Host} (channelName : string) (a : nat) : Prop :=
  ∀ f args s o s', invoke f args s = Some (o, s') → chan_frame channelName a s s'.

(** The callbacks neither start nor cancel timers. *)
Definition host_leaves_clock `{Host} : Prop :=
  ∀ f args s o s', invoke f args s = Some (o, s') →
    timers s' = timers s ∧ now s' = now s.

(** What a caller does with one channel. *)
Inductive use :=
| Publish (v : value)
| Subscribe (callback : fn).

Fixpoint run_uses `{Host} (fuel : nat) (channelName : string) (us : list use)
    (s : State) : option State :=
  match us with
  | [] => Some s
  | Publish v :: us' =>
      s' ← publish fuel channelName v s;
      run_uses fuel channelName us' s'
  | Subscribe callback :: us' =>
      r ← subscribe channelName callback s;
      run_uses fuel channelName us' r.2
  end.

(** Whether the channel's [validate] lets the value through. *)
Definition accepts (cfg : option ChannelConfig) (v : value) : bool :=
  match cfg ≫= cfg_validate with
  | Some validate => validate v
  | None => true
  end.

(** The value the channel stores for a published value. *)
Definition transformed (cfg : option ChannelConfig) (v : value) : value :=
  match cfg ≫= cfg_transform with
  | Some transform => transform v
  | None => v
  end.

(** The values a run of uses stores in the channel, in order. *)
Fixpoint published (cfg : option ChannelConfig) (us : list use) : list value :=
  match us with
  | [] => []
  | Publish v :: us' =>
      if accepts cfg v then transformed cfg v :: published cfg us'
      else published cfg us'
  | Subscribe _ :: us' => published cfg us'
  end.

Fixpoint first_present (vs : list value) : option value :=
  match vs with
  | [] => None
  | v :: vs' => if present v then Some v else first_present vs'
  end.

(** The fields of a channel object that [executeOnChange] never writes. *)
Definition chan_core (ch : Channel) :=
  (signal ch, storage ch, storageKey ch, subscribers ch, ttl ch,
   autoCleanup ch, timeoutId ch, createdAt ch, config ch, isInitialized ch).

(** A channel that starts without a value, accepts the positive numbers,
    doubles them and has an [onInit] hook. *)
Definition doubling_config : ChannelConfig :=
  {| cfg_initialValue := VUndefined; cfg_storage := None;
     cfg_storageKey := None; cfg_ttl := None; cfg_autoCleanup := None;
     cfg_onChange := None; cfg_onInit := Some 8%nat; cfg_onClear := None;
     cfg_validate := Some (λ v, match v with VNum z => 0 <? z | _ => false end);
     cfg_transform := Some (λ v, match v with VNum z => VNum (2 * z) | _ => v end);
     cfg_debounce := None; cfg_throttle := None |}.

(** A rejected publish, a subscription and two accepted publishes. *)
Definition sample_uses : list use :=
  [Publish (VNum (-3)); Subscribe 5%nat; Publish (VNum 2); Publish (VNum 3)].

(** *** Bursts of publishes *)

(** No timer of [s] expires up to time [T]. *)
Definition quiet_until (T : Z) (s : State) : Prop :=
  ∀ i due tk, timers s !! i = Some (Some (due, tk)) → T < due.

(** The timer table after [if (handle) clearTimeout(handle)]. *)
Definition cancel (handle : option Z) (ts : list (option (Z * task)))
    : list (option (Z * task)) :=
  match truthy handle with
  | Some id => if 1 <=? id then <[Z.to_nat (id - 1) := None]> ts else ts
  | None => ts
  end.

(** Publishes to one channel, each one [gap] milliseconds after the
    previous operation; the event loop runs in between. *)
Fixpoint burst `{Host} (fuel : nat) (channelName : string)
    (ps : list (Z * value)) (s : State) : option State :=
  match ps with
  | [] => Some s
  | (gap, v) :: ps' =>
      s1 ← advance fuel (now s + gap) s;
      s2 ← publish fuel channelName v s1;
      burst fuel channelName ps' s2
  end.

(** Total time taken by a burst. *)
Definition burst_time (ps : list (Z * value)) : Z :=
  foldr (λ p acc, p.1 + acc) 0 ps.






(** A channel whose [onChange] is debounced by [2^31] ms. *)
Definition long_debounce_config : ChannelConfig :=
  {| cfg_initialValue := VNum 1; cfg_storage := None;
     cfg_storageKey := None; cfg_ttl := None; cfg_autoCleanup := None;
     cfg_onChange := Some 7%nat; cfg_onInit := None; cfg_onClear := None;
     cfg_validate := None; cfg_transform := None;
     cfg_debounce := Some 2147483648; cfg_throttle := None |}.


(** The channel while its throttle window, opened by the call of
    [onChange] at time [t1], is closed. *)
Definition throttled (channelName : string) (a : nat) (cfg : ChannelConfig)
    (subs : SetData fn) (fired : list (Z * value * value))
    (tms : list (option (Z * task))) (t1 : Z) (st : State) : Prop :=
  channels st !! channelName = Some a ∧
  onchange_of a (trace st) = fired ∧ timers st = tms ∧ t1 ≤ now st ∧
  ∃ ch, chan_heap st !! a = Some ch ∧ config ch = Some cfg ∧
    subscribers ch = subs ∧ onChangeLastCall ch = Some t1.

(** A channel with an [onChange] hook throttled to one call per 100 ms. *)
Definition throttled_config : ChannelConfig :=
  {| cfg_initialValue := VNum 1; cfg_storage := None;
     cfg_storageKey := None; cfg_ttl := None; cfg_autoCleanup := None;
     cfg_onChange := Some 7%nat; cfg_onInit := None; cfg_onClear := None;
     cfg_validate := None; cfg_transform := None;
     cfg_debounce := None; cfg_throttle := Some 100 |}.

(** The state after [channel("a", throttled_config)] at time [5000]. *)
Definition throttled_state : State :=
  from_option snd (initial_state 5000)
    (channel (H := quiet_host) "a" (Some throttled_config) (initial_state 5000)).

(** The channel object of [throttled_state]. *)
Definition throttled_channel : Channel :=
  {| signal := VNum 1; storage := memory; storageKey := "lithium:a";
     subscribers := []; ttl := None; autoCleanup := false;
     timeoutId := None; createdAt := 5000; config := Some throttled_config;
     isInitialized := true; onChangeDebounceTimer := None;
     onChangeLastCall := None |}.

(** *** Callbacks that reenter the broker *)

(** The state of the [onInit] bookkeeping that every reachable broker
    state satisfies: for each channel object the hook has been called
    once if the object is marked initialized and has the hook, and never
    otherwise; an object not marked initialized holds no present value;
    and no call is recorded for an object that does not exist yet. *)
Definition oninit_ok_on (h : list Channel) (tr : list (Z * event)) : Prop :=
  (∀ a ch, h !! a = Some ch →
     length (oninit_of a tr) =
       (if isInitialized ch && bool_decide (is_Some (config ch ≫= cfg_onInit))
        then 1 else 0)%nat ∧
     (isInitialized ch = false → present (signal ch) = false)) ∧
  (∀ a, (length h ≤ a)%nat → oninit_of a tr = []).

Definition oninit_ok (s : State) : Prop :=
  oninit_ok_on (chan_heap s) (trace s).

(** An event other than a call of [onInit]. *)
Definition not_oninit (e : event) : Prop :=
  match e with
  | EvOnInit _ _ => False
  | _ => True
  end.

(** A field update that leaves value, config and initialized flag alone. *)
Definition benign (f : Channel → Channel) : Prop :=
  ∀ ch, isInitialized (f ch) = isInitialized ch ∧
        config (f ch) = config ch ∧ signal (f ch) = signal ch.

(** The callbacks keep a property of the broker state. *)
Definition host_preserves `{Host} (P : State → Prop) : Prop :=
  ∀ f args s o s', invoke f args s = Some (o, s') → P s → P s'.

(** The operations of the public surface, and the clock running on. *)
Inductive call :=
| CallChannel (channelName : string) (cfg : option ChannelConfig)
| CallPublish (channelName : string) (v : value)
| CallSubscribe (channelName : string) (callback : fn)
| CallUnsubscribe (u : Unsubscribe)
| CallClear (channelName : string)
| CallEmit (eventName : string) (data : value)
| CallOn (eventName : string) (listener : fn) (options : option ListenerOptions)
| CallOnce (eventName : string) (listener : fn)
| CallUnlisten (lid : nat)
| CallOff (eventName : string)
| Wait (T : Z).

Definition run_call `{Host} (fuel : nat) (c : call) (s : State) : option State :=
  match c with
  | CallChannel channelName cfg => r ← channel channelName cfg s; Some r.2
  | CallPublish channelName v => publish fuel channelName v s
  | CallSubscribe channelName callback =>
      r ← subscribe channelName callback s; Some r.2
  | CallUnsubscribe u => unsubscribe u s
  | CallClear channelName => clear channelName s
  | CallEmit eventName data => emit fuel eventName data s
  | CallOn eventName listener options => Some (on eventName listener options s).2
  | CallOnce eventName listener => Some (once eventName listener s).2
  | CallUnlisten lid => Some (unlisten lid s)
  | CallOff eventName => Some (off eventName s)
  | Wait T => advance fuel T s
  end.

Fixpoint run_calls `{Host} (fuel : nat) (cs : list call) (s : State)
    : option State :=
  match cs with
  | [] => Some s
  | c :: cs' => s' ← run_call fuel c s; run_calls fuel cs' s'
  end.

(** Callbacks written as programs over the public surface: the function
    [f] called with [args] runs the calls [(code f args).1] and then ends
    the way [(code f args).2] says.  [depth] bounds the nesting of
    callbacks inside callbacks; [base] supplies [JSON]. *)
Fixpoint scripted_host (base : Host)
    (code : fn → list value → list call * outcome)
    (fuel depth : nat) : Host :=
  {| invoke := λ f args s,
       match depth with
       | O => None
       | S depth' =>
           s' ← run_calls (H := scripted_host base code fuel depth') fuel
                  (code f args).1 s;
           Some ((code f args).2, s')
       end;
     JSON_parse := @JSON_parse base;
     JSON_stringify := @JSON_stringify base |}.

(** *** Callbacks outside the broker *)

(** The callbacks run outside the broker: each one returns or throws
    without calling the broker and without touching the browser stores,
    the clock or the timers. *)
Definition host_outside `{Host} : Prop :=
  ∀ f args s, ∃ o, invoke f args s = Some (o, s).

(** The state with another record of calls. *)
Definition with_trace (tr : list (Z * event)) (s : State) : State :=
  {| channels := channels s; chan_heap := chan_heap s;
     eventListeners := eventListeners s; sets := sets s;
     wrappers := wrappers s; initialized := initialized s;
     sessionStorage := sessionStorage s; localStorage := localStorage s;
     now := now s; timers := timers s; trace := tr |}.

(** The members of a set, in insertion order. *)
Definition members {A} (d : SetData A) : list A := omap id d.

(** A host whose callbacks return at once and whose [JSON] knows the
    texts [null] and [7]. *)
Definition small_json_host : Host :=
  {| invoke := λ _ _ s, Some (Returned, s);
     JSON_parse := λ raw,
       if String.eqb raw "null" then Some VNull
       else if String.eqb raw "7" then Some (VNum 7) else None;
     JSON_stringify := λ v,
       match v with
       | VNull => Some "null"%string
       | VNum 7 => Some "7"%string
       | _ => None
       end |}.

(** *** Subscriber calls of one channel *)

(** The calls of the subscribers of the channel object [a]: callback and
    value, oldest first. *)
Definition notified_of (a : nat) (tr : list (Z * event)) : list (fn * value) :=
  omap (λ te : Z * event,
          match te.2 with
          | EvSubscriber a' cb v => if (a' =? a)%nat then Some (cb, v) else None
          | _ => None
          end) tr.




(** A channel kept in the session store. *)
Definition session_config : ChannelConfig :=
  {| cfg_initialValue := VNum 1; cfg_storage := Some session;
     cfg_storageKey := None; cfg_ttl := None; cfg_autoCleanup := None;
     cfg_onChange := None; cfg_onInit := None; cfg_onClear := None;
     cfg_validate := None; cfg_transform := None;
     cfg_debounce := None; cfg_throttle := None |}.

(** The channel object of [with_channel_a session_config]. *)
Definition session_channel : Channel :=
  {| signal := VNum 1; storage := session; storageKey := "lithium:a";
     subscribers := []; ttl := None; autoCleanup := false;
     timeoutId := None; createdAt := 0; config := Some session_config;
     isInitialized := true; onChangeDebounceTimer := None;
     onChangeLastCall := None |}.




(** *** Hook calls when a channel goes away *)

(** The times at which the [onClear] hook of the channel object [a] has
    been called. *)
Definition onclear_of (a : nat) (tr : list (Z * event)) : list Z :=
  omap (λ te : Z * event,
          match te.2 with
          | EvOnClear a' => if (a' =? a)%nat then Some te.1 else None
          | _ => None
          end) tr.

(** *** Listener options *)






(** *** The registry of channels *)

(** Every registered name denotes an existing channel object, and no two
    names denote the same object. *)
Definition registry_wf (s : State) : Prop :=
  ∀ channelName a, channels s !! channelName = Some a →
    (a < length (chan_heap s))%nat ∧
    ∀ name', channels s !! name' = Some a → name' = channelName.


(** Every registered topic denotes an existing listener set, the
    members of a listener set are wrapped listeners that [on] created for
    that set, and no listener set holds a member twice. *)
Definition topics_ok (s : State) : Prop :=
  (∀ eventName sid, eventListeners s !! eventName = Some sid →
     (sid < length (sets s))%nat) ∧
  (∀ sid l j lid, sets s !! sid = Some l → l !! j = Some (Some lid) →
     (w_listeners <$> wrappers s) !! lid = Some sid) ∧
  (∀ sid l, sets s !! sid = Some l → NoDup (members l)).

Definition broker_wf (s : State) : Prop := registry_wf s ∧ topics_ok s.


(** Whether a walk that clears the channels picked by [sel] clears the
    channel object [a] of the state [s]. *)
Definition cleared_by (sel : Channel → bool) (s : State) (a : nat) : bool :=
  match key_of a s, chan_heap s !! a with
  | Some _, Some ch => sel ch
  | _, _ => false
  end.


(** A memory channel ["m"] and a session channel ["a"], both with an
    [onClear] hook, after a publish to each. *)
Definition memory_config : ChannelConfig :=
  {| cfg_initialValue := VNum 1; cfg_storage := None;
     cfg_storageKey := None; cfg_ttl := None; cfg_autoCleanup := None;
     cfg_onChange := None; cfg_onInit := None; cfg_onClear := Some 9%nat;
     cfg_validate := None; cfg_transform := None;
     cfg_debounce := None; cfg_throttle := None |}.


(** Callbacks that call back: the hook [9] clears the channel ["b"] and
    registers a listener, and the listener [3] publishes to ["b"]; the
    other functions return at once. *)
Definition reentrant_code (f : fn) (args : list value) : list call * outcome :=
  if (f =? 9)%nat
  then ([CallClear "b"; CallOn "t" 3%nat None], Returned)
  else if (f =? 3)%nat
  then ([CallPublish "b" (VNum 1)], Thrown)
  else ([], Returned).

(** A program over the public surface that makes those callbacks run. *)
Definition reentrant_program : list call :=
  [CallChannel "m" (Some memory_config); CallPublish "b" (VNum 0);
   CallClear "m"; CallEmit "t" (VNum 2); CallOff "t"].

(** *** The walk of [emit] *)

(** The wrapped listeners that were called, with their payloads, oldest
    first. *)
Definition wrapped_calls (tr : list (Z * event)) : list (nat * value) :=
  omap (λ te : Z * event,
          match te.2 with
          | EvWrapped lid data => Some (lid, data)
          | _ => None
          end) tr.

(** The wrapped listeners of the topic [eventName], in the order of their
    registration. *)
Definition topic_members (eventName : string) (s : State) : list nat :=
  match eventListeners s !! eventName with
  | Some sid => members (listeners_of sid s)
  | None => []
  end.

(** Topic ["t"] with a listener that throws, a [once] listener and a
    plain listener, registered in this order. *)
Definition three_listeners : State :=
  (on "t" 2%nat None
     (once "t" 0%nat (on "t" 1%nat None (initial_state 0)).2).2).2.

(** *** The delay controller *)

(** What a decorated getter shows while its content is not loaded. *)
Definition placeholder_of (opts : option Delay.DelayOptions) : value :=
  Delay.nullish_or (default VUndefined (Delay.placeholder <$> opts)) VNull.

(** A caller whose getter returns the time at which it is called, and
    whose loader [1] throws while every other loader returns. *)
Definition clock_caller : Delay.Caller :=
  {| Delay.call_getter := λ _ t, Some (VNum t);
     Delay.call_loader := λ f _, negb (f =? 1)%nat |}.

(** A caller whose getter throws. *)
Definition throwing_caller : Delay.Caller :=
  {| Delay.call_getter := λ _ _, None;
     Delay.call_loader := λ _ _, true |}.

(** Options with a placeholder and no loader. *)
Definition waiting_options : Delay.DelayOptions :=
  {| Delay.placeholder := VStr "wait"; Delay.loader := None |}.

(** Options with a placeholder and the loader [l]. *)
Definition loading_options (l : fn) : Delay.DelayOptions :=
  {| Delay.placeholder := VStr "wait"; Delay.loader := Some l |}.

(** What can happen to an element with a decorated getter: the getter is
    read, the host is connected or disconnected, time passes, the promise
    of a loader settles. *)
Inductive page_step :=
| ReadGetter
| HostConnects
| HostDisconnects
| TimePasses (T : Z)
| LoaderSettles (fulfilled : bool).

Definition run_page_step `{Delay.Caller} (getter : fn) (ms : Z)
    (opts : option Delay.DelayOptions) (fuel : nat) (st : page_step)
    (e : Delay.Element) : option Delay.Element :=
  match st with
  | ReadGetter => Some (Delay.get getter ms opts e).2
  | HostConnects => Some (Delay.connectedCallback e)
  | HostDisconnects => Some (Delay.disconnectedCallback e)
  | TimePasses T => Delay.advance fuel T e
  | LoaderSettles fulfilled => Some (Delay.resume fulfilled e)
  end.

Fixpoint run_page_steps `{Delay.Caller} (getter : fn) (ms : Z)
    (opts : option Delay.DelayOptions) (fuel : nat) (sts : list page_step)
    (e : Delay.Element) : option Delay.Element :=
  match sts with
  | [] => Some e
  | st :: sts' =>
      e' ← run_page_step getter ms opts fuel st e;
      run_page_steps getter ms opts fuel sts' e'
  end.

(** The controller of the element has loaded the content [v], no call of
    [load] is suspended, and the calls recorded are [tr]. *)
Definition loaded_with (v : value) (tr : list (Z * Delay.effect))
    (e : Delay.Element) : Prop :=
  (∃ c, Delay.controller e = Some c ∧ Delay.isLoaded c = true ∧
        Delay.cachedValue c = v) ∧
  Delay.suspended e = 0%nat ∧ Delay.trace e = tr.

(** *** Callbacks that keep a journal *)

(** The argument lists that the function [f] has noted in its journal,
    oldest first. *)
Definition journal_of (f : fn) (tr : list (Z * event)) : list (list value) :=
  omap (λ te : Z * event,
          match te.2 with
          | EvJournal f' args => if (f' =? f)%nat then Some args else None
          | _ => None
          end) tr.

(** The function [h] keeps a journal of its calls: every call of [h]
    adds the arguments of that call to the journal, and nothing else that
    the callbacks do adds to it. *)
Definition host_journals `{Host} (h : fn) : Prop :=
  ∀ f args s o s', invoke f args s = Some (o, s') →
    journal_of h (trace s') =
    journal_of h (trace s) ++ (if (f =? h)%nat then [args] else []).

(** A host in which every function notes its call in its journal and
    returns. *)
Definition journaling_host : Host :=
  {| invoke := λ f args s, Some (Returned, log (EvJournal f args) s);
     JSON_parse := λ _, None;
     JSON_stringify := λ _, None |}.

(** What a call of the hook [hook] with [args] adds to the journal of
    [h]. *)
Definition noted (h : fn) (hook : option fn) (args : list value)
    : list (list value) :=
  match hook with
  | Some f => if (f =? h)%nat then [args] else []
  | None => []
  end.

(** Whether [executeOnChange] calls the hook at once, at time [t]: not
    with a debounce interval, and with a throttle interval only when the
    last call is old enough. *)
Definition onchange_fires (ch : Channel) (t : Z) : bool :=
  let cfg_ := default empty_config (config ch) in
  match truthy (cfg_debounce cfg_) with
  | Some _ => false
  | None =>
      match truthy (cfg_throttle cfg_) with
      | Some t' => t' <=? t - default 0 (truthy (onChangeLastCall ch))
      | None => true
      end
  end.

(** * Properties *)

(** ** The model at work *)

(** A transform applies to every publish on an existing channel. *)
Example publish_applies_transform :
  getValue "a"
    (default (initial_state 0)
       (publish (H := quiet_host) 1 "a" (VNum 5)
          (with_channel_a (H := quiet_host) doubling_config)))
  = VNum 10.
Proof. vm_compute. reflexivity. Qed.

(** A channel with [ttl = 1000] is gone at time 1000 without any publish,
    and still there at time 999. *)
Example ttl_expires :
  listChannels <$> advance (H := quiet_host) 2 999
                     (with_channel_a (H := quiet_host) busy_config) = Some ["a"] ∧
  listChannels <$> advance (H := quiet_host) 2 1000
                     (with_channel_a (H := quiet_host) busy_config) = Some [].
Proof. split; vm_compute; reflexivity. Qed.

(** With [autoCleanup], the channel is cleared when its only subscriber
    leaves. *)
Example autoCleanup_clears :
  listChannels <$>
    (r ← channel (H := quiet_host) "a"
           (Some {| cfg_initialValue := VNum 1; cfg_storage := None;
                    cfg_storageKey := None; cfg_ttl := None;
                    cfg_autoCleanup := Some true; cfg_onChange := None;
                    cfg_onInit := None; cfg_onClear := None;
                    cfg_validate := None; cfg_transform := None;
                    cfg_debounce := None; cfg_throttle := None |})
           (initial_state 0);
     u ← subscribe (H := quiet_host) "a" 5%nat r.2;
     unsubscribe (H := quiet_host) u.1 u.2)
  = Some [].
Proof. vm_compute. reflexivity. Qed.

(** An [emit] on a topic without listeners changes nothing. *)
Example emit_without_listeners s :
  eventListeners s !! "t" = None →
  emit (H := quiet_host) 0 "t" (VNum 1) s = Some s.
Proof. intros Hnone. unfold emit. by rewrite Hnone. Qed.

(** A debounced listener is called once for two emits 3 ms apart, with the
    second payload, 10 ms after the second emit. *)
Example debounced_listener :
  trace <$>
    (s1 ← emit (H := quiet_host) 2 "t" (VNum 1)
            (on "t" 1%nat
               (Some {| opt_validate := None; opt_transform := None;
                        opt_debounce := Some 10; opt_throttle := None;
                        opt_once := None |})
               (initial_state 0)).2;
     s2 ← advance (H := quiet_host) 2 3 s1;
     s3 ← emit (H := quiet_host) 2 "t" (VNum 2) s2;
     advance (H := quiet_host) 2 50 s3)
  = Some [(0, EvWrapped 0%nat (VNum 1)); (3, EvWrapped 0%nat (VNum 2));
          (13, EvListener 0%nat (VNum 2))].
Proof. vm_compute. reflexivity. Qed.

(** ** State primitives, sets and hosts *)

Lemma timer_delay_small delay :
  delay < 2147483648 → timer_delay delay = Z.max 0 delay.
Proof. intros Hlt. unfold timer_delay. by rewrite (proj2 (Z.ltb_lt _ _)). Qed.



Lemma set_grows_refl l : set_grows l l.
Proof. split; [done|]. auto. Qed.

Lemma set_grows_trans l1 l2 l3 :
  set_grows l1 l2 → set_grows l2 l3 → set_grows l1 l3.
Proof.
  intros [Hl1 H1] [Hl2 H2]. split; [lia|].
  intros j x Hj Hx. apply H1; [done|]. apply H2; [lia|done].
Qed.

Lemma sets_grow_refl s : sets_grow s s.
Proof. intros sid l Hl. exists l. split; [done|apply set_grows_refl]. Qed.

Lemma sets_grow_trans s1 s2 s3 :
  sets_grow s1 s2 → sets_grow s2 s3 → sets_grow s1 s3.
Proof.
  intros H1 H2 sid l Hl. destruct (H1 _ _ Hl) as (l2 & Hl2 & Hg1).
  destruct (H2 _ _ Hl2) as (l3 & Hl3 & Hg2).
  exists l3. split; [done|]. by eapply set_grows_trans.
Qed.

Lemma sets_grow_eq s s' : sets s' = sets s → sets_grow s s'.
Proof. intros Heq sid l Hl. exists l. rewrite Heq. split; [done|apply set_grows_refl]. Qed.

Lemma set_grows_delete x l : set_grows l (set_delete Nat.eqb x l).
Proof.
  unfold set_delete. split; [by rewrite length_map|].
  intros j y Hj Hy. change (map ?f l) with (f <$> l) in Hy.
  rewrite list_lookup_fmap in Hy.
  destruct (l !! j) as [e|]; [|done]. cbn in Hy.
  by destruct (entry_is Nat.eqb x e); simplify_eq.
Qed.

Lemma set_grows_add x l : set_grows l (set_add Nat.eqb x l).
Proof.
  unfold set_add. destruct (set_has Nat.eqb x l); [apply set_grows_refl|].
  split; [rewrite length_app; lia|].
  intros j y Hj Hy. by rewrite lookup_app_l in Hy.
Qed.

Lemma sets_grow_alter s s' sid f :
  sets s' = alter f sid (sets s) → (∀ l, set_grows l (f l)) → sets_grow s s'.
Proof.
  intros Heq Hf sid' l Hl. rewrite Heq.
  destruct (decide (sid = sid')) as [->|Hne].
  - exists (f l). split; [|done]. by rewrite list_lookup_alter_eq, Hl.
  - exists l. split; [|apply set_grows_refl]. by rewrite list_lookup_alter_ne.
Qed.

Lemma clear_if_set_fields handle s :
  channels (clear_if_set handle s) = channels s ∧
  chan_heap (clear_if_set handle s) = chan_heap s ∧
  eventListeners (clear_if_set handle s) = eventListeners s ∧
  sets (clear_if_set handle s) = sets s ∧
  wrappers (clear_if_set handle s) = wrappers s ∧
  now (clear_if_set handle s) = now s ∧
  trace (clear_if_set handle s) = trace s.
Proof. unfold clear_if_set, clearTimeout. by repeat case_match. Qed.

Lemma forEach_fixed {A} (Q : nat → State → Prop) (entries : State → SetData A)
    (body : A → State → option State) (n : nat) :
  (∀ j st, Q j st → length (entries st) = n) →
  (∀ j st e, Q j st → entries st !! j = Some (Some e) →
     ∃ st', body e st = Some st' ∧ Q (S j) st') →
  (∀ j st, Q j st → entries st !! j = Some None → Q (S j) st) →
  ∀ fuel i st, (i ≤ n)%nat → (n - i < fuel)%nat → Q i st →
    ∃ st', forEach fuel entries body i st = Some st' ∧ Q n st'.
Proof.
  intros Hlen Hstep Hskip. induction fuel as [|fuel IH]; [lia|].
  intros i st Hi Hfuel HQ. cbn.
  destruct (entries st !! i) as [[e|]|] eqn:He.
  - destruct (Hstep _ _ _ HQ He) as (st' & -> & HQ'). cbn.
    apply lookup_lt_Some in He. rewrite (Hlen _ _ HQ) in He.
    apply IH; [lia|lia|done].
  - apply lookup_lt_Some in He as He'. rewrite (Hlen _ _ HQ) in He'.
    apply IH; [lia|lia|by apply Hskip].
  - apply lookup_ge_None in He. rewrite (Hlen _ _ HQ) in He.
    assert (i = n) as -> by lia. eauto.
Qed.

Lemma calls_of_app lid tr1 tr2 :
  calls_of lid (tr1 ++ tr2) = calls_of lid tr1 ++ calls_of lid tr2.
Proof. apply omap_app. Qed.

Lemma trace_log e s : trace (log e s) = trace s ++ [(now s, e)].
Proof. done. Qed.

Lemma calls_of_log_wrapped lid lid' data s :
  calls_of lid (trace (log (EvWrapped lid' data) s)) = calls_of lid (trace s).
Proof. rewrite trace_log, calls_of_app. cbn. by rewrite app_nil_r. Qed.

Lemma calls_of_log_listener lid lid' v s :
  calls_of lid (trace (log (EvListener lid' v) s)) =
  calls_of lid (trace s) ++ (if (lid' =? lid)%nat then [v] else []).
Proof. rewrite trace_log, calls_of_app. cbn. by destruct (lid' =? lid)%nat. Qed.

Lemma set_size_pos {A} (l : SetData A) k x :
  l !! k = Some (Some x) → set_size l ≠ 0%nat.
Proof.
  intros Hk Hz. unfold set_size in Hz. apply length_zero_iff_nil in Hz.
  assert (Some x ∈ filter (λ e, is_Some e) l) as Hin.
  { apply list_elem_of_filter. split; [eauto|]. by eapply list_elem_of_lookup_2. }
  rewrite Hz in Hin. by apply elem_of_nil in Hin.
Qed.

Lemma set_delete_lookup_ne x y (l : SetData nat) k :
  x ≠ y → l !! k = Some (Some y) →
  set_delete Nat.eqb x l !! k = Some (Some y).
Proof.
  intros Hne Hk. unfold set_delete. change (map ?f l) with (f <$> l).
  rewrite list_lookup_fmap, Hk. cbn.
  by rewrite (proj2 (Nat.eqb_neq x y)).
Qed.

Lemma set_delete_lookup_eq x (l : SetData nat) k :
  l !! k = Some (Some x) → set_delete Nat.eqb x l !! k = Some None.
Proof.
  intros Hk. unfold set_delete. change (map ?f l) with (f <$> l).
  rewrite list_lookup_fmap, Hk. cbn. by rewrite Nat.eqb_refl.
Qed.

Lemma set_delete_lookup_Some x y (l : SetData nat) k :
  set_delete Nat.eqb x l !! k = Some (Some y) → l !! k = Some (Some y) ∧ x ≠ y.
Proof.
  unfold set_delete. change (map ?f l) with (f <$> l).
  rewrite list_lookup_fmap. destruct (l !! k) as [[z|]|]; cbn; [|done..].
  destruct (Nat.eqb_spec x z); [done|]. intros [= ->]. done.
Qed.

Lemma set_delete_length x (l : SetData nat) :
  length (set_delete Nat.eqb x l) = length l.
Proof. unfold set_delete. by rewrite length_map. Qed.

Lemma setTimeout_fields tk d s :
  channels (setTimeout tk d s).2 = channels s ∧
  chan_heap (setTimeout tk d s).2 = chan_heap s ∧
  eventListeners (setTimeout tk d s).2 = eventListeners s ∧
  sets (setTimeout tk d s).2 = sets s ∧
  wrappers (setTimeout tk d s).2 = wrappers s ∧
  now (setTimeout tk d s).2 = now s ∧
  trace (setTimeout tk d s).2 = trace s.
Proof. done. Qed.



Lemma quiet_host_total : host_total (H := quiet_host).
Proof. intros f args s. cbn. eauto. Qed.

Lemma quiet_host_leaves_topics : host_leaves_topics (H := quiet_host).
Proof. intros f args s o s' [= _ <-]. done. Qed.

(** ** Channels: creation by publish, rejected publish, reading, clearing *)

Section ChannelBasics.
Context `{Host}.

Lemma channels_init s : channels (init s) = channels s.
Proof. unfold init. by destruct (initialized s). Qed.

Lemma init_fields s :
  chan_heap (init s) = chan_heap s ∧ eventListeners (init s) = eventListeners s ∧
  sets (init s) = sets s ∧ wrappers (init s) = wrappers s ∧
  sessionStorage (init s) = sessionStorage s ∧
  localStorage (init s) = localStorage s ∧
  now (init s) = now s ∧ timers (init s) = timers s ∧ trace (init s) = trace s.
Proof. unfold init. by destruct (initialized s). Qed.

Lemma elem_of_listChannels name s :
  name ∈ listChannels s ↔ is_Some (channels s !! name).
Proof.
  unfold listChannels. rewrite list_elem_of_fmap. split.
  - intros [[k a] [-> Hin]]. apply elem_of_map_to_list in Hin. eauto.
  - intros [a Ha]. exists (name, a). split; [done|].
    by apply elem_of_map_to_list.
Qed.

(** C1. A publish to a name that has no channel creates the channel
    holding exactly the published value and does nothing else: the
    channel gets the config [{ initialValue: v }] (no validate, no
    transform, no hooks), lives in memory, has no subscriber and no
    timer, and the trace of calls into caller code, the timer table and
    both stores are what they were.  [getValue] then returns [v]. *)
Theorem publish_creates_channel (fuel : nat) (channelName : string)
    (v : value) (s : State) :
  channels s !! channelName = None →
  ∃ s' ch,
    publish fuel channelName v s = Some s' ∧
    getValue channelName s' = v ∧
    channels s' = <[channelName := length (chan_heap s)]> (channels s) ∧
    chan_heap s' = chan_heap s ++ [ch] ∧
    signal ch = v ∧ config ch = Some (initial_only v) ∧
    storage ch = memory ∧ subscribers ch = [] ∧ timeoutId ch = None ∧
    onChangeDebounceTimer ch = None ∧ onChangeLastCall ch = None ∧
    trace s' = trace s ∧
    timers s' = timers s ∧
    sessionStorage s' = sessionStorage s ∧
    localStorage s' = localStorage s.
Proof.
  intros Hfresh.
  destruct (init_fields s) as (Hh & _ & _ & _ & Hss & Hls & Hn & Ht & Htr).
  unfold publish. rewrite Hfresh. unfold channel.
  rewrite channels_init, Hfresh. cbn.
  set (ch := {| signal := v; storage := memory;
                storageKey := "lithium:" +:+ channelName; subscribers := [];
                ttl := None; autoCleanup := false; timeoutId := None;
                createdAt := now (init s); config := Some (initial_only v);
                isInitialized := present v; onChangeDebounceTimer := None;
                onChangeLastCall := None |}).
  exists (with_channels (<[channelName := length (chan_heap (init s))]>)
            (with_chan_heap (λ h, h ++ [ch]) (init s))), ch.
  split.
  { destruct (present v); cbn; reflexivity. }
  cbn. rewrite Hh, channels_init.
  repeat split; try done.
  unfold getValue. cbn. rewrite lookup_insert_eq. cbn.
  rewrite Hh. by rewrite list_lookup_middle.
Qed.

(** C2. When the channel exists and its [validate] rejects the value,
    [publish] returns the state it was given: value, stores,
    [isInitialized], timers and the trace of hook and subscriber calls
    are all unchanged. *)
Theorem publish_rejected_is_noop (fuel : nat) (channelName : string)
    (v : value) (s : State) (a : nat) (ch : Channel) (cfg : ChannelConfig)
    (validate : value → bool) :
  channels s !! channelName = Some a →
  chan_heap s !! a = Some ch →
  config ch = Some cfg →
  cfg_validate cfg = Some validate →
  validate v = false →
  publish fuel channelName v s = Some s.
Proof.
  intros Hn Ha Hc Hv Hrej. unfold publish.
  rewrite Hn. cbn. rewrite Ha. cbn. rewrite Hc. cbn. by rewrite Hv, Hrej.
Qed.

(** C10. [getValue] answers [undefined] for a name that has no channel,
    and it answers [undefined] again once [subscribe] has created the
    channel (now listed by [listChannels]) without an initial value. *)
Theorem getValue_undefined_is_ambiguous (channelName : string)
    (callback : fn) (s : State) :
  channels s !! channelName = None →
  (channelName ∉ listChannels s) ∧
  getValue channelName s = VUndefined ∧
  ∃ u s',
    subscribe channelName callback s = Some (u, s') ∧
    channelName ∈ listChannels s' ∧
    getValue channelName s' = VUndefined.
Proof.
  intros Hfresh. split.
  { rewrite elem_of_listChannels, Hfresh. by intros [? ?]. }
  split.
  { unfold getValue. by rewrite Hfresh. }
  unfold subscribe.
  rewrite bool_decide_eq_false_2 by (rewrite Hfresh; by intros [? ?]).
  unfold channel. rewrite channels_init, Hfresh. cbn.
  rewrite lookup_insert_eq. cbn.
  eexists _, _. split; [reflexivity|]. split.
  - apply elem_of_listChannels. cbn. rewrite lookup_insert_eq. eauto.
  - unfold getValue. cbn. rewrite lookup_insert_eq. cbn.
    by rewrite list_lookup_alter_eq, list_lookup_middle.
Qed.

Lemma set_size_clear {A} (d : SetData A) : set_size (set_clear d) = 0%nat.
Proof.
  unfold set_size, set_clear. induction d as [|e d IH]; [done|].
  cbn [map]. rewrite filter_cons_False; [done|]. by intros [? ?].
Qed.

Lemma pending_clearTimeout id id' s :
  pending id (clearTimeout id' s) = true → pending id s = true ∧ id ≠ id'.
Proof.
  unfold pending, clearTimeout.
  destruct (1 <=? id') eqn:E'; [|intros Hp; split; [done|]].
  - cbn. intros [Hid Hp]%andb_true_iff. apply Z.leb_le in Hid, E'.
    apply bool_decide_eq_true in Hp.
    destruct (decide (id = id')) as [->|Hne].
    + destruct (timers s !! Z.to_nat (id' - 1)) eqn:E.
      * rewrite list_lookup_insert_eq in Hp by (by eapply lookup_lt_Some).
        by destruct Hp.
      * rewrite list_insert_ge in Hp by (by apply lookup_ge_None).
        rewrite E in Hp. by destruct Hp.
    + rewrite list_lookup_insert_ne in Hp by lia.
      split; [|done]. apply andb_true_iff. split; [by apply Z.leb_le|].
      by apply bool_decide_eq_true.
  - intros ->. apply andb_true_iff in Hp as [Hp _]. congruence.
Qed.

Lemma pending_clear_if_set id handle s :
  pending id (clear_if_set handle s) = true →
  pending id s = true ∧ handle ≠ Some id.
Proof.
  unfold clear_if_set, truthy. destruct handle as [z|]; [|done].
  destruct (z =? 0) eqn:Ez.
  - intros Hp. split; [done|]. intros [= ->]. apply Z.eqb_eq in Ez as ->.
    unfold pending in Hp. done.
  - intros [Hp Hne]%pending_clearTimeout. split; [done|congruence].
Qed.

(** C6. [clear] of a name that has no channel returns the state unchanged.
    For an existing channel the [onClear] hook runs first, in a state
    where the name is still listed; whatever way the hook ends ([o] is
    [Returned] or [Thrown]), the remaining steps run on the state [s1] it
    left: the TTL timer and the debounce timer are no longer pending, the
    stored entry is gone when the channel is not in memory, the subscriber
    set is empty and the name is no longer listed. *)
Theorem clear_steps (channelName : string) (s : State) :
  (channels s !! channelName = None → clear channelName s = Some s) ∧
  ∀ a ch o s1 ch1,
    channels s !! channelName = Some a →
    chan_heap s !! a = Some ch →
    match config ch ≫= cfg_onClear with
    | Some h => invoke h [] (log (EvOnClear a) s) = Some (o, s1)
    | None => s1 = s
    end →
    chan_heap s1 !! a = Some ch1 →
    ∃ s',
      clear channelName s = Some s' ∧
      channelName ∈ listChannels (log (EvOnClear a) s) ∧
      (channelName ∉ listChannels s') ∧
      (∀ id, timeoutId ch1 = Some id → pending id s' = false) ∧
      (∀ id, onChangeDebounceTimer ch1 = Some id → pending id s' = false) ∧
      (storage ch1 ≠ memory →
       store_of (storage ch1) s' !! storageKey ch1 = None) ∧
      (∃ ch', chan_heap s' !! a = Some ch' ∧
              set_size (subscribers ch') = 0%nat) ∧
      channels s' = delete channelName (channels s1) ∧
      trace s' = trace s1.
Proof.
  split.
  { intros Hn. unfold clear. by rewrite Hn. }
  intros a ch o s1 ch1 Hn Ha Hhook Ha1.
  unfold clear. rewrite Hn. cbn. rewrite Ha. cbn.
  assert (match config ch ≫= cfg_onClear with
          | Some h => call_hook (EvOnClear a) h [] s
          | None => Some s
          end = Some s1) as ->.
  { destruct (config ch ≫= cfg_onClear); [|by subst].
    unfold call_hook. by rewrite Hhook. }
  cbn. rewrite Ha1. cbn.
  eexists. split; [reflexivity|].
  split.
  { apply elem_of_listChannels. cbn. rewrite Hn. eauto. }
  split.
  { rewrite elem_of_listChannels. cbn.
    destruct (storage ch1); cbn; rewrite lookup_delete_eq; by intros [? ?]. }
  split.
  { intros id Hid. apply not_true_is_false. intros Hp.
    assert (pending id (clear_if_set (onChangeDebounceTimer ch1)
                          (clear_if_set (timeoutId ch1) s1)) = true) as Hp'.
    { revert Hp. unfold pending. by destruct (storage ch1). }
    apply pending_clear_if_set in Hp' as [Hp' _].
    apply pending_clear_if_set in Hp' as [_ Hne]. done. }
  split.
  { intros id Hid. apply not_true_is_false. intros Hp.
    assert (pending id (clear_if_set (onChangeDebounceTimer ch1)
                          (clear_if_set (timeoutId ch1) s1)) = true) as Hp'.
    { revert Hp. unfold pending. by destruct (storage ch1). }
    apply pending_clear_if_set in Hp' as [_ Hne]. done. }
  split.
  { intros Hmem. destruct (storage ch1); [done| |]; cbn; apply lookup_delete_eq. }
  split.
  { exists (chan_set_subscribers set_clear ch1). split.
    - assert (∀ s0, chan_heap (clear_if_set (onChangeDebounceTimer ch1)
                          (clear_if_set (timeoutId ch1) s0)) = chan_heap s0) as Hheap.
      { intros s0. unfold clear_if_set, clearTimeout.
        repeat (case_match; cbn); done. }
      destruct (storage ch1); cbn; rewrite Hheap, list_lookup_alter_eq, Ha1; done.
    - cbn. apply set_size_clear. }
  assert (∀ s0, channels (clear_if_set (onChangeDebounceTimer ch1)
                        (clear_if_set (timeoutId ch1) s0)) = channels s0 ∧
                trace (clear_if_set (onChangeDebounceTimer ch1)
                        (clear_if_set (timeoutId ch1) s0)) = trace s0) as Hfr.
  { intros s0. unfold clear_if_set, clearTimeout.
    repeat (case_match; cbn); done. }
  destruct (Hfr s1) as [Hc Ht].
  destruct (storage ch1); cbn; rewrite ?Hc, ?Ht; done.
Qed.
End ChannelBasics.

(** C1 on a fresh broker: [publish("a", 1)]. *)
Lemma publish_creates_channel_witness :
  ∃ s' ch,
    publish (H := quiet_host) 1 "a" (VNum 1) (initial_state 0) = Some s' ∧
    getValue "a" s' = VNum 1 ∧
    channels s' = <["a" := length (chan_heap (initial_state 0))]>
                    (channels (initial_state 0)) ∧
    chan_heap s' = chan_heap (initial_state 0) ++ [ch] ∧
    signal ch = VNum 1 ∧ config ch = Some (initial_only (VNum 1)) ∧
    storage ch = memory ∧ subscribers ch = [] ∧ timeoutId ch = None ∧
    onChangeDebounceTimer ch = None ∧ onChangeLastCall ch = None ∧
    trace s' = trace (initial_state 0) ∧
    timers s' = timers (initial_state 0) ∧
    sessionStorage s' = sessionStorage (initial_state 0) ∧
    localStorage s' = localStorage (initial_state 0).
Proof.
  apply (publish_creates_channel (H := quiet_host) 1 "a" (VNum 1) (initial_state 0)).
  reflexivity.
Defined.

(** C2 on a channel that accepts positive numbers only: [publish("a", -1)]. *)
Lemma publish_rejected_is_noop_witness :
  publish (H := quiet_host) 1 "a" (VNum (-1))
    (with_channel_a (H := quiet_host) positive_only)
  = Some (with_channel_a (H := quiet_host) positive_only).
Proof.
  eapply (publish_rejected_is_noop (H := quiet_host) 1 "a" (VNum (-1)) _ 0%nat).
  - vm_compute. reflexivity.
  - vm_compute. reflexivity.
  - reflexivity.
  - reflexivity.
  - reflexivity.
Defined.

(** C10 on a fresh broker: [getValue("a")] before and after [subscribe("a", f)]. *)
Lemma getValue_undefined_is_ambiguous_witness :
  ("a" ∉ listChannels (initial_state 0)) ∧
  getValue "a" (initial_state 0) = VUndefined ∧
  ∃ u s',
    subscribe (H := quiet_host) "a" 5%nat (initial_state 0) = Some (u, s') ∧
    "a" ∈ listChannels s' ∧
    getValue "a" s' = VUndefined.
Proof.
  apply (getValue_undefined_is_ambiguous (H := quiet_host) "a" 5%nat (initial_state 0)).
  reflexivity.
Defined.

(** C6 on [busy_state]: both timers were pending and the value was stored;
    after [clear("a")] neither timer is pending and the entry is gone. *)
Lemma clear_steps_witness :
  ∃ s',
    clear (H := quiet_host) "a" busy_state = Some s' ∧
    ("a" ∉ listChannels s') ∧
    pending 1 busy_state = true ∧ pending 1 s' = false ∧
    pending 2 busy_state = true ∧ pending 2 s' = false ∧
    sessionStorage busy_state !! "lithium:a" = Some "undefined"%string ∧
    sessionStorage s' !! "lithium:a" = None ∧
    trace s' = trace busy_state ++ [(0, EvOnClear 0%nat)].
Proof.
  destruct (proj2 (clear_steps (H := quiet_host) "a" busy_state) 0%nat
              busy_channel Returned (log (EvOnClear 0%nat) busy_state)
              busy_channel)
    as (s' & Hrun & _ & Hgone & Httl & Hdeb & Hsto & _ & _ & Htr).
  - vm_compute. reflexivity.
  - vm_compute. reflexivity.
  - vm_compute. reflexivity.
  - vm_compute. reflexivity.
  - exists s'. split; [exact Hrun|]. split; [exact Hgone|].
    split; [vm_compute; reflexivity|]. split; [apply Httl; vm_compute; reflexivity|].
    split; [vm_compute; reflexivity|]. split; [apply Hdeb; vm_compute; reflexivity|].
    split; [vm_compute; reflexivity|].
    split; [apply Hsto; vm_compute; discriminate|].
    rewrite Htr. vm_compute. reflexivity.
Defined.

(** ** The [onInit] hook *)

Lemma oninit_of_app a tr1 tr2 :
  oninit_of a (tr1 ++ tr2) = oninit_of a tr1 ++ oninit_of a tr2.
Proof. apply omap_app. Qed.

Lemma onchange_of_app a tr1 tr2 :
  onchange_of a (tr1 ++ tr2) = onchange_of a tr1 ++ onchange_of a tr2.
Proof. apply omap_app. Qed.

Lemma chan_frame_refl name a s : chan_frame name a s s.
Proof. done. Qed.

Lemma chan_frame_trans name a s1 s2 s3 :
  chan_frame name a s1 s2 → chan_frame name a s2 s3 → chan_frame name a s1 s3.
Proof.
  intros (A1 & A2 & A3 & A4) (B1 & B2 & B3 & B4).
  repeat split; congruence.
Qed.

Lemma chan_frame_log_subscriber name a a' cb v s :
  chan_frame name a s (log (EvSubscriber a' cb v) s).
Proof.
  repeat split; rewrite trace_log.
  - rewrite oninit_of_app. cbn. by rewrite app_nil_r.
  - rewrite onchange_of_app. cbn. by rewrite app_nil_r.
Qed.

Section Notify.
Context `{Host}.
Context (channelName : string) (a : nat).
Context (Htot : host_total) (Hfr : host_leaves_channel channelName a).

Lemma call_hook_frame e f args s :
  ∃ s', call_hook e f args s = Some s' ∧ chan_frame channelName a (log e s) s'.
Proof using Htot Hfr.
  unfold call_hook. destruct (Htot f args (log e s)) as [[o s'] Hinv].
  rewrite Hinv. cbn. exists s'. split; [done|]. by eapply Hfr.
Qed.

(** The walk over the subscribers of the channel. *)
Lemma notify_frame fuel v s ch :
  chan_heap s !! a = Some ch →
  (length (subscribers ch) < fuel)%nat →
  ∃ s',
    forEach fuel (subscribers_of a)
      (λ callback, call_hook (EvSubscriber a callback v) callback [v]) 0%nat s
    = Some s' ∧
    chan_frame channelName a s s'.
Proof using Htot Hfr.
  intros Hch Hfuel.
  apply (forEach_fixed (λ _ st, chan_frame channelName a s st) _ _
           (length (subscribers ch))).
  - intros _ st (_ & Hh & _). unfold subscribers_of. by rewrite Hh, Hch.
  - intros _ st cb Hst _.
    destruct (call_hook_frame (EvSubscriber a cb v) cb [v] st) as (st' & Hrun & Hf).
    exists st'. split; [done|].
    eapply chan_frame_trans; [exact Hst|].
    eapply chan_frame_trans; [apply chan_frame_log_subscriber|exact Hf].
  - done.
  - lia.
  - lia.
  - apply chan_frame_refl.
Qed.
End Notify.
Lemma oninit_of_log_onchange a a' n o s :
  oninit_of a (trace (log (EvOnChange a' n o) s)) = oninit_of a (trace s).
Proof. rewrite trace_log, oninit_of_app. cbn. by rewrite app_nil_r. Qed.

Lemma oninit_of_log_oninit a v s :
  oninit_of a (trace (log (EvOnInit a v) s)) = oninit_of a (trace s) ++ [v].
Proof. rewrite trace_log, oninit_of_app. cbn. by rewrite Nat.eqb_refl. Qed.

Lemma onchange_of_log_oninit a a' v s :
  onchange_of a (trace (log (EvOnInit a' v) s)) = onchange_of a (trace s).
Proof. rewrite trace_log, onchange_of_app. cbn. by rewrite app_nil_r. Qed.

Lemma onchange_of_log_onchange a n o s :
  onchange_of a (trace (log (EvOnChange a n o) s)) =
  onchange_of a (trace s) ++ [(now s, n, o)].
Proof. rewrite trace_log, onchange_of_app. cbn. by rewrite Nat.eqb_refl. Qed.

Section PublishStep.
Context `{Host}.
Context (channelName : string) (a : nat).
Context (Htot : host_total) (Hfr : host_leaves_channel channelName a).

Lemma executeOnChange_chan newValue oldValue s ch :
  chan_heap s !! a = Some ch →
  ∃ s' ch',
    executeOnChange channelName a newValue oldValue s = Some s' ∧
    channels s' !! channelName = channels s !! channelName ∧
    chan_heap s' !! a = Some ch' ∧ chan_core ch' = chan_core ch ∧
    oninit_of a (trace s') = oninit_of a (trace s).
Proof using Htot Hfr.
  intros Hch. unfold executeOnChange. rewrite Hch. cbn [mbind option_bind].
  destruct (config ch ≫= cfg_onChange) as [h|]; [|by exists s, ch].
  destruct (truthy (cfg_debounce _)) as [d|].
  { eexists _, _. split; [reflexivity|].
    destruct (clear_if_set_fields (onChangeDebounceTimer ch) s)
      as (Hc & Hh & _ & _ & _ & _ & Ht).
    cbn. rewrite Hc, Hh, Ht, list_lookup_alter_eq, Hch. done. }
  assert (∀ s0 ch0, chan_heap s0 !! a = Some ch0 →
            ∃ s' , executeCallback a h newValue oldValue s0 = Some s' ∧
                   channels s' !! channelName = channels s0 !! channelName ∧
                   chan_heap s' !! a = Some ch0 ∧
                   oninit_of a (trace s') = oninit_of a (trace s0)) as Hcall.
  { intros s0 ch0 Hch0. unfold executeCallback.
    destruct (call_hook_frame channelName a Htot Hfr
                (EvOnChange a newValue oldValue) h [newValue; oldValue] s0)
      as (s' & Hrun & (F1 & F2 & F3 & _)).
    exists s'. split; [done|]. split; [done|]. split; [by rewrite F2|].
    by rewrite F3, oninit_of_log_onchange. }
  destruct (truthy (cfg_throttle _)) as [t|].
  - destruct (_ <=? _); [|by exists s, ch].
    destruct (Hcall (update_chan a (chan_set_onChangeLastCall (Some (now s))) s)
                (chan_set_onChangeLastCall (Some (now s)) ch))
      as (s' & Hrun & G1 & G2 & G3).
    { cbn. by rewrite list_lookup_alter_eq, Hch. }
    eexists s', _. split; [done|]. split; [done|]. split; [done|]. done.
  - destruct (Hcall s ch Hch) as (s' & Hrun & G1 & G2 & G3).
    by exists s', ch.
Qed.

(** One accepted publish to the channel, seen from the channel. *)
Lemma publish_step_chan fuel v s ch :
  channels s !! channelName = Some a →
  chan_heap s !! a = Some ch →
  accepts (config ch) v = true →
  (length (subscribers ch) < fuel)%nat →
  ∃ s' ch',
    publish fuel channelName v s = Some s' ∧
    channels s' !! channelName = Some a ∧
    chan_heap s' !! a = Some ch' ∧
    config ch' = config ch ∧ subscribers ch' = subscribers ch ∧
    signal ch' = transformed (config ch) v ∧
    isInitialized ch' = isInitialized ch || present (transformed (config ch) v) ∧
    oninit_of a (trace s') =
      oninit_of a (trace s) ++
      (if negb (isInitialized ch) && present (transformed (config ch) v)
       then match config ch ≫= cfg_onInit with
            | Some _ => [transformed (config ch) v]
            | None => []
            end
       else []).
Proof using Htot Hfr.
  intros Hn Hch Hacc Hfuel. unfold publish. rewrite Hn. cbn [mbind option_bind].
  rewrite Hch. cbn [mbind option_bind].
  unfold accepts in Hacc. fold (transformed (config ch) v).
  set (tv := transformed (config ch) v).
  assert (match config ch ≫= cfg_validate with
          | Some validate => negb (validate v)
          | None => false
          end = false) as ->.
  { destruct (config ch ≫= cfg_validate); [by rewrite Hacc|done]. }
  set (s2 := if negb (is_memory (storage ch)) then _ else _).
  set (ch2 := chan_set_signal tv ch).
  assert (channels s2 = channels s ∧ chan_heap s2 !! a = Some ch2 ∧
          trace s2 = trace s) as (Hc2 & Hh2 & Ht2).
  { subst s2. unfold saveToStorage.
    destruct (storage ch); cbn; by rewrite list_lookup_alter_eq, Hch. }
  clearbody s2.
  (* the onInit stage *)
  set (stage3 := if negb (isInitialized ch) && present tv then _ else _).
  assert (∃ s3 ch3, stage3 = Some s3 ∧
            channels s3 !! channelName = Some a ∧
            chan_heap s3 !! a = Some ch3 ∧
            ch3 = chan_set_isInitialized (isInitialized ch || present tv) ch2 ∧
            oninit_of a (trace s3) =
              oninit_of a (trace s) ++
              (if negb (isInitialized ch) && present tv
               then match config ch ≫= cfg_onInit with
                    | Some _ => [tv]
                    | None => []
                    end
               else [])) as (s3 & ch3 & -> & Hc3 & Hh3 & Hch3 & Ht3).
  { subst stage3. destruct (isInitialized ch) eqn:Hi; cbn [negb andb orb].
    { exists s2, ch2. rewrite Hc2, Ht2, app_nil_r. repeat split; try done.
      subst ch2. destruct ch. cbn in *. by rewrite Hi. }
    destruct (present tv) eqn:Hp.
    - set (s2' := update_chan a (chan_set_isInitialized true) s2).
      assert (chan_heap s2' !! a = Some (chan_set_isInitialized true ch2)) as Hh2'.
      { subst s2'. cbn. by rewrite list_lookup_alter_eq, Hh2. }
      destruct (config ch ≫= cfg_onInit) as [h|].
      + destruct (call_hook_frame channelName a Htot Hfr (EvOnInit a tv) h [tv] s2')
          as (s3 & Hrun & (F1 & F2 & F3 & _)).
        exists s3, (chan_set_isInitialized true ch2).
        split; [done|]. split; [by rewrite F1; cbn; rewrite Hc2|].
        split; [by rewrite F2|]. split; [done|].
        rewrite F3, oninit_of_log_oninit. subst s2'. cbn. by rewrite Ht2.
      + exists s2', (chan_set_isInitialized true ch2).
        split; [done|]. split; [by subst s2'; cbn; rewrite Hc2|].
        split; [done|]. split; [done|].
        subst s2'. cbn. by rewrite Ht2, app_nil_r.
    - exists s2, ch2. rewrite Hc2, Ht2, app_nil_r. repeat split; try done.
      subst ch2. destruct ch. cbn in *. by rewrite Hi. }
  cbn [mbind option_bind].
  (* the onChange stage *)
  set (stage4 := match config ch ≫= cfg_onChange with Some _ => _ | None => _ end).
  assert (∃ s4 ch4, stage4 = Some s4 ∧
            channels s4 !! channelName = Some a ∧
            chan_heap s4 !! a = Some ch4 ∧ chan_core ch4 = chan_core ch3 ∧
            oninit_of a (trace s4) = oninit_of a (trace s3))
    as (s4 & ch4 & -> & Hc4 & Hh4 & Hcore & Ht4).
  { subst stage4. destruct (config ch ≫= cfg_onChange).
    - destruct (executeOnChange_chan tv (signal ch) s3 ch3 Hh3)
        as (s4 & ch4 & Hrun & G1 & G2 & G3 & G4).
      exists s4, ch4. by rewrite G1.
    - by exists s3, ch3. }
  cbn [mbind option_bind].
  (* the subscribers *)
  assert (subscribers ch4 = subscribers ch) as Hsub.
  { unfold chan_core in Hcore. injection Hcore as _ _ _ -> _ _ _ _ _ _.
    by rewrite Hch3. }
  destruct (notify_frame channelName a Htot Hfr fuel tv s4 ch4 Hh4)
    as (s' & Hrun & (F1 & F2 & F3 & _)); [by rewrite Hsub|].
  exists s', ch4. split; [done|]. split; [by rewrite F1|].
  split; [by rewrite F2|].
  unfold chan_core in Hcore. injection Hcore as Hsig _ _ _ _ _ _ _ Hcfg Hini.
  rewrite Hch3 in Hsig, Hcfg, Hini. cbn in Hsig, Hcfg, Hini.
  repeat split; try done. by rewrite F3, Ht4, Ht3.
Qed.
End PublishStep.
Section ChannelUses.
Context `{Host}.
Context (channelName : string) (a : nat).
Context (Htot : host_total) (Hfr : host_leaves_channel channelName a).

Lemma publish_rejected fuel v s ch :
  channels s !! channelName = Some a →
  chan_heap s !! a = Some ch →
  accepts (config ch) v = false →
  publish fuel channelName v s = Some s.
Proof.
  intros Hn Hch Hacc. unfold publish. rewrite Hn. cbn [mbind option_bind].
  rewrite Hch. cbn [mbind option_bind]. unfold accepts in Hacc.
  destruct (config ch ≫= cfg_validate); [by rewrite Hacc|done].
Qed.

Lemma channel_create cfg s :
  channels s !! channelName = None →
  a = length (chan_heap s) →
  ∃ s1 ch1,
    channel channelName (Some cfg) s = Some (a, s1) ∧
    channels s1 !! channelName = Some a ∧
    chan_heap s1 !! a = Some ch1 ∧
    config ch1 = Some cfg ∧ subscribers ch1 = [] ∧
    isInitialized ch1 = present (signal ch1) ∧
    oninit_of a (trace s1) =
      oninit_of a (trace s) ++
      (if present (signal ch1)
       then match cfg_onInit cfg with Some _ => [signal ch1] | None => [] end
       else []).
Proof using Htot Hfr.
  intros Hfresh Ha. unfold channel. rewrite channels_init, Hfresh.
  destruct (init_fields s) as (Hh & _ & _ & _ & _ & _ & _ & _ & Htr).
  change (default empty_config (Some cfg)) with cfg.
  cbn [mbind option_bind]. rewrite Hh, <-Ha.
  set (v0 := if defined _ then _ else _).
  set (ch := {| signal := v0; isInitialized := present v0 |}).
  set (s1 := with_channels _ _).
  assert (chan_heap s1 !! a = Some ch) as Hh1.
  { subst s1. cbn. rewrite Hh, Ha. by apply list_lookup_middle. }
  assert (channels s1 !! channelName = Some a) as Hc1.
  { subst s1. cbn. by rewrite lookup_insert_eq. }
  assert (trace s1 = trace s) as Ht1 by (by subst s1).
  clearbody s1.
  assert (∀ s2 ch2 r,
            channels s2 !! channelName = Some a →
            chan_heap s2 !! a = Some ch2 →
            chan_core ch2 = chan_core (chan_set_timeoutId (timeoutId ch2) ch) →
            trace s2 = trace s →
            (s3 ← (if present v0
                   then match Some cfg ≫= cfg_onInit with
                        | Some h => call_hook (EvOnInit a v0) h [v0] s2
                        | None => Some s2
                        end
                   else Some s2); Some (a, s3)) = r →
            ∃ s1 ch1,
              r = Some (a, s1) ∧
              channels s1 !! channelName = Some a ∧
              chan_heap s1 !! a = Some ch1 ∧
              config ch1 = Some cfg ∧ subscribers ch1 = [] ∧
              isInitialized ch1 = present (signal ch1) ∧
              oninit_of a (trace s1) =
                oninit_of a (trace s) ++
                (if present (signal ch1)
                 then match cfg_onInit cfg with Some _ => [signal ch1] | None => [] end
                 else [])) as Hfinish.
  { intros s2 ch2 r Hc2 Hh2 Hcore Ht2 <-.
    unfold chan_core in Hcore. cbn in Hcore.
    injection Hcore as Hsig _ _ Hsub _ _ _ Hcfg Hini.
    destruct (present v0) eqn:Hp.
    - cbn [mbind option_bind]. destruct (cfg_onInit cfg) as [h|].
      + destruct (call_hook_frame channelName a Htot Hfr (EvOnInit a v0) h [v0] s2)
          as (s3 & Hrun & (F1 & F2 & F3 & _)).
        rewrite Hrun. cbn. exists s3, ch2. split; [done|].
        split; [by rewrite F1|]. split; [by rewrite F2|].
        rewrite Hsig, Hp. repeat split; try done.
        by rewrite F3, oninit_of_log_oninit, Ht2.
      + cbn. exists s2, ch2. rewrite Hsig, Hp, Ht2, app_nil_r. done.
    - cbn. exists s2, ch2. rewrite Hsig, Hp, Ht2, app_nil_r. done. }
  destruct (truthy (cfg_ttl cfg)) as [t|].
  - eapply Hfinish; [| | | |reflexivity].
    + cbn. exact Hc1.
    + cbn. rewrite list_lookup_alter_eq, Hh1. reflexivity.
    + done.
    + done.
  - eapply Hfinish; [exact Hc1|exact Hh1|done|done|reflexivity].
Qed.

Lemma subscribe_step callback s ch :
  channels s !! channelName = Some a →
  chan_heap s !! a = Some ch →
  ∃ u s',
    subscribe channelName callback s = Some (u, s') ∧
    channels s' = channels s ∧
    chan_heap s' !! a =
      Some (chan_set_subscribers (set_add Nat.eqb callback) ch) ∧
    trace s' = trace s.
Proof.
  intros Hn Hch. unfold subscribe.
  rewrite bool_decide_eq_true_2 by (by rewrite Hn).
  cbn [mbind option_bind]. rewrite Hn. cbn [mbind option_bind].
  eexists _, _. split; [reflexivity|]. cbn.
  by rewrite list_lookup_alter_eq, Hch.
Qed.

Lemma run_uses_oninit fuel us : ∀ s ch,
  channels s !! channelName = Some a →
  chan_heap s !! a = Some ch →
  (length (subscribers ch) + length us < fuel)%nat →
  ∃ s',
    run_uses fuel channelName us s = Some s' ∧
    oninit_of a (trace s') =
      oninit_of a (trace s) ++
      (if isInitialized ch then []
       else match config ch ≫= cfg_onInit with
            | Some _ => match first_present (published (config ch) us) with
                        | Some v => [v]
                        | None => []
                        end
            | None => []
            end).
Proof using Htot Hfr.
  induction us as [|[v|cb] us IH]; intros s ch Hn Hch Hfuel; cbn [run_uses].
  - exists s. split; [done|].
    destruct (isInitialized ch), (config ch ≫= cfg_onInit); cbn;
      by rewrite app_nil_r.
  - cbn [length] in Hfuel. cbn [published].
    destruct (accepts (config ch) v) eqn:Hacc.
    + destruct (publish_step_chan channelName a Htot Hfr fuel v s ch Hn Hch Hacc)
        as (s1 & ch1 & Hrun & Hn1 & Hch1 & Hcfg & Hsub & Hsig & Hini & Htr); [lia|].
      rewrite Hrun. cbn [mbind option_bind].
      destruct (IH s1 ch1 Hn1 Hch1) as (s' & Hrun' & Htr'); [rewrite Hsub; lia|].
      exists s'. split; [done|]. rewrite Htr', Htr, Hini, Hcfg, <-(assoc_L (++)).
      f_equal. cbn [first_present].
      destruct (isInitialized ch); cbn [negb andb orb]; [done|].
      destruct (present (transformed (config ch) v)); [|done].
      by destruct (config ch ≫= cfg_onInit).
    + rewrite (publish_rejected fuel v s ch Hn Hch Hacc). cbn [mbind option_bind].
      apply IH; [done|done|lia].
  - cbn [length] in Hfuel. cbn [published].
    destruct (subscribe_step cb s ch Hn Hch) as (u & s1 & Hrun & Hc1 & Hch1 & Htr).
    rewrite Hrun. cbn [mbind option_bind snd].
    destruct (IH s1 _ (eq_trans (f_equal (.!! channelName) Hc1) Hn) Hch1)
      as (s' & Hrun' & Htr').
    { cbn [subscribers chan_set_subscribers]. unfold set_add.
      destruct (set_has _ _ _); [lia|].
      rewrite length_app. cbn [length]. lia. }
    exists s'. split; [done|]. by rewrite Htr', Htr.
Qed.
End ChannelUses.

(** ** Callbacks that keep a journal *)

Lemma journal_of_app f tr1 tr2 :
  journal_of f (tr1 ++ tr2) = journal_of f tr1 ++ journal_of f tr2.
Proof. apply omap_app. Qed.

(** The broker writes to no journal. *)
Lemma journal_of_log f e s :
  (∀ f' args, e ≠ EvJournal f' args) →
  journal_of f (trace (log e s)) = journal_of f (trace s).
Proof.
  intros He. rewrite trace_log, journal_of_app. cbn.
  destruct e; try by rewrite app_nil_r. by destruct (He f0 args).
Qed.

Lemma journaling_host_total : host_total (H := journaling_host).
Proof. intros f args s. by eexists. Qed.

Lemma journaling_host_leaves_channel channelName a :
  host_leaves_channel (H := journaling_host) channelName a.
Proof.
  intros f args s o s' [= _ <-]. repeat split; rewrite trace_log.
  - rewrite oninit_of_app. cbn. by rewrite app_nil_r.
  - rewrite onchange_of_app. cbn. by rewrite app_nil_r.
Qed.

Lemma journaling_host_leaves_clock : host_leaves_clock (H := journaling_host).
Proof. intros f args s o s' [= _ <-]. done. Qed.

Lemma journaling_host_journals h : host_journals (H := journaling_host) h.
Proof.
  intros f args s o s' [= _ <-]. rewrite trace_log, journal_of_app. cbn.
  by destruct (f =? h)%nat.
Qed.

Lemma forEach_visits {A} (P : State → Prop) (entries : State → SetData A)
    (body : A → State → option State) :
  (∀ i e s s', P s → entries s !! i = Some (Some e) → body e s = Some s' → P s') →
  ∀ fuel i s s', P s → forEach fuel entries body i s = Some s' → P s'.
Proof.
  intros Hbody. induction fuel as [|fuel IH]; [done|].
  intros i s s' HP. cbn. destruct (entries s !! i) as [[e|]|] eqn:He.
  - destruct (body e s) as [s1|] eqn:Hb; [cbn|done].
    apply IH. by eapply Hbody.
  - by apply IH.
  - by intros [= <-].
Qed.

Lemma elem_of_members {A} (d : SetData A) i x :
  d !! i = Some (Some x) → x ∈ members d.
Proof.
  intros Hi. apply list_elem_of_omap. exists (Some x).
  split; [by eapply list_elem_of_lookup_2|done].
Qed.

Section Journal.
Context `{Host}.
Context (channelName : string) (a : nat) (hj : fn).
Context (Hfr : host_leaves_channel channelName a) (Hj : host_journals hj).

(** A call into caller code, seen from the journal of [hj]. *)
Lemma call_hook_journal e f args s s' :
  (∀ f' args', e ≠ EvJournal f' args') →
  call_hook e f args s = Some s' →
  journal_of hj (trace s') = journal_of hj (trace s) ++ noted hj (Some f) args ∧
  chan_heap s' !! a = chan_heap s !! a.
Proof using Hfr Hj.
  intros He. unfold call_hook.
  destruct (invoke f args (log e s)) as [[o s1]|] eqn:Hinv; [cbn|done].
  intros [= <-]. split.
  - rewrite (Hj _ _ _ _ _ Hinv), journal_of_log by done. done.
  - by destruct (Hfr _ _ _ _ _ Hinv) as (_ & -> & _).
Qed.

(** The walk over the subscribers calls none of them twice and no other
    function: a function that is not subscribed notes nothing. *)
Lemma notify_journal fuel v s s' ch :
  chan_heap s !! a = Some ch →
  hj ∉ members (subscribers ch) →
  forEach fuel (subscribers_of a)
    (λ callback, call_hook (EvSubscriber a callback v) callback [v]) 0%nat s
  = Some s' →
  journal_of hj (trace s') = journal_of hj (trace s).
Proof using Hfr Hj.
  intros Hch Hnot Hrun.
  apply (forEach_visits
           (λ st, chan_heap st !! a = Some ch ∧
                  journal_of hj (trace st) = journal_of hj (trace s)))
    in Hrun as [_ Hjs]; [done| |done].
  intros i cb st st' [Hh Hjs] Hi Hcall.
  unfold subscribers_of in Hi. rewrite Hh in Hi. cbn in Hi.
  apply call_hook_journal in Hcall as [Hj' Hh']; [|done].
  split; [by rewrite Hh'|]. rewrite Hj', Hjs. unfold noted.
  destruct (Nat.eqb_spec cb hj) as [->|_]; [|by rewrite app_nil_r].
  destruct Hnot. by eapply elem_of_members.
Qed.

Lemma executeOnChange_journal newValue oldValue s s' ch :
  chan_heap s !! a = Some ch →
  executeOnChange channelName a newValue oldValue s = Some s' →
  journal_of hj (trace s') =
    journal_of hj (trace s) ++
    (if onchange_fires ch (now s)
     then noted hj (config ch ≫= cfg_onChange) [newValue; oldValue]
     else []) ∧
  ∃ ch', chan_heap s' !! a = Some ch' ∧ subscribers ch' = subscribers ch.
Proof using Hfr Hj.
  intros Hch. unfold executeOnChange, onchange_fires.
  rewrite Hch. cbn [mbind option_bind].
  destruct (config ch ≫= cfg_onChange) as [h|].
  2:{ intros [= <-]. split; [|by exists ch].
      cbn. by repeat case_match; rewrite app_nil_r. }
  destruct (truthy (cfg_debounce _)) as [d|].
  { intros [= <-]. rewrite app_nil_r.
    destruct (clear_if_set_fields (onChangeDebounceTimer ch) s)
      as (_ & Hh & _ & _ & _ & _ & Ht).
    split; [cbn; by rewrite Ht|].
    eexists. split; [cbn; by rewrite Hh, list_lookup_alter_eq, Hch|done]. }
  destruct (truthy (cfg_throttle _)) as [t|].
  - destruct (_ <=? _).
    + unfold executeCallback. intros Hcall.
      apply call_hook_journal in Hcall as [Hj' Hh']; [|done].
      split; [exact Hj'|].
      eexists. split; [rewrite Hh'; cbn; by rewrite list_lookup_alter_eq, Hch|done].
    + intros [= <-]. rewrite app_nil_r. split; [done|by exists ch].
  - unfold executeCallback. intros Hcall.
    apply call_hook_journal in Hcall as [Hj' Hh']; [|done].
    split; [exact Hj'|]. exists ch. by rewrite Hh'.
Qed.

(** An accepted publish, seen from the journal of [hj]: [t3] is the time
    at which [executeOnChange] runs. *)
Lemma publish_journal fuel v s s' ch :
  channels s !! channelName = Some a →
  chan_heap s !! a = Some ch →
  accepts (config ch) v = true →
  hj ∉ members (subscribers ch) →
  publish fuel channelName v s = Some s' →
  ∃ t3,
    (host_leaves_clock → t3 = now s) ∧
    journal_of hj (trace s') =
      journal_of hj (trace s) ++
      (if negb (isInitialized ch) && present (transformed (config ch) v)
       then noted hj (config ch ≫= cfg_onInit) [transformed (config ch) v]
       else []) ++
      (if onchange_fires ch t3
       then noted hj (config ch ≫= cfg_onChange)
              [transformed (config ch) v; signal ch]
       else []).
Proof using Hfr Hj.
  intros Hn Hch Hacc Hnot. unfold publish. rewrite Hn. cbn [mbind option_bind].
  rewrite Hch. cbn [mbind option_bind].
  unfold accepts in Hacc. fold (transformed (config ch) v).
  set (tv := transformed (config ch) v).
  assert (match config ch ≫= cfg_validate with
          | Some validate => negb (validate v)
          | None => false
          end = false) as ->.
  { destruct (config ch ≫= cfg_validate); [by rewrite Hacc|done]. }
  set (s2 := if negb (is_memory (storage ch)) then _ else _).
  set (ch2 := chan_set_signal tv ch).
  assert (chan_heap s2 !! a = Some ch2 ∧ trace s2 = trace s ∧ now s2 = now s)
    as (Hh2 & Ht2 & Hnow2).
  { subst s2. unfold saveToStorage.
    destruct (storage ch); cbn; by rewrite list_lookup_alter_eq, Hch. }
  clearbody s2.
  set (stage3 := if negb (isInitialized ch) && present tv then _ else _).
  destruct stage3 as [s3|] eqn:H3; [cbn [mbind option_bind]|done].
  assert (∃ ch3, chan_heap s3 !! a = Some ch3 ∧
            config ch3 = config ch ∧ subscribers ch3 = subscribers ch ∧
            onChangeLastCall ch3 = onChangeLastCall ch ∧
            (host_leaves_clock → now s3 = now s) ∧
            journal_of hj (trace s3) =
              journal_of hj (trace s) ++
              (if negb (isInitialized ch) && present tv
               then noted hj (config ch ≫= cfg_onInit) [tv] else []))
    as (ch3 & Hh3 & Hcfg3 & Hsub3 & Hlast3 & Hnow3 & Hj3).
  { subst stage3. destruct (negb (isInitialized ch) && present tv).
    - set (s2' := update_chan a (chan_set_isInitialized true) s2) in *.
      assert (chan_heap s2' !! a = Some (chan_set_isInitialized true ch2)) as Hh2'.
      { subst s2'. cbn. by rewrite list_lookup_alter_eq, Hh2. }
      exists (chan_set_isInitialized true ch2).
      destruct (config ch ≫= cfg_onInit) as [h0|].
      + pose proof H3 as Hcall.
        apply call_hook_journal in Hcall as [Hj' Hh']; [|done].
        split; [by rewrite Hh'|]. do 3 (split; [done|]).
        split.
        { intros Hclk. unfold call_hook in H3.
          destruct (invoke _ _ _) as [[o s1]|] eqn:Hinv; [|done].
          injection H3 as <-. apply Hclk in Hinv as [_ ->]. cbn.
          subst s2'. cbn. exact Hnow2. }
        rewrite Hj'. subst s2'. cbn. by rewrite Ht2.
      + injection H3 as <-. split; [done|]. do 3 (split; [done|]).
        split; [intros _; subst s2'; cbn; exact Hnow2|].
        subst s2'. cbn. by rewrite Ht2, app_nil_r.
    - injection H3 as <-. exists ch2. split; [done|]. do 3 (split; [done|]).
      split; [done|]. by rewrite Ht2, app_nil_r. }
  set (stage4 := match config ch ≫= cfg_onChange with Some _ => _ | None => _ end).
  destruct stage4 as [s4|] eqn:H4; [cbn [mbind option_bind]|done].
  assert (∃ ch4, chan_heap s4 !! a = Some ch4 ∧
            subscribers ch4 = subscribers ch ∧
            journal_of hj (trace s4) =
              journal_of hj (trace s3) ++
              (if onchange_fires ch (now s3)
               then noted hj (config ch ≫= cfg_onChange) [tv; signal ch]
               else []))
    as (ch4 & Hh4 & Hsub4 & Hj4).
  { assert (onchange_fires ch3 (now s3) = onchange_fires ch (now s3)) as Hfires.
    { unfold onchange_fires. by rewrite Hcfg3, Hlast3. }
    subst stage4. destruct (config ch ≫= cfg_onChange) as [h|] eqn:Hhook.
    - apply (executeOnChange_journal _ _ _ _ ch3) in H4
        as [Hj' (ch4 & Hh4 & Hsub4)]; [|done].
      exists ch4. split; [done|]. split; [by rewrite Hsub4|].
      by rewrite Hj', Hfires, Hcfg3, Hhook.
    - injection H4 as <-. exists ch3. split; [done|]. split; [done|].
      cbn [noted]. destruct (onchange_fires ch (now s3)); by rewrite app_nil_r. }
  intros Hrun. exists (now s3). split; [exact Hnow3|].
  apply (notify_journal _ _ _ _ ch4 Hh4) in Hrun; [|by rewrite Hsub4].
  by rewrite Hrun, Hj4, Hj3, <-app_assoc.
Qed.
End Journal.

Section JournalOfUses.
Context `{Host}.
Context (channelName : string) (a : nat) (hj : fn).
Context (Htot : host_total) (Hfr : host_leaves_channel channelName a)
        (Hj : host_journals hj).

Lemma channel_create_journal cfg s s1 ch1 :
  channels s !! channelName = None →
  a = length (chan_heap s) →
  channel channelName (Some cfg) s = Some (a, s1) →
  chan_heap s1 !! a = Some ch1 →
  journal_of hj (trace s1) =
    journal_of hj (trace s) ++
    (if present (signal ch1) then noted hj (cfg_onInit cfg) [signal ch1] else []).
Proof using Hfr Hj.
  intros Hfresh Ha. unfold channel. rewrite channels_init, Hfresh.
  destruct (init_fields s) as (Hh & _ & _ & _ & _ & _ & _ & _ & Htr).
  change (default empty_config (Some cfg)) with cfg.
  cbn [mbind option_bind]. rewrite Hh, <-Ha.
  set (v0 := if defined _ then _ else _).
  set (ch := {| signal := v0; isInitialized := present v0 |}).
  set (s2 := match truthy (cfg_ttl cfg) with Some _ => _ | None => _ end).
  assert (trace s2 = trace s ∧
          ∃ ch2, chan_heap s2 !! a = Some ch2 ∧ signal ch2 = v0)
    as (Ht2 & ch2 & Hh2 & Hsig2).
  { assert (chan_heap (with_channels <[channelName:=a]>
                         (with_chan_heap (λ h, h ++ [ch]) (init s))) !! a
            = Some ch) as Hh1.
    { cbn. rewrite Hh, Ha. by apply list_lookup_middle. }
    subst s2. destruct (truthy (cfg_ttl cfg)) as [t|]; cbn.
    - split; [done|].
      exists (chan_set_timeoutId
                (Some (Z.of_nat (length (timers (init s))) + 1)) ch).
      split; [|done]. cbn in Hh1. by rewrite list_lookup_alter_eq, Hh1.
    - split; [done|]. by exists ch. }
  clearbody s2.
  destruct (present v0) eqn:Hp.
  - cbn [mbind option_bind]. destruct (cfg_onInit cfg) as [h|].
    + destruct (call_hook _ _ _ _) as [s3|] eqn:Hcall; [cbn|done].
      intros [= <-] Hch1.
      apply (call_hook_journal channelName a hj Hfr Hj) in Hcall
        as [Hj' Hh']; [|done].
      rewrite Hh', Hh2 in Hch1. injection Hch1 as <-.
      by rewrite Hsig2, Hp, Hj', Ht2.
    + cbn. intros [= <-] Hch1. rewrite Hh2 in Hch1. injection Hch1 as <-.
      by rewrite Hsig2, Hp, Ht2, app_nil_r.
  - cbn. intros [= <-] Hch1. rewrite Hh2 in Hch1. injection Hch1 as <-.
    by rewrite Hsig2, Hp, Ht2, app_nil_r.
Qed.

Lemma not_elem_of_members_add (x y : fn) (d : SetData fn) :
  x ≠ y → x ∉ members d → x ∉ members (set_add Nat.eqb y d).
Proof.
  intros Hne Hnot. unfold set_add. destruct (set_has _ _ _); [done|].
  unfold members. rewrite omap_app. cbn.
  rewrite elem_of_app. intros [?|Hin%list_elem_of_singleton]; done.
Qed.

Lemma run_uses_journal fuel us : ∀ s s' ch,
  channels s !! channelName = Some a →
  chan_heap s !! a = Some ch →
  hj ∉ members (subscribers ch) →
  Forall (λ u, u ≠ Subscribe hj) us →
  config ch ≫= cfg_onChange ≠ Some hj →
  (length (subscribers ch) + length us < fuel)%nat →
  run_uses fuel channelName us s = Some s' →
  journal_of hj (trace s') =
    journal_of hj (trace s) ++
    (if isInitialized ch then []
     else match first_present (published (config ch) us) with
          | Some v => noted hj (config ch ≫= cfg_onInit) [v]
          | None => []
          end).
Proof using Htot Hfr Hj.
  induction us as [|[v|cb] us IH]; intros s s' ch Hn Hch Hnot Hall Hother Hfuel;
    cbn [run_uses].
  - intros [= <-]. destruct (isInitialized ch); cbn; by rewrite app_nil_r.
  - apply Forall_cons in Hall as [_ Hall].
    cbn [length] in Hfuel. cbn [published].
    destruct (accepts (config ch) v) eqn:Hacc.
    + destruct (publish_step_chan channelName a Htot Hfr fuel v s ch Hn Hch Hacc)
        as (s1 & ch1 & Hrun & Hn1 & Hch1 & Hcfg & Hsub & Hsig & Hini & _); [lia|].
      rewrite Hrun. cbn [mbind option_bind]. intros Hrest.
      destruct (publish_journal channelName a hj Hfr Hj fuel v s s1 ch
                  Hn Hch Hacc Hnot Hrun) as (t3 & _ & Hj1).
      assert ((if onchange_fires ch t3
               then noted hj (config ch ≫= cfg_onChange)
                      [transformed (config ch) v; signal ch]
               else []) = []) as Hquiet.
      { destruct (onchange_fires ch t3); [|done]. unfold noted.
        destruct (config ch ≫= cfg_onChange) as [h'|]; [|done].
        destruct (Nat.eqb_spec h' hj) as [->|_]; [by destruct Hother|done]. }
      rewrite Hquiet, app_nil_r in Hj1.
      rewrite (IH s1 s' ch1 Hn1 Hch1) by
        (rewrite ?Hsub, ?Hcfg; first [done|lia]).
      rewrite Hj1, Hini, Hcfg, <-app_assoc. f_equal.
      cbn [first_present].
      destruct (isInitialized ch); cbn [negb andb orb]; [done|].
      destruct (present (transformed (config ch) v)); [|done].
      cbn. by rewrite app_nil_r.
    + rewrite (publish_rejected channelName a fuel v s ch Hn Hch Hacc).
      cbn [mbind option_bind]. apply IH; [done|done|done|done|done|lia].
  - apply Forall_cons in Hall as [Hcb Hall].
    cbn [length] in Hfuel. cbn [published].
    destruct (subscribe_step channelName a cb s ch Hn Hch)
      as (u & s1 & Hrun & Hc1 & Hch1 & Htr).
    rewrite Hrun. cbn [mbind option_bind snd]. intros Hrest.
    rewrite (IH s1 s' _ (eq_trans (f_equal (.!! channelName) Hc1) Hn) Hch1);
      [by rewrite Htr| |done|done| |done].
    + cbn. apply not_elem_of_members_add; [|done]. congruence.
    + cbn [subscribers chan_set_subscribers]. unfold set_add.
      destruct (set_has _ _ _); [lia|].
      rewrite length_app. cbn [length]. lia.
Qed.
End JournalOfUses.

Section OnInitOnce.
Context `{Host}.

(** C3. A channel created with an [onInit] hook calls it exactly once in
    its life, with the first present value the channel holds: the resolved
    initial value when that is present, else the first accepted publish
    whose transformed value is present; publishes after that never call it
    again, and as long as no present value has arrived it is not called
    at all.  The calls are counted twice: by the record that the broker
    keeps of the calls it makes, and by the journal that the hook itself
    keeps of the calls it receives (the hook serves as nothing else, so
    that its journal holds only these calls). *)
Theorem onInit_fires_exactly_once (fuel : nat) (channelName : string)
    (cfg : ChannelConfig) (h : fn) (s : State) (us : list use) :
  channels s !! channelName = None →
  cfg_onInit cfg = Some h →
  cfg_onChange cfg ≠ Some h →
  Forall (λ u, u ≠ Subscribe h) us →
  host_total →
  host_leaves_channel channelName (length (chan_heap s)) →
  host_journals h →
  (length us < fuel)%nat →
  ∃ s1 s',
    channel channelName (Some cfg) s = Some (length (chan_heap s), s1) ∧
    run_uses fuel channelName us s1 = Some s' ∧
    oninit_of (length (chan_heap s)) (trace s') =
      oninit_of (length (chan_heap s)) (trace s) ++
      match first_present (getValue channelName s1 :: published (Some cfg) us) with
      | Some v => [v]
      | None => []
      end ∧
    journal_of h (trace s') =
      journal_of h (trace s) ++
      match first_present (getValue channelName s1 :: published (Some cfg) us) with
      | Some v => [[v]]
      | None => []
      end.
Proof.
  intros Hfresh Hhook Hother Hsubs Htot Hfr Hj Hfuel.
  destruct (channel_create channelName _ Htot Hfr cfg s Hfresh eq_refl)
    as (s1 & ch1 & Hcreate & Hn1 & Hch1 & Hcfg & Hsub & Hini & Htr).
  destruct (run_uses_oninit channelName _ Htot Hfr fuel us s1 ch1 Hn1 Hch1)
    as (s' & Hrun & Htr'); [rewrite Hsub; cbn; lia|].
  exists s1, s'. split; [done|]. split; [done|].
  assert (getValue channelName s1 = signal ch1) as Hval.
  { unfold getValue. rewrite Hn1. cbn [mbind option_bind]. by rewrite Hch1. }
  split.
  - rewrite Htr', Htr, Hini, Hcfg, <-(assoc_L (++)). f_equal.
    rewrite Hval. cbn [first_present mbind option_bind]. rewrite Hhook.
    by destruct (present (signal ch1)).
  - rewrite (run_uses_journal channelName _ h Htot Hfr Hj fuel us s1 s' ch1
               Hn1 Hch1) by
      (rewrite ?Hsub, ?Hcfg; first [done|apply not_elem_of_nil|cbn; lia]).
    rewrite (channel_create_journal channelName _ h Hfr Hj cfg s s1 ch1
               Hfresh eq_refl Hcreate Hch1).
    rewrite Hini, Hcfg, Hval, <-app_assoc. f_equal.
    cbn [first_present mbind option_bind]. rewrite Hhook. unfold noted.
    rewrite Nat.eqb_refl. destruct (present (signal ch1)); [done|].
    by destruct (first_present _).
Qed.
End OnInitOnce.
Lemma quiet_host_leaves_channel channelName a :
  host_leaves_channel (H := quiet_host) channelName a.
Proof. intros f args s o s' [= _ <-]. apply chan_frame_refl. Qed.

Lemma quiet_host_leaves_clock : host_leaves_clock (H := quiet_host).
Proof. intros f args s o s' [= _ <-]. done. Qed.

(** C3 on [sample_uses], with callbacks that keep a journal: the hook is
    called once, with [4], the doubled first accepted value, and its
    journal holds that one call. *)
Lemma onInit_fires_exactly_once_witness :
  ∃ s1 s',
    channel (H := journaling_host) "a" (Some doubling_config) (initial_state 0)
      = Some (0%nat, s1) ∧
    run_uses (H := journaling_host) 5 "a" sample_uses s1 = Some s' ∧
    oninit_of 0 (trace s') = [VNum 4] ∧
    journal_of 8 (trace s') = [[VNum 4]].
Proof.
  assert (cfg_onChange doubling_config ≠ Some 8%nat) as Hother by done.
  assert (Forall (λ u, u ≠ Subscribe 8%nat) sample_uses) as Hsubs
    by (repeat constructor; done).
  assert (length sample_uses < 5)%nat as Hfuel by (vm_compute; lia).
  destruct (onInit_fires_exactly_once (H := journaling_host) 5 "a"
              doubling_config 8%nat (initial_state 0) sample_uses
              eq_refl eq_refl Hother Hsubs journaling_host_total
              (journaling_host_leaves_channel "a" 0%nat)
              (journaling_host_journals 8%nat) Hfuel)
    as (s1 & s' & Hcreate & Hrun & Hinit & Hjournal).
  exists s1, s'. split; [exact Hcreate|]. split; [exact Hrun|].
  vm_compute in Hcreate. injection Hcreate as <-.
  split; [exact Hinit|exact Hjournal].
Defined.

(** ** The [onInit] hook when callbacks reenter the broker *)

Lemma oninit_of_other a e t tr :
  not_oninit e → oninit_of a (tr ++ [(t, e)]) = oninit_of a tr.
Proof.
  intros He. rewrite oninit_of_app. destruct e; cbn; try by rewrite app_nil_r.
  done.
Qed.

Lemma oninit_ok_on_other h tr t e :
  not_oninit e → oninit_ok_on h tr → oninit_ok_on h (tr ++ [(t, e)]).
Proof.
  intros He [H1 H2]. split.
  - intros a ch Ha. rewrite oninit_of_other by done. by apply H1.
  - intros a Ha. rewrite oninit_of_other by done. by apply H2.
Qed.

Lemma oninit_ok_on_benign h tr a f :
  benign f → oninit_ok_on h tr → oninit_ok_on (alter f a h) tr.
Proof.
  intros Hf [H1 H2]. split.
  - intros a' ch' Ha'. destruct (decide (a = a')) as [->|Hne].
    + rewrite list_lookup_alter_eq in Ha'.
      destruct (h !! a') as [ch|] eqn:Hch; [|done]. injection Ha' as <-.
      destruct (Hf ch) as (-> & -> & ->). by apply H1.
    + rewrite list_lookup_alter_ne in Ha' by done. by apply H1.
  - intros a' Ha'. rewrite length_alter in Ha'. by apply H2.
Qed.

Lemma oninit_ok_on_alloc h tr t ch :
  isInitialized ch = present (signal ch) →
  oninit_ok_on h tr →
  oninit_ok_on (h ++ [ch])
    (tr ++ if isInitialized ch && bool_decide (is_Some (config ch ≫= cfg_onInit))
           then [(t, EvOnInit (length h) (signal ch))] else []).
Proof.
  intros Hini [H1 H2].
  assert (∀ a, a ≠ length h →
            oninit_of a (tr ++ if isInitialized ch &&
                                  bool_decide (is_Some (config ch ≫= cfg_onInit))
                               then [(t, EvOnInit (length h) (signal ch))]
                               else []) = oninit_of a tr) as Hother.
  { intros a Ha. rewrite oninit_of_app. destruct (_ && _); cbn.
    - rewrite (proj2 (Nat.eqb_neq _ _)) by done. by rewrite app_nil_r.
    - by rewrite app_nil_r. }
  split.
  - intros a ch' Ha. destruct (decide (a = length h)) as [->|Hne].
    + rewrite list_lookup_middle in Ha by done. injection Ha as <-.
      split; [|by rewrite Hini].
      rewrite oninit_of_app, H2 by done. destruct (_ && _); cbn; [|done].
      by rewrite Nat.eqb_refl.
    + rewrite Hother by done.
      assert (a < length (h ++ [ch]))%nat as Hlt by (by eapply lookup_lt_Some).
      rewrite length_app in Hlt. cbn in Hlt.
      rewrite lookup_app_l in Ha by lia. by apply H1.
  - intros a Ha. rewrite length_app in Ha. cbn in Ha.
    rewrite Hother by lia. apply H2. lia.
Qed.

Lemma oninit_ok_on_set h tr a ch tv :
  h !! a = Some ch →
  negb (isInitialized ch) && present tv = false →
  oninit_ok_on h tr →
  oninit_ok_on (alter (chan_set_signal tv) a h) tr.
Proof.
  intros Hch Hcond [H1 H2]. split.
  - intros a' ch' Ha'. destruct (decide (a = a')) as [->|Hne].
    + rewrite list_lookup_alter_eq, Hch in Ha'. injection Ha' as <-. cbn.
      destruct (H1 _ _ Hch) as [Hlen _]. split; [done|].
      intros Hi. rewrite Hi in Hcond. done.
    + rewrite list_lookup_alter_ne in Ha' by done. by apply H1.
  - intros a' Ha'. rewrite length_alter in Ha'. by apply H2.
Qed.

Lemma oninit_ok_on_first h tr t a ch tv :
  h !! a = Some ch →
  isInitialized ch = false →
  oninit_ok_on h tr →
  oninit_ok_on
    (alter (chan_set_isInitialized true) a (alter (chan_set_signal tv) a h))
    (tr ++ if bool_decide (is_Some (config ch ≫= cfg_onInit))
           then [(t, EvOnInit a tv)] else []).
Proof.
  intros Hch Hi [H1 H2].
  assert (∀ a', a' ≠ a →
            oninit_of a' (tr ++ if bool_decide (is_Some (config ch ≫= cfg_onInit))
                                then [(t, EvOnInit a tv)] else [])
            = oninit_of a' tr) as Hother.
  { intros a' Ha. rewrite oninit_of_app. destruct (bool_decide _); cbn.
    - rewrite (proj2 (Nat.eqb_neq _ _)) by done. by rewrite app_nil_r.
    - by rewrite app_nil_r. }
  split.
  - intros a' ch' Ha'. destruct (decide (a = a')) as [<-|Hne].
    + rewrite !list_lookup_alter_eq, Hch in Ha'. injection Ha' as <-. cbn.
      split; [|done]. destruct (H1 _ _ Hch) as [Hlen _].
      rewrite Hi in Hlen. cbn in Hlen.
      rewrite oninit_of_app, length_app, Hlen.
      destruct (bool_decide _); cbn; [|done]. by rewrite Nat.eqb_refl.
    + rewrite !list_lookup_alter_ne in Ha' by done.
      rewrite Hother by done. by apply H1.
  - intros a' Ha'. rewrite !length_alter in Ha'.
    assert (a < length h)%nat by (by eapply lookup_lt_Some).
    rewrite Hother by lia. by apply H2.
Qed.

Lemma oninit_ok_same s s' :
  chan_heap s' = chan_heap s → trace s' = trace s → oninit_ok s → oninit_ok s'.
Proof. unfold oninit_ok. by intros -> ->. Qed.

Lemma oninit_ok_log e s : not_oninit e → oninit_ok s → oninit_ok (log e s).
Proof. intros He Hok. by apply oninit_ok_on_other. Qed.

Lemma oninit_ok_update a f s :
  benign f → oninit_ok s → oninit_ok (update_chan a f s).
Proof. intros Hf Hok. by apply oninit_ok_on_benign. Qed.

Lemma forEach_preserves {A} (P : State → Prop) (entries : State → SetData A)
    (body : A → State → option State) :
  (∀ e s s', P s → body e s = Some s' → P s') →
  ∀ fuel i s s', P s → forEach fuel entries body i s = Some s' → P s'.
Proof.
  intros Hbody. induction fuel as [|fuel IH]; [done|].
  intros i s s' HP. cbn. destruct (entries s !! i) as [[e|]|].
  - destruct (body e s) as [s1|] eqn:Hb; [cbn|done].
    apply IH. by eapply Hbody.
  - by apply IH.
  - by intros [= <-].
Qed.
Lemma benign_subscribers f : benign (chan_set_subscribers f).
Proof. done. Qed.

Lemma benign_timeoutId t : benign (chan_set_timeoutId t).
Proof. done. Qed.

Lemma benign_debounce t : benign (chan_set_onChangeDebounceTimer t).
Proof. done. Qed.

Lemma benign_lastCall t : benign (chan_set_onChangeLastCall t).
Proof. done. Qed.

Lemma oninit_ok_clear_if_set handle s :
  oninit_ok s → oninit_ok (clear_if_set handle s).
Proof.
  destruct (clear_if_set_fields handle s) as (_ & Hh & _ & _ & _ & _ & Ht).
  by apply oninit_ok_same.
Qed.

Section Reentrant.
Context `{Host}.
Context (Hpres : host_preserves oninit_ok).

Lemma call_hook_ready e f args s s' :
  oninit_ok (log e s) → call_hook e f args s = Some s' → oninit_ok s'.
Proof using Hpres.
  intros Hok. unfold call_hook.
  destruct (invoke f args (log e s)) as [[o s1]|] eqn:Hinv; [cbn|done].
  intros [= <-]. by eapply Hpres.
Qed.

Lemma call_hook_ok e f args s s' :
  not_oninit e → oninit_ok s → call_hook e f args s = Some s' → oninit_ok s'.
Proof using Hpres.
  intros He Hok. apply call_hook_ready. by apply oninit_ok_log.
Qed.

Lemma channel_ok channelName cfg s r :
  oninit_ok s → channel channelName cfg s = Some r → oninit_ok r.2.
Proof using Hpres.
  intros Hok. unfold channel.
  destruct (init_fields s) as (Hh & _ & _ & _ & _ & _ & _ & _ & Htr).
  assert (oninit_ok (init s)) as Hok0 by (by apply (oninit_ok_same s)).
  destruct (channels (init s) !! channelName) as [a|]; [by intros [= <-]|].
  set (v0 := if defined _ then _ else _).
  set (ch := {| signal := v0; isInitialized := present v0 |}).
  set (s1 := with_channels _ _).
  set (a := length (chan_heap (init s))).
  set (s2 := match truthy _ with Some t => _ | None => s1 end).
  assert (∃ g, benign g ∧ chan_heap s2 = alter g a (chan_heap (init s) ++ [ch]) ∧
               trace s2 = trace (init s)) as (g & Hg & Hh2 & Ht2).
  { subst s2. destruct (truthy _).
    - exists (chan_set_timeoutId
                (Some (setTimeout (TTLExpire channelName) z s1).1)).
      split; [apply benign_timeoutId|done].
    - exists id. split; [done|]. split; [|done].
      subst s1. cbn. by rewrite list_alter_id. }
  clearbody s2.
  assert (oninit_ok_on (chan_heap s2)
            (trace s2 ++ if present v0 && bool_decide (is_Some (cfg ≫= cfg_onInit))
                         then [(now s2, EvOnInit a v0)] else [])) as Hready.
  { rewrite Hh2, Ht2. apply oninit_ok_on_benign; [done|].
    by apply (oninit_ok_on_alloc _ _ (now s2) ch). }
  destruct (present v0) eqn:Hp; cbn [mbind option_bind].
  - destruct (cfg ≫= cfg_onInit) as [h|] eqn:Hhook.
    + destruct (call_hook _ _ _ _) as [s3|] eqn:Hrun; [cbn|done].
      intros [= <-]. cbn. eapply call_hook_ready; [|exact Hrun].
      rewrite bool_decide_eq_true_2 in Hready by eauto. exact Hready.
    + cbn. intros [= <-]. cbn.
      rewrite bool_decide_eq_false_2, app_nil_r in Hready by (by intros [? ?]).
      exact Hready.
  - cbn. intros [= <-]. cbn. cbn in Hready. by rewrite app_nil_r in Hready.
Qed.

Lemma executeOnChange_ok channelName a newValue oldValue s s' :
  oninit_ok s →
  executeOnChange channelName a newValue oldValue s = Some s' → oninit_ok s'.
Proof using Hpres.
  intros Hok. unfold executeOnChange.
  destruct (chan_heap s !! a) as [ch|]; [cbn [mbind option_bind]|done].
  destruct (config ch ≫= cfg_onChange) as [h|]; [|by intros [= <-]].
  destruct (truthy (cfg_debounce _)).
  { intros [= <-]. apply oninit_ok_update; [apply benign_debounce|].
    eapply (oninit_ok_same (clear_if_set (onChangeDebounceTimer ch) s));
      [done|done|]. by apply oninit_ok_clear_if_set. }
  destruct (truthy (cfg_throttle _)).
  - destruct (_ <=? _); [|by intros [= <-]].
    apply call_hook_ok; [done|]. apply oninit_ok_update; [apply benign_lastCall|done].
  - by apply call_hook_ok.
Qed.

Lemma publish_ok fuel channelName v s s' :
  oninit_ok s → publish fuel channelName v s = Some s' → oninit_ok s'.
Proof using Hpres.
  intros Hok. unfold publish.
  destruct (channels s !! channelName) as [a|].
  2:{ destruct (channel _ _ _) as [r|] eqn:Hr; [cbn|done]. intros [= <-].
      by eapply channel_ok. }
  destruct (chan_heap s !! a) as [ch|] eqn:Hch; [cbn [mbind option_bind]|done].
  case_match; [by intros [= <-]|].
  set (tv := match config ch ≫= cfg_transform with Some t => t v | None => v end).
  set (s2 := if negb (is_memory (storage ch)) then _ else _).
  assert (chan_heap s2 = alter (chan_set_signal tv) a (chan_heap s) ∧
          trace s2 = trace s) as [Hh2 Ht2].
  { subst s2. unfold saveToStorage. by destruct (storage ch). }
  clearbody s2.
  set (stage3 := if negb (isInitialized ch) && present tv then _ else _).
  destruct stage3 as [s3|] eqn:H3; [cbn [mbind option_bind]|done].
  assert (oninit_ok s3) as Hok3.
  { subst stage3. destruct (negb (isInitialized ch) && present tv) eqn:Hcond.
    - apply andb_true_iff in Hcond as [Hi%negb_true_iff Hp].
      assert (oninit_ok_on
                (chan_heap (update_chan a (chan_set_isInitialized true) s2))
                (trace s2 ++ if bool_decide (is_Some (config ch ≫= cfg_onInit))
                             then [(now s2, EvOnInit a tv)] else [])) as Hready.
      { cbn. rewrite Hh2, Ht2. by apply oninit_ok_on_first. }
      destruct (config ch ≫= cfg_onInit) as [h|].
      + eapply call_hook_ready; [|exact H3].
        rewrite bool_decide_eq_true_2 in Hready by eauto. exact Hready.
      + injection H3 as <-.
        rewrite bool_decide_eq_false_2, app_nil_r in Hready by (by intros [? ?]).
        exact Hready.
    - injection H3 as <-. unfold oninit_ok. rewrite Hh2, Ht2.
      by eapply oninit_ok_on_set. }
  set (stage4 := match config ch ≫= cfg_onChange with Some _ => _ | None => _ end).
  destruct stage4 as [s4|] eqn:H4; [cbn [mbind option_bind]|done].
  assert (oninit_ok s4) as Hok4.
  { subst stage4. destruct (config ch ≫= cfg_onChange).
    - by eapply executeOnChange_ok.
    - by injection H4 as <-. }
  apply forEach_preserves; [|done].
  intros cb st st' Hst. by apply call_hook_ok.
Qed.

Lemma clear_ok channelName s s' :
  oninit_ok s → clear channelName s = Some s' → oninit_ok s'.
Proof using Hpres.
  intros Hok. unfold clear.
  destruct (channels s !! channelName) as [a|]; [|by intros [= <-]].
  destruct (chan_heap s !! a) as [ch|]; [cbn [mbind option_bind]|done].
  set (stage1 := match config ch ≫= cfg_onClear with Some _ => _ | None => _ end).
  destruct stage1 as [s1|] eqn:H1; [cbn [mbind option_bind]|done].
  assert (oninit_ok s1) as Hok1.
  { subst stage1. destruct (config ch ≫= cfg_onClear).
    - eapply call_hook_ok; [|exact Hok|exact H1]. done.
    - by injection H1 as <-. }
  destruct (chan_heap s1 !! a) as [ch1|]; [cbn [mbind option_bind]|done].
  intros [= <-].
  eapply (oninit_ok_same (update_chan a (chan_set_subscribers set_clear)
            (clear_if_set (onChangeDebounceTimer ch1)
               (clear_if_set (timeoutId ch1) s1)))).
  - unfold removeFromStorage. by destruct (storage ch1).
  - unfold removeFromStorage. by destruct (storage ch1).
  - apply oninit_ok_update; [apply benign_subscribers|].
    by do 2 apply oninit_ok_clear_if_set.
Qed.

Lemma subscribe_ok channelName callback s r :
  oninit_ok s → subscribe channelName callback s = Some r → oninit_ok r.2.
Proof using Hpres.
  intros Hok. unfold subscribe.
  set (stage1 := if bool_decide _ then _ else _).
  destruct stage1 as [s1|] eqn:H1; [cbn [mbind option_bind]|done].
  assert (oninit_ok s1) as Hok1.
  { subst stage1. destruct (bool_decide _); [by injection H1 as <-|].
    destruct (channel _ _ _) as [r0|] eqn:Hr; [|done].
    injection H1 as <-. by eapply channel_ok. }
  destruct (channels s1 !! channelName) as [a|]; [cbn|done].
  intros [= <-]. cbn. apply oninit_ok_update; [apply benign_subscribers|done].
Qed.

Lemma unsubscribe_ok u s s' :
  oninit_ok s → unsubscribe u s = Some s' → oninit_ok s'.
Proof using Hpres.
  intros Hok. unfold unsubscribe.
  set (s1 := update_chan _ _ s).
  assert (oninit_ok s1) as Hok1
    by (apply oninit_ok_update; [apply benign_subscribers|done]).
  destruct (chan_heap s1 !! u_channel u) as [ch|]; [cbn [mbind option_bind]|done].
  destruct (_ && _); [by apply clear_ok|by intros [= <-]].
Qed.

Lemma unlisten_ok lid s : oninit_ok s → oninit_ok (unlisten lid s).
Proof.
  intros Hok. unfold unlisten. destruct (wrappers s !! lid) as [w|]; [|done].
  eapply (oninit_ok_same (clear_if_set (debounceTimer w) s));
    [by case_match|by case_match|by apply oninit_ok_clear_if_set].
Qed.

Lemma executeListener_ok lid v s s' :
  oninit_ok s → executeListener lid v s = Some s' → oninit_ok s'.
Proof using Hpres.
  intros Hok. unfold executeListener.
  destruct (wrappers s !! lid) as [w|]; [cbn [mbind option_bind]|done].
  destruct (invoke _ _ _) as [[o s1]|] eqn:Hinv; [cbn [mbind option_bind fst snd]|done].
  assert (oninit_ok s1) as Hok1.
  { eapply Hpres; [exact Hinv|]. by apply oninit_ok_log. }
  destruct o; [|by intros [= <-]].
  destruct (truthy_bool _); intros [= <-].
  - apply unlisten_ok. by eapply oninit_ok_same.
  - by eapply oninit_ok_same.
Qed.

Lemma wrappedListener_ok lid data s s' :
  oninit_ok s → wrappedListener lid data s = Some s' → oninit_ok s'.
Proof using Hpres.
  intros Hok. unfold wrappedListener.
  destruct (wrappers s !! lid) as [w|]; [cbn [mbind option_bind]|done].
  destruct (_ && _); [by intros [= <-]|].
  case_match; [by intros [= <-]|].
  destruct (truthy (w_options w ≫= opt_debounce)).
  { intros [= <-].
    eapply (oninit_ok_same (clear_if_set (debounceTimer w) s));
      [done|done|by apply oninit_ok_clear_if_set]. }
  destruct (truthy (w_options w ≫= opt_throttle)).
  - destruct (_ <=? _); [|by intros [= <-]].
    apply executeListener_ok. by eapply oninit_ok_same.
  - by apply executeListener_ok.
Qed.

Lemma emit_ok fuel eventName data s s' :
  oninit_ok s → emit fuel eventName data s = Some s' → oninit_ok s'.
Proof using Hpres.
  intros Hok. unfold emit.
  destruct (eventListeners s !! eventName) as [sid|]; [|by intros [= <-]].
  destruct (_ =? _)%nat; [by intros [= <-]|].
  apply forEach_preserves; [|done].
  intros lid st st' Hst. apply wrappedListener_ok. by apply oninit_ok_log.
Qed.

Lemma advance_ok fuel T : ∀ s s',
  oninit_ok s → advance fuel T s = Some s' → oninit_ok s'.
Proof using Hpres.
  induction fuel as [|fuel IH]; intros s s' Hok; cbn [advance].
  - destruct (next_due T s) as [[[i due] tk]|]; [done|].
    intros [= <-]. by eapply oninit_ok_same.
  - destruct (next_due T s) as [[[i due] tk]|];
      [|intros [= <-]; by eapply oninit_ok_same].
    destruct (run_task _ _) as [s1|] eqn:Hrun; [cbn [mbind option_bind]|done].
    apply IH. revert Hrun.
    assert (oninit_ok (with_now (Z.max (now s) due)
                         (with_timers <[i:=None]> s))) as Hok'
      by (by eapply oninit_ok_same).
    destruct tk; cbn [run_task].
    + by apply clear_ok.
    + by apply call_hook_ok.
    + by apply executeListener_ok.
Qed.

Lemma run_call_ok fuel c s s' :
  oninit_ok s → run_call fuel c s = Some s' → oninit_ok s'.
Proof using Hpres.
  intros Hok. destruct c; cbn [run_call].
  - destruct (channel _ _ _) as [r|] eqn:Hr; [cbn|done]. intros [= <-].
    by eapply channel_ok.
  - by apply publish_ok.
  - destruct (subscribe _ _ _) as [r|] eqn:Hr; [cbn|done]. intros [= <-].
    by eapply subscribe_ok.
  - by apply unsubscribe_ok.
  - by apply clear_ok.
  - by apply emit_ok.
  - intros [= <-]. eapply oninit_ok_same; [| |exact Hok]; unfold on; by case_match.
  - intros [= <-]. eapply oninit_ok_same; [| |exact Hok]; unfold once, on; by case_match.
  - intros [= <-]. by apply unlisten_ok.
  - intros [= <-]. by eapply oninit_ok_same.
  - by apply advance_ok.
Qed.

Lemma run_calls_ok fuel cs : ∀ s s',
  oninit_ok s → run_calls fuel cs s = Some s' → oninit_ok s'.
Proof using Hpres.
  induction cs as [|c cs IH]; intros s s' Hok; cbn [run_calls].
  - by intros [= <-].
  - destruct (run_call fuel c s) as [s1|] eqn:Hc; [cbn [mbind option_bind]|done].
    apply IH. by eapply run_call_ok.
Qed.
End Reentrant.

Lemma scripted_host_preserves base code fuel depth :
  host_preserves (H := scripted_host base code fuel depth) oninit_ok.
Proof.
  induction depth as [|depth IH]; intros f args s o s'; cbn [invoke scripted_host];
    [done|].
  destruct (run_calls _ _ _) as [s1|] eqn:Hrun; [cbn|done].
  intros [= _ <-] Hok. by eapply (run_calls_ok IH).
Qed.

Lemma oninit_ok_initial t0 : oninit_ok (initial_state t0).
Proof. split; [by intros a ch Ha|done]. Qed.

(** Companion of C3, for callbacks that reenter the broker.  Whatever
    program over the public surface runs from a fresh broker, and
    whatever the callbacks do through that surface, nested to any
    depth, no channel object has its [onInit] hook called twice: in the
    state reached, the hook of an object has been called once if the
    object is marked initialized and never otherwise, and an object not
    marked initialized holds no present value. *)
Theorem onInit_once_under_reentrancy base code fuel depth t0 cs s' :
  run_calls (H := scripted_host base code fuel depth) fuel cs (initial_state t0)
    = Some s' →
  oninit_ok s'.
Proof.
  apply (run_calls_ok (scripted_host_preserves base code fuel depth)).
  apply oninit_ok_initial.
Qed.

(** ** Debounced [onChange] *)




Lemma earliest_spec ts : ∀ i best r,
  earliest i ts best = r →
  (r = best ∨
   ∃ j due tk, r = Some ((i + j)%nat, due, tk) ∧ ts !! j = Some (Some (due, tk))) ∧
  (∀ j due' tk', ts !! j = Some (Some (due', tk')) →
     ∃ x due tk, r = Some (x, due, tk) ∧ due ≤ due') ∧
  (∀ x bdue btk, best = Some (x, bdue, btk) →
     ∃ x' due tk, r = Some (x', due, tk) ∧ due ≤ bdue).
Proof.
  induction ts as [|e ts IH]; intros i best r; cbn [earliest].
  - intros <-. split; [by left|]. split; [done|]. intros x bdue btk ->.
    exists x, bdue, btk. split; [done|lia].
  - intros Hr. apply IH in Hr as (Hin & Hmin & Hbest).
    split; [|split].
    + destruct Hin as [->|(j & due & tk & -> & Hj)].
      * destruct e as [[due tk]|]; [|by left].
        destruct best as [[[x bdue] btk]|].
        -- destruct (due <? bdue); [|by left].
           right. exists 0%nat, due, tk. split; [by rewrite Nat.add_0_r|done].
        -- right. exists 0%nat, due, tk. split; [by rewrite Nat.add_0_r|done].
      * right. exists (S j), due, tk. split; [f_equal; f_equal; f_equal; lia|done].
    + intros [|j] due' tk' Hj; [|by eapply Hmin].
      cbn in Hj. injection Hj as ->.
      destruct best as [[[x bdue] btk]|].
      * destruct (due' <? bdue) eqn:E.
        -- by eapply Hbest.
        -- destruct (Hbest _ _ _ eq_refl) as (x' & due & tk & -> & Hle).
           exists x', due, tk. split; [done|]. apply Z.ltb_ge in E. lia.
      * by eapply Hbest.
    + intros x bdue btk ->. destruct e as [[due tk]|]; [|by eapply Hbest].
      destruct (due <? bdue) eqn:E; [|by eapply Hbest].
      destruct (Hbest _ _ _ eq_refl) as (x' & due0 & tk0 & -> & Hle).
      exists x', due0, tk0. split; [done|]. apply Z.ltb_lt in E. lia.
Qed.

Lemma next_due_quiet T s : quiet_until T s → next_due T s = None.
Proof.
  intros Hq. unfold next_due.
  destruct (earliest 0 (timers s) None) as [[[i due] tk]|] eqn:He; [|done].
  apply earliest_spec in He as ([?|(j & due' & tk' & [= -> -> ->] & Hj)] & _);
    [done|].
  apply Hq in Hj. by rewrite (proj2 (Z.leb_gt _ _)).
Qed.


Section QuietClock.
Context `{Host}.

Lemma advance_quiet fuel T s :
  quiet_until T s → advance fuel T s = Some (with_now (Z.max (now s) T) s).
Proof. intros Hq. destruct fuel; cbn; by rewrite next_due_quiet. Qed.
End QuietClock.
Section PublishStages.
Context `{Host}.
Context (channelName : string) (a : nat).
Context (Htot : host_total) (Hfr : host_leaves_channel channelName a)
        (Hclk : host_leaves_clock).

Lemma call_hook_clock e f args s :
  ∃ s', call_hook e f args s = Some s' ∧
        chan_frame channelName a (log e s) s' ∧
        timers s' = timers s ∧ now s' = now s.
Proof using Htot Hfr Hclk.
  unfold call_hook. destruct (Htot f args (log e s)) as [[o s'] Hinv].
  rewrite Hinv. cbn. exists s'. split; [done|].
  split; [by eapply Hfr|]. by apply Hclk in Hinv.
Qed.

Lemma notify_clock fuel v s ch :
  chan_heap s !! a = Some ch →
  (length (subscribers ch) < fuel)%nat →
  ∃ s',
    forEach fuel (subscribers_of a)
      (λ callback, call_hook (EvSubscriber a callback v) callback [v]) 0%nat s
    = Some s' ∧
    chan_frame channelName a s s' ∧ timers s' = timers s ∧ now s' = now s.
Proof using Htot Hfr Hclk.
  intros Hch Hfuel.
  apply (forEach_fixed
           (λ _ st, chan_frame channelName a s st ∧
                    timers st = timers s ∧ now st = now s) _ _
           (length (subscribers ch))).
  - intros _ st ((_ & Hh & _) & _). unfold subscribers_of. by rewrite Hh, Hch.
  - intros _ st cb (Hst & Ht & Hn) _.
    destruct (call_hook_clock (EvSubscriber a cb v) cb [v] st)
      as (st' & Hrun & Hf & Ht' & Hn').
    exists st'. split; [done|]. split; [|by rewrite Ht', Hn'].
    eapply chan_frame_trans; [exact Hst|].
    eapply chan_frame_trans; [apply chan_frame_log_subscriber|exact Hf].
  - done.
  - lia.
  - lia.
  - split; [apply chan_frame_refl|done].
Qed.

(** An accepted publish to a channel with an [onChange] hook, cut at the
    call of [executeOnChange]. *)
Lemma publish_stages fuel v s ch h :
  channels s !! channelName = Some a →
  chan_heap s !! a = Some ch →
  accepts (config ch) v = true →
  config ch ≫= cfg_onChange = Some h →
  ∃ s3 ch3,
    channels s3 !! channelName = Some a ∧
    chan_heap s3 !! a = Some ch3 ∧
    ch3 = chan_set_isInitialized
            (isInitialized ch || present (transformed (config ch) v))
            (chan_set_signal (transformed (config ch) v) ch) ∧
    timers s3 = timers s ∧ now s3 = now s ∧
    onchange_of a (trace s3) = onchange_of a (trace s) ∧
    ∀ s4 ch4,
      executeOnChange channelName a (transformed (config ch) v) (signal ch) s3
        = Some s4 →
      chan_heap s4 !! a = Some ch4 →
      (length (subscribers ch4) < fuel)%nat →
      ∃ s', publish fuel channelName v s = Some s' ∧
            chan_frame channelName a s4 s' ∧
            timers s' = timers s4 ∧ now s' = now s4.
Proof using Htot Hfr Hclk.
  intros Hn Hch Hacc Hhook. unfold publish. rewrite Hn. cbn [mbind option_bind].
  rewrite Hch. cbn [mbind option_bind].
  unfold accepts in Hacc. fold (transformed (config ch) v).
  set (tv := transformed (config ch) v).
  assert (match config ch ≫= cfg_validate with
          | Some validate => negb (validate v)
          | None => false
          end = false) as ->.
  { destruct (config ch ≫= cfg_validate); [by rewrite Hacc|done]. }
  rewrite Hhook.
  set (s2 := if negb (is_memory (storage ch)) then _ else _).
  set (ch2 := chan_set_signal tv ch).
  assert (channels s2 = channels s ∧ chan_heap s2 !! a = Some ch2 ∧
          trace s2 = trace s ∧ timers s2 = timers s ∧ now s2 = now s)
    as (Hc2 & Hh2 & Ht2 & Htm2 & Hnow2).
  { subst s2. unfold saveToStorage.
    destruct (storage ch); cbn; by rewrite list_lookup_alter_eq, Hch. }
  clearbody s2.
  set (stage3 := if negb (isInitialized ch) && present tv then _ else _).
  assert (∃ s3 ch3, stage3 = Some s3 ∧
            channels s3 !! channelName = Some a ∧
            chan_heap s3 !! a = Some ch3 ∧
            ch3 = chan_set_isInitialized (isInitialized ch || present tv) ch2 ∧
            timers s3 = timers s ∧ now s3 = now s ∧
            onchange_of a (trace s3) = onchange_of a (trace s))
    as (s3 & ch3 & -> & Hc3 & Hh3 & Hch3 & Htm3 & Hnow3 & Ht3).
  { subst stage3. destruct (isInitialized ch) eqn:Hi; cbn [negb andb orb].
    { exists s2, ch2. rewrite Hc2, Ht2. repeat split; try done.
      subst ch2. destruct ch. cbn in *. by rewrite Hi. }
    destruct (present tv) eqn:Hp.
    - set (s2' := update_chan a (chan_set_isInitialized true) s2).
      assert (chan_heap s2' !! a = Some (chan_set_isInitialized true ch2)) as Hh2'.
      { subst s2'. cbn. by rewrite list_lookup_alter_eq, Hh2. }
      destruct (config ch ≫= cfg_onInit) as [h0|].
      + destruct (call_hook_clock (EvOnInit a tv) h0 [tv] s2')
          as (s3 & Hrun & (F1 & F2 & _ & F4) & Htm & Hnow).
        exists s3, (chan_set_isInitialized true ch2).
        split; [done|]. split; [by rewrite F1; cbn; rewrite Hc2|].
        split; [by rewrite F2|]. split; [done|].
        split; [by rewrite Htm|]. split; [by rewrite Hnow|].
        rewrite F4, onchange_of_log_oninit. subst s2'. cbn. by rewrite Ht2.
      + exists s2', (chan_set_isInitialized true ch2).
        split; [done|]. split; [by subst s2'; cbn; rewrite Hc2|].
        repeat split; try done. subst s2'. cbn. by rewrite Ht2.
    - exists s2, ch2. rewrite Hc2, Ht2. repeat split; try done.
      subst ch2. destruct ch. cbn in *. by rewrite Hi. }
  cbn [mbind option_bind].
  exists s3, ch3. repeat split; try done.
  intros s4 ch4 -> Hh4 Hfuel. cbn [mbind option_bind].
  by apply (notify_clock fuel tv s4 ch4).
Qed.


Lemma executeOnChange_throttle newValue oldValue s ch cfg h t :
  chan_heap s !! a = Some ch →
  config ch = Some cfg → cfg_onChange cfg = Some h →
  truthy (cfg_debounce cfg) = None →
  cfg_throttle cfg = Some t → t ≠ 0 →
  if t <=? now s - default 0 (truthy (onChangeLastCall ch))
  then
    ∃ s',
      executeOnChange channelName a newValue oldValue s = Some s' ∧
      channels s' !! channelName = channels s !! channelName ∧
      chan_heap s' !! a = Some (chan_set_onChangeLastCall (Some (now s)) ch) ∧
      timers s' = timers s ∧ now s' = now s ∧
      onchange_of a (trace s') =
        onchange_of a (trace s) ++ [(now s, newValue, oldValue)]
  else executeOnChange channelName a newValue oldValue s = Some s.
Proof using Htot Hfr Hclk.
  intros Hch Hcfg Hh Hd Ht Ht0. unfold executeOnChange.
  rewrite Hch. cbn [mbind option_bind]. rewrite Hcfg.
  change (default empty_config (Some cfg)) with cfg. cbn [mbind option_bind].
  rewrite Hh, Hd, Ht. cbn [truthy]. rewrite (proj2 (Z.eqb_neq t 0)) by done.
  destruct (_ <=? _); [|done].
  unfold executeCallback.
  destruct (call_hook_clock (EvOnChange a newValue oldValue) h [newValue; oldValue]
              (update_chan a (chan_set_onChangeLastCall (Some (now s))) s))
    as (s' & Hrun & (F1 & F2 & _ & F4) & Htm & Hnow).
  exists s'. split; [done|]. split; [by rewrite F1|].
  split; [rewrite F2; cbn; by rewrite list_lookup_alter_eq, Hch|].
  split; [by rewrite Htm|]. split; [by rewrite Hnow|].
  by rewrite F4, onchange_of_log_onchange.
Qed.
End PublishStages.

Section Debounce.
Context `{Host}.
Context (channelName : string) (a : nat) (cfg : ChannelConfig) (h : fn) (d T : Z).
Context (subs : SetData fn) (base : list (Z * value * value)) (fuel : nat).
Context (Htot : host_total) (Hfr : host_leaves_channel channelName a)
        (Hclk : host_leaves_clock).
Context (Hhook : cfg_onChange cfg = Some h) (Hdeb : cfg_debounce cfg = Some d)
        (Hd : 0 < d < 2147483648) (Hfuel : (length subs + 1 < fuel)%nat).
Context (Hj : host_journals h) (Hnot : h ∉ members subs)
        (Hinit : cfg_onInit cfg ≠ Some h).






End Debounce.
Lemma burst_time_nonneg ps : Forall (λ p : Z * value, 0 ≤ p.1) ps → 0 ≤ burst_time ps.
Proof.
  induction 1 as [|p ps Hp _ IH]; [done|]. unfold burst_time in *. cbn. lia.
Qed.


Section DebouncedBurst.
Context `{Host}.

End DebouncedBurst.


(** It fails as well for an interval that does not fit the 32-bit delay of
    a timer: with [debounce] [2^31] the hook has been called one
    millisecond after the publish. *)
Lemma debounce_beyond_32_bits_does_not_wait :
  (s1 ← publish (H := journaling_host) 3 "a" (VNum 2)
          (with_channel_a (H := journaling_host) long_debounce_config);
   s2 ← advance (H := journaling_host) 3 1 s1;
   Some (journal_of 7 (trace s2))) = Some [[VNum 2; VNum 1]].
Proof. vm_compute. reflexivity. Qed.


(** ** Throttled [onChange] *)

Lemma default_truthy t1 : default 0 (truthy (Some t1)) = t1.
Proof. cbn. by destruct (Z.eqb_spec t1 0). Qed.

Section Throttle.
Context `{Host}.
Context (channelName : string) (a : nat) (cfg : ChannelConfig) (h : fn) (t : Z).
Context (subs : SetData fn) (fired : list (Z * value * value))
        (tms : list (option (Z * task))) (t1 : Z) (fuel : nat).
Context (Htot : host_total) (Hfr : host_leaves_channel channelName a)
        (Hclk : host_leaves_clock).
Context (Hhook : cfg_onChange cfg = Some h)
        (Hdeb : truthy (cfg_debounce cfg) = None)
        (Hthr : cfg_throttle cfg = Some t) (Ht : 0 < t)
        (Hfuel : (length subs < fuel)%nat).
Context (Hj : host_journals h) (Hnot : h ∉ members subs)
        (Hinit : cfg_onInit cfg ≠ Some h).

(** What a throttled publish adds to the journal of the hook. *)
Lemma throttle_publish_journal v st st' ch :
  channels st !! channelName = Some a →
  chan_heap st !! a = Some ch →
  config ch = Some cfg → subscribers ch = subs →
  accepts (Some cfg) v = true →
  publish fuel channelName v st = Some st' →
  journal_of h (trace st') =
    journal_of h (trace st) ++
    (if t <=? now st - default 0 (truthy (onChangeLastCall ch))
     then [[transformed (Some cfg) v; signal ch]] else []).
Proof using Hfr Hclk Hhook Hdeb Hthr Ht Hj Hnot Hinit.
  clear Hfuel.
  intros Hc Hch Hcfg Hsub Hacc Hrun.
  destruct (publish_journal channelName a h Hfr Hj fuel v st st' ch Hc Hch)
    as (t3 & Ht3 & ->); [by rewrite Hcfg|by rewrite Hsub|done|].
  rewrite (Ht3 Hclk).
  assert (onchange_fires ch (now st) =
          (t <=? now st - default 0 (truthy (onChangeLastCall ch)))) as ->.
  { unfold onchange_fires. rewrite Hcfg.
    change (default empty_config (Some cfg)) with cfg. rewrite Hdeb, Hthr.
    cbn [truthy]. by rewrite (proj2 (Z.eqb_neq t 0)) by lia. }
  assert (noted h (config ch ≫= cfg_onInit)
            [transformed (config ch) v] = []) as ->.
  { rewrite Hcfg. cbn. unfold noted.
    destruct (cfg_onInit cfg) as [h0|]; [|done].
    destruct (Nat.eqb_spec h0 h) as [->|_]; [by destruct Hinit|done]. }
  assert (noted h (config ch ≫= cfg_onChange)
            [transformed (config ch) v; signal ch] =
          [[transformed (Some cfg) v; signal ch]]) as ->.
  { rewrite Hcfg. cbn. rewrite Hhook. unfold noted. by rewrite Nat.eqb_refl. }
  by destruct (_ && _).
Qed.

Lemma throttle_drops gap v st :
  throttled channelName a cfg subs fired tms t1 st →
  0 ≤ gap → now st + gap - t1 < t →
  quiet_until (now st + gap) st →
  accepts (Some cfg) v = true →
  ∃ st1 st2,
    advance fuel (now st + gap) st = Some st1 ∧
    publish fuel channelName v st1 = Some st2 ∧
    throttled channelName a cfg subs fired tms t1 st2 ∧
    now st2 = now st + gap ∧
    journal_of h (trace st2) = journal_of h (trace st).
Proof using Htot Hfr Hclk Hhook Hdeb Hthr Ht Hfuel Hj Hnot Hinit.
  intros (Hc & Htr & Htm & Ht1 & ch & Hch & Hcfg & Hsub & Hlast) Hgap Hwin Hq Hacc.
  exists (with_now (Z.max (now st) (now st + gap)) st).
  rewrite advance_quiet by done. rewrite Z.max_r by lia.
  set (st1 := with_now (now st + gap) st).
  destruct (publish_stages channelName a Htot Hfr Hclk fuel v st1 ch h)
    as (s3 & ch3 & Hc3 & Hh3 & Hch3 & Htm3 & Hnow3 & Ht3 & Hcont);
    [done|done|by rewrite Hcfg|by rewrite Hcfg|].
  rewrite Hcfg in Hch3, Hcont.
  pose proof (executeOnChange_throttle channelName a Htot Hfr Hclk
                (transformed (Some cfg) v) (signal ch) s3 ch3 cfg h t Hh3) as Hex.
  rewrite Hch3 in Hex.
  cbn [config onChangeLastCall chan_set_isInitialized chan_set_signal] in Hex.
  rewrite Hlast, default_truthy, Hnow3 in Hex.
  change (now st1) with (now st + gap) in Hex.
  rewrite (proj2 (Z.leb_gt _ _)) in Hex by lia.
  specialize (Hex Hcfg Hhook Hdeb Hthr ltac:(lia)).
  destruct (Hcont s3 ch3 Hex Hh3) as (st2 & Hrun & (F1 & F2 & _ & F4) & Htm' & Hnow').
  { rewrite Hch3. cbn. by rewrite Hsub. }
  exists st2. split; [done|]. split; [done|].
  split; [|split; [by rewrite Hnow', Hnow3|]].
  2:{ rewrite (throttle_publish_journal v st1 st2 ch Hc Hch Hcfg Hsub Hacc Hrun).
      rewrite Hlast, default_truthy. change (now st1) with (now st + gap).
      rewrite (proj2 (Z.leb_gt _ _)) by lia. by rewrite app_nil_r. }
  split; [by rewrite F1|]. split; [by rewrite F4, Ht3|].
  split; [by rewrite Htm', Htm3|]. split; [rewrite Hnow', Hnow3; cbn; lia|].
  exists ch3. split; [by rewrite F2|]. rewrite Hch3. done.
Qed.

Lemma throttle_burst ps : ∀ st,
  throttled channelName a cfg subs fired tms t1 st →
  Forall (λ p, 0 ≤ p.1 ∧ accepts (Some cfg) p.2 = true) ps →
  now st + burst_time ps - t1 < t →
  quiet_until (now st + burst_time ps) st →
  ∃ st',
    burst fuel channelName ps st = Some st' ∧
    throttled channelName a cfg subs fired tms t1 st' ∧
    now st' = now st + burst_time ps ∧
    journal_of h (trace st') = journal_of h (trace st).
Proof using Htot Hfr Hclk Hhook Hdeb Hthr Ht Hfuel Hj Hnot Hinit.
  induction ps as [|[gap v] ps IH]; intros st Hthrottled Hall Hwin Hq.
  - exists st. change (burst_time []) with 0. rewrite Z.add_0_r. done.
  - apply Forall_cons in Hall as [[Hgap Hacc] Hall]. cbn in Hgap, Hacc.
    assert (0 ≤ burst_time ps) as Hpos.
    { apply burst_time_nonneg. eapply Forall_impl; [exact Hall|]. by intros ? [? _]. }
    change (burst_time ((gap, v) :: ps)) with (gap + burst_time ps) in *.
    destruct (throttle_drops gap v st Hthrottled Hgap)
      as (st1 & st2 & Hadv & Hpub & Hthrottled2 & Hnow2 & Hjn2); [lia| |done|].
    { intros i due tk Hi. apply Hq in Hi. lia. }
    cbn [burst]. rewrite Hadv. cbn [mbind option_bind].
    rewrite Hpub. cbn [mbind option_bind].
    destruct (IH st2 Hthrottled2 Hall) as (st' & Hrun & Hthrottled' & Hnow' & Hjn').
    + rewrite Hnow2. lia.
    + intros i due tk Hi.
      destruct Hthrottled as (_ & _ & Htm & _).
      destruct Hthrottled2 as (_ & _ & Htm2 & _).
      rewrite Htm2, <-Htm in Hi. apply Hq in Hi. rewrite Hnow2. lia.
    + exists st'. split; [done|]. split; [done|].
      split; [rewrite Hnow', Hnow2; lia|]. by rewrite Hjn', Hjn2.
Qed.
End Throttle.

Section ThrottledBurst.
Context `{Host}.

(** C5. On a channel with an [onChange] hook, a throttle interval [t] and
    no debounce, whose last call of [onChange] (none counts as time 0) is
    at least [t] ms old, a run of accepted publishes that takes less than
    [t] ms in total calls [onChange] exactly once: within the first
    publish, at its time, with the value it stored and the value held
    before; the other publishes call nothing and leave the timer table as
    it was, so nothing is queued or deferred.  The calls are counted
    twice: by the record that the broker keeps of the calls it makes, and
    by the journal that the hook itself keeps of the calls it receives
    (the hook serves as nothing else, so that its journal holds only
    these calls). *)
Theorem throttled_burst_fires_once (fuel : nat) (channelName : string)
    (a : nat) (ch : Channel) (cfg : ChannelConfig) (h : fn) (t : Z)
    (s : State) (v1 : value) (rest : list (Z * value)) :
  host_total → host_leaves_channel channelName a → host_leaves_clock →
  host_journals h →
  channels s !! channelName = Some a →
  chan_heap s !! a = Some ch →
  config ch = Some cfg →
  cfg_onChange cfg = Some h →
  cfg_onInit cfg ≠ Some h →
  h ∉ members (subscribers ch) →
  truthy (cfg_debounce cfg) = None →
  cfg_throttle cfg = Some t → 0 < t →
  t ≤ now s - default 0 (truthy (onChangeLastCall ch)) →
  accepts (Some cfg) v1 = true →
  Forall (λ p, 0 ≤ p.1 ∧ accepts (Some cfg) p.2 = true) rest →
  burst_time rest < t →
  quiet_until (now s + burst_time rest) s →
  (length (subscribers ch) < fuel)%nat →
  ∃ s1 s',
    publish fuel channelName v1 s = Some s1 ∧
    onchange_of a (trace s1) =
      onchange_of a (trace s) ++
      [(now s, transformed (Some cfg) v1, signal ch)] ∧
    journal_of h (trace s1) =
      journal_of h (trace s) ++ [[transformed (Some cfg) v1; signal ch]] ∧
    burst fuel channelName rest s1 = Some s' ∧
    onchange_of a (trace s') = onchange_of a (trace s1) ∧
    journal_of h (trace s') = journal_of h (trace s1) ∧
    timers s' = timers s ∧
    now s' = now s + burst_time rest.
Proof.
  intros Htot Hfr Hclk Hj Hn Hch Hcfg Hhook Hinit Hnot Hdeb Hthr Ht Hopen Hacc
    Hall Hshort Hq Hfuel.
  destruct (publish_stages channelName a Htot Hfr Hclk fuel v1 s ch h)
    as (s3 & ch3 & Hc3 & Hh3 & Hch3 & Htm3 & Hnow3 & Ht3 & Hcont);
    [done|done|by rewrite Hcfg|by rewrite Hcfg|].
  rewrite Hcfg in Hch3, Hcont.
  pose proof (executeOnChange_throttle channelName a Htot Hfr Hclk
                (transformed (Some cfg) v1) (signal ch) s3 ch3 cfg h t Hh3) as Hex.
  rewrite Hch3 in Hex.
  cbn [config onChangeLastCall chan_set_isInitialized chan_set_signal] in Hex.
  rewrite Hnow3, (proj2 (Z.leb_le _ _)) in Hex by done.
  destruct (Hex Hcfg Hhook Hdeb Hthr ltac:(lia))
    as (s4 & Hrun4 & Hc4 & Hh4 & Htm4 & Hnow4 & Ht4).
  destruct (Hcont s4 _ Hrun4 Hh4) as (s1 & Hrun & (F1 & F2 & _ & F4) & Htm & Hnow).
  { done. }
  assert (throttled channelName a cfg (subscribers ch)
            (onchange_of a (trace s) ++ [(now s, transformed (Some cfg) v1, signal ch)])
            (timers s) (now s) s1) as Hthrottled.
  { split; [by rewrite F1, Hc4|]. split; [by rewrite F4, Ht4, Ht3|].
    split; [by rewrite Htm, Htm4|]. split; [rewrite Hnow, Hnow4; lia|].
    eexists. split; [by rewrite F2|]. done. }
  assert (now s1 = now s) as Hnow1 by (by rewrite Hnow, Hnow4).
  assert (journal_of h (trace s1) =
          journal_of h (trace s) ++ [[transformed (Some cfg) v1; signal ch]])
    as Hjn1.
  { rewrite (throttle_publish_journal channelName a cfg h t (subscribers ch)
               fuel Hfr Hclk Hhook Hdeb Hthr Ht Hj Hnot Hinit v1 s s1 ch
               Hn Hch Hcfg eq_refl Hacc Hrun).
    by rewrite (proj2 (Z.leb_le _ _)) by done. }
  destruct (throttle_burst channelName a cfg h t (subscribers ch) _ _ (now s) fuel
              Htot Hfr Hclk Hhook Hdeb Hthr Ht Hfuel Hj Hnot Hinit rest s1
              Hthrottled Hall)
    as (s' & Hrun' & (_ & Htr' & Htm' & _) & Hnow' & Hjn').
  { rewrite Hnow1. lia. }
  { intros i due tk Hi. rewrite Htm, Htm4, Htm3 in Hi. apply Hq in Hi.
    by rewrite Hnow1. }
  exists s1, s'. split; [done|]. split; [by rewrite F4, Ht4, Ht3|].
  split; [done|].
  split; [done|]. split; [by rewrite Htr', F4, Ht4, Ht3|].
  split; [done|].
  split; [done|]. by rewrite Hnow', Hnow1.
Qed.
End ThrottledBurst.

(** C5 with [t = 100] and a hook that keeps a journal: publishes at times
    5000, 5003 and 5093, one call at time 5000. *)
Lemma throttled_burst_fires_once_witness :
  ∃ s1 s',
    publish (H := journaling_host) 1 "a" (VNum 2) throttled_state = Some s1 ∧
    onchange_of 0 (trace s1) =
      onchange_of 0 (trace throttled_state) ++
      [(now throttled_state, transformed (Some throttled_config) (VNum 2),
        signal throttled_channel)] ∧
    journal_of 7 (trace s1) =
      journal_of 7 (trace throttled_state) ++
      [[transformed (Some throttled_config) (VNum 2); signal throttled_channel]] ∧
    burst (H := journaling_host) 1 "a" [(3, VNum 3); (90, VNum 4)] s1
      = Some s' ∧
    onchange_of 0 (trace s') = onchange_of 0 (trace s1) ∧
    journal_of 7 (trace s') = journal_of 7 (trace s1) ∧
    timers s' = timers throttled_state ∧
    now s' = now throttled_state + burst_time [(3, VNum 3); (90, VNum 4)].
Proof.
  apply (throttled_burst_fires_once (H := journaling_host) 1 "a" 0%nat
           throttled_channel throttled_config 7%nat 100 throttled_state
           (VNum 2) [(3, VNum 3); (90, VNum 4)]
           journaling_host_total (journaling_host_leaves_channel "a" 0%nat)
           journaling_host_leaves_clock (journaling_host_journals 7%nat)).
  - vm_compute. reflexivity.
  - vm_compute. reflexivity.
  - reflexivity.
  - reflexivity.
  - vm_compute. discriminate.
  - vm_compute. by intros ?%elem_of_nil.
  - reflexivity.
  - reflexivity.
  - lia.
  - vm_compute. discriminate.
  - reflexivity.
  - repeat constructor; cbn; lia.
  - vm_compute. reflexivity.
  - intros i due tk Hi. vm_compute in Hi. by destruct i.
  - vm_compute. lia.
Defined.

(** ** Topics: live iteration *)

Section LiveSet.
Context `{Host}.

Lemma unlisten_grows lid s :
  sets_grow s (unlisten lid s) ∧ trace (unlisten lid s) = trace s.
Proof.
  unfold unlisten. destruct (wrappers s !! lid) as [w|]; [|split; [apply sets_grow_refl|done]].
  destruct (clear_if_set_fields (debounceTimer w) s) as (_ & _ & _ & Hs & _ & _ & Ht).
  case_match; cbn; (split; [|done]);
    (eapply sets_grow_trans; [apply sets_grow_eq, Hs|]);
    (eapply sets_grow_alter; [reflexivity|apply set_grows_delete]).
Qed.

Lemma executeListener_grows lid v s s' :
  host_monotone →
  executeListener lid v s = Some s' →
  sets_grow s s' ∧ trace s `prefix_of` trace s'.
Proof.
  intros Hmono. unfold executeListener.
  destruct (wrappers s !! lid) as [w|]; [cbn|done].
  destruct (invoke _ _ _) as [[o s1]|] eqn:Hinv; [cbn|done].
  apply Hmono in Hinv as [Hg Hp]. cbn in Hp.
  assert (trace s `prefix_of` trace s1) as Hp'.
  { etrans; [|exact Hp]. by apply prefix_app_r. }
  assert (sets_grow s s1) as Hg' by exact Hg.
  destruct o; [|by intros [= <-]].
  destruct (truthy_bool _); intros [= <-].
  - destruct (unlisten_grows lid (update_wrapper lid (wr_set_hasExecuted true) s1))
      as [Hu Ht].
    rewrite Ht. split; [|done].
    eapply sets_grow_trans; [exact Hg'|]. exact Hu.
  - done.
Qed.

Lemma wrappedListener_grows lid data s s' :
  host_monotone →
  wrappedListener lid data s = Some s' →
  sets_grow s s' ∧ trace s `prefix_of` trace s'.
Proof.
  intros Hmono. unfold wrappedListener.
  destruct (wrappers s !! lid) as [w|]; [cbn|done].
  destruct (_ && _); [intros [= <-]; split; [apply sets_grow_refl|done]|].
  case_match; [intros [= <-]; split; [apply sets_grow_refl|done]|].
  destruct (truthy (w_options w ≫= opt_debounce)).
  { intros [= <-]. cbn.
    destruct (clear_if_set_fields (debounceTimer w) s) as (_ & _ & _ & Hs & _ & _ & Ht).
    rewrite Ht. split; [|done]. by apply sets_grow_eq. }
  destruct (truthy (w_options w ≫= opt_throttle)).
  - destruct (_ <=? _); [|intros [= <-]; split; [apply sets_grow_refl|done]].
    intros Hex. by apply executeListener_grows in Hex.
  - by apply executeListener_grows.
Qed.

(** C7 (amended).  [emit] walks the live listener set: every wrapped
    listener that is a member, when [emit] returns, of the set object that
    the topic held when the [emit] began has been called by this [emit]
    with its payload, whether it was added to that set before the [emit]
    began or by a listener running during it. *)
Theorem emit_walks_live_set (fuel : nat) (eventName : string) (data : value)
    (s s' : State) (sid : nat) :
  host_monotone →
  eventListeners s !! eventName = Some sid →
  is_Some (sets s !! sid) →
  emit fuel eventName data s = Some s' →
  ∀ j lid, listeners_of sid s' !! j = Some (Some lid) →
    ∃ t, (t, EvWrapped lid data) ∈ drop (length (trace s)) (trace s').
Proof.
  intros Hmono Hreg Hset. unfold emit. rewrite Hreg.
  destruct (set_size _ =? 0)%nat eqn:Hsz.
  { intros [= <-] j lid Hj. exfalso.
    apply Nat.eqb_eq in Hsz. unfold set_size in Hsz.
    apply length_zero_iff_nil in Hsz.
    assert (Some lid ∈ filter (λ e, is_Some e) (listeners_of sid s)) as Hin.
    { apply list_elem_of_filter. split; [eauto|]. by eapply list_elem_of_lookup_2. }
    rewrite Hsz in Hin. by apply elem_of_nil in Hin. }
  set (body := λ lid s', wrappedListener lid data (log (EvWrapped lid data) s')).
  set (n0 := length (trace s)).
  assert (∀ fuel i st st',
    sets_grow s st → trace s `prefix_of` trace st →
    (∀ j lid, (j < i)%nat → listeners_of sid st !! j = Some (Some lid) →
       ∃ t, (t, EvWrapped lid data) ∈ drop n0 (trace st)) →
    forEach fuel (listeners_of sid) body i st = Some st' →
    ∀ j lid, listeners_of sid st' !! j = Some (Some lid) →
       ∃ t, (t, EvWrapped lid data) ∈ drop n0 (trace st')) as Hloop.
  { clear fuel Hsz. induction fuel as [|fuel IH]; [done|].
    intros i st st' Hg Hp Hinv. cbn.
    destruct (listeners_of sid st !! i) as [[e|]|] eqn:Hi.
    - destruct (body e st) as [st1|] eqn:Hb; [cbn|done].
      apply wrappedListener_grows in Hb as [Hg1 Hp1]; [|done]. cbn in Hp1.
      assert (sets_grow st st1) as Hg1' by exact Hg1.
      apply IH.
      + by eapply sets_grow_trans.
      + etrans; [exact Hp|]. etrans; [|exact Hp1]. by apply prefix_app_r.
      + intros j lid Hj Hlid.
        destruct Hset as [l0 Hl0]. destruct (Hg _ _ Hl0) as (l & Hl & _).
        destruct (Hg1' _ _ Hl) as (l1 & Hl1 & _ & Hold).
        unfold listeners_of in Hi, Hlid, Hinv. rewrite Hl in Hi, Hinv.
        rewrite Hl1 in Hlid. cbn in Hi, Hlid, Hinv.
        assert (i < length l)%nat as Hil by (by eapply lookup_lt_Some).
        apply Hold in Hlid; [|lia].
        assert (n0 ≤ length (trace st))%nat as Hn0.
        { subst n0. by apply prefix_length. }
        destruct (decide (j = i)) as [->|Hne].
        * rewrite Hi in Hlid. simplify_eq. exists (now st).
          destruct Hp1 as [k ->]. rewrite <-(assoc_L (++)).
          rewrite drop_app_le by done.
          rewrite !elem_of_app. right; left. apply list_elem_of_singleton. done.
        * destruct (Hinv j lid) as [t Ht]; [lia|done|]. exists t.
          destruct Hp1 as [k ->]. rewrite <-(assoc_L (++)).
          rewrite drop_app_le by done. rewrite elem_of_app. by left.
    - apply IH; [done|done|].
      intros j lid Hj Hlid. destruct (decide (j = i)) as [->|Hne].
      + rewrite Hi in Hlid. done.
      + apply (Hinv j); [lia|done].
    - intros [= <-] j lid Hlid. apply (Hinv j); [|done].
      apply lookup_ge_None in Hi. apply lookup_lt_Some in Hlid. lia. }
  intros Hrun. eapply Hloop; [apply sets_grow_refl|done| |exact Hrun].
  intros j lid Hj. lia.
Qed.
End LiveSet.

Lemma on_grows name l o s :
  sets_grow s (on name l o s).2 ∧ trace (on name l o s).2 = trace s.
Proof.
  unfold on. split; [|by case_match].
  destruct (eventListeners s !! name) as [sid|]; cbn.
  - eapply sets_grow_alter; [reflexivity|]. intros l0. apply set_grows_add.
  - eapply sets_grow_trans with (s2 := with_sets (λ l1, l1 ++ [[]]) s).
    + intros sid l0 Hl0. exists l0. cbn. split; [|apply set_grows_refl].
      by rewrite lookup_app_l by (by eapply lookup_lt_Some).
    + eapply sets_grow_alter; [reflexivity|]. intros l0. apply set_grows_add.
Qed.

Lemma registering_host_monotone : host_monotone (H := registering_host).
Proof.
  intros f args s o s'. cbn [invoke registering_host].
  destruct (f =? 1)%nat; intros Heq.
  - assert (s' = (on "t" 2%nat None s).2) as -> by congruence.
    destruct (on_grows "t" 2%nat None s) as [Hg Ht]. by rewrite Ht.
  - assert (s' = s) as -> by congruence.
    split; [apply sets_grow_refl|done].
Qed.

(** C7 as stated fails: the topic has the single listener [1] when the
    [emit] begins, and the listener registered by [1] during the [emit] is
    called by the same [emit]. *)
Lemma emit_reaches_listener_added_during_emit :
  listeners_of 0 one_listener = [Some 0%nat] ∧
  trace <$> emit (H := registering_host) 3 "t" (VNum 7) one_listener =
    Some [(0, EvWrapped 0%nat (VNum 7)); (0, EvListener 0%nat (VNum 7));
          (0, EvWrapped 1%nat (VNum 7)); (0, EvListener 1%nat (VNum 7))].
Proof. split; vm_compute; reflexivity. Qed.

(** The walk is over the set object, not over the topic: a listener that
    is registered during the [emit] after [off] has dropped the topic goes
    into a new set object, and the [emit] does not call it. *)
Lemma emit_misses_listener_added_after_off :
  trace <$> emit (H := off_on_host) 3 "t" (VNum 7) one_listener =
    Some [(0, EvWrapped 0%nat (VNum 7)); (0, EvListener 0%nat (VNum 7))] ∧
  (s' ← emit (H := off_on_host) 3 "t" (VNum 7) one_listener;
   sid ← eventListeners s' !! "t"; Some (listeners_of sid s')) =
    Some [Some 1%nat].
Proof. split; vm_compute; reflexivity. Qed.

(** C7 (amended) at the same input: the listener added during the [emit]
    has been called. *)
Lemma emit_walks_live_set_witness :
  ∃ t, (t, EvWrapped 1%nat (VNum 7)) ∈
    drop (length (trace one_listener))
      (trace (default one_listener
                (emit (H := registering_host) 3 "t" (VNum 7) one_listener))).
Proof.
  apply (emit_walks_live_set (H := registering_host) 3 "t" (VNum 7)
           one_listener _ 0%nat registering_host_monotone) with (j := 1%nat).
  - reflexivity.
  - vm_compute. eauto.
  - vm_compute. reflexivity.
  - vm_compute. reflexivity.
Defined.

(** ** Topics: listeners registered with [once] *)

Section WrappedEffect.
Context `{Host}.

Lemma unlisten_effect lid' w st :
  wrappers st !! lid' = Some w →
  trace (unlisten lid' st) = trace st ∧
  wrappers (unlisten lid' st) = wrappers st ∧
  sets (unlisten lid' st) = alter (set_delete Nat.eqb lid') (w_listeners w) (sets st) ∧
  (eventListeners (unlisten lid' st) = eventListeners st
   ∨ set_size (listeners_of (w_listeners w) (unlisten lid' st)) = 0%nat ∧
     eventListeners (unlisten lid' st) = delete (w_eventName w) (eventListeners st)).
Proof.
  intros Hw. unfold unlisten. rewrite Hw.
  destruct (clear_if_set_fields (debounceTimer w) st)
    as (_ & _ & Hel & Hs & Hwr & _ & Ht).
  set (s2 := update_set _ _ _).
  assert (trace s2 = trace st) as Ht2 by (subst s2; cbn; done).
  assert (wrappers s2 = wrappers st) as Hw2 by (subst s2; cbn; done).
  assert (sets s2 = alter (set_delete Nat.eqb lid') (w_listeners w) (sets st))
    as Hs2 by (subst s2; cbn; by rewrite Hs).
  assert (eventListeners s2 = eventListeners st) as He2 by (subst s2; cbn; done).
  clearbody s2.
  destruct (set_size _ =? 0)%nat eqn:Hsz.
  - apply Nat.eqb_eq in Hsz. repeat split; [done..|].
    right. split; [|by cbn; rewrite He2]. exact Hsz.
  - repeat split; [done..|]. by left.
Qed.

Lemma executeListener_effect lid' w' v st :
  host_total → host_leaves_topics →
  wrappers st !! lid' = Some w' →
  ∃ st', executeListener lid' v st = Some st' ∧ wrapped_effect lid' w' st st'.
Proof.
  intros Htot Hfr Hw. unfold executeListener. rewrite Hw. cbn [mbind option_bind].
  destruct (Htot (w_listener w') [v] (log (EvListener lid' v) st)) as [[o s1] Hinv].
  rewrite Hinv. cbn [mbind option_bind fst snd].
  apply Hfr in Hinv as (Hel & Hsets & Hwr & Hcalls).
  change (eventListeners (log _ st)) with (eventListeners st) in Hel.
  change (sets (log _ st)) with (sets st) in Hsets.
  change (wrappers (log _ st)) with (wrappers st) in Hwr.
  assert (∀ x, x ≠ lid' → calls_of x (trace s1) = calls_of x (trace st)) as Hc.
  { intros x Hx. rewrite Hcalls, calls_of_log_listener.
    rewrite (proj2 (Nat.eqb_neq lid' x)) by done. by rewrite app_nil_r. }
  set (s1' := update_wrapper lid' (wr_set_hasExecuted true) s1).
  assert (wrappers s1' !! lid' = Some (wr_set_hasExecuted true w')) as Hw1.
  { subst s1'. cbn. by rewrite Hwr, list_lookup_alter_eq, Hw. }
  assert (wrapped_effect lid' w' st s1') as Heff1.
  { split; [|split; [|split]].
    - done.
    - intros x Hx. subst s1'. cbn. by rewrite list_lookup_alter_ne, Hwr.
    - eexists. split; [exact Hw1|done].
    - left. done. }
  destruct o.
  - destruct (truthy_bool _).
    + eexists. split; [reflexivity|].
      destruct (unlisten_effect lid' _ s1' Hw1) as (Ht & Hwu & Hsu & Heu).
      destruct Heff1 as (E1 & E2 & E3 & _).
      split; [|split; [|split]].
      * intros x Hx. rewrite Ht. by apply E1.
      * intros x Hx. rewrite Hwu. by apply E2.
      * rewrite Hwu. exact E3.
      * right. split; [rewrite Hsu; subst s1'; cbn; by rewrite Hsets|].
        destruct Heu as [Heu|[Hsz Heu]]; [left|right].
        -- rewrite Heu. subst s1'. done.
        -- split; [exact Hsz|]. rewrite Heu. subst s1'. cbn. by rewrite Hel.
    + eauto.
  - eexists. split; [reflexivity|].
    split; [|split; [|split]].
    + done.
    + intros x Hx. by rewrite Hwr.
    + exists w'. by rewrite Hwr.
    + by left.
Qed.

Lemma wrappedListener_effect lid' w' data st :
  host_total → host_leaves_topics →
  wrappers st !! lid' = Some w' →
  ∃ st', wrappedListener lid' data (log (EvWrapped lid' data) st) = Some st' ∧
         wrapped_effect lid' w' st st'.
Proof.
  intros Htot Hfr Hw. unfold wrappedListener.
  change (wrappers (log _ st)) with (wrappers st). rewrite Hw.
  cbn [mbind option_bind].
  set (st0 := log (EvWrapped lid' data) st).
  assert (wrapped_effect lid' w' st st0) as Heff0.
  { split; [|split; [|split]].
    - intros x Hx. apply calls_of_log_wrapped.
    - done.
    - exists w'. done.
    - by left. }
  assert (∀ v st1 w1,
            (∀ x, x ≠ lid' → calls_of x (trace st1) = calls_of x (trace st)) →
            (∀ x, x ≠ lid' → wrappers st1 !! x = wrappers st !! x) →
            wrappers st1 !! lid' = Some w1 →
            w_listeners w1 = w_listeners w' → w_eventName w1 = w_eventName w' →
            w_options w1 = w_options w' → w_listener w1 = w_listener w' →
            sets st1 = sets st → eventListeners st1 = eventListeners st →
            ∃ st', executeListener lid' v st1 = Some st' ∧
                   wrapped_effect lid' w' st st') as Hexec.
  { intros v st1 w1 E1 E2 Hw1 Ea Eb Ec Ed Es Ee.
    destruct (executeListener_effect lid' w1 v st1 Htot Hfr Hw1)
      as (st' & Hex & (F1 & F2 & (w3 & F3 & F3a & F3b & F3c & F3d) & F4)).
    exists st'. split; [done|].
    split; [|split; [|split]].
    - intros x Hx. rewrite F1, E1 by done. done.
    - intros x Hx. rewrite F2, E2 by done. done.
    - exists w3. repeat split; congruence.
    - rewrite Ea, Eb, Es, Ee in F4. exact F4. }
  destruct (_ && _); [eauto|].
  case_match; [eauto|].
  destruct (truthy (w_options w' ≫= opt_debounce)).
  { eexists. split; [reflexivity|].
    destruct (clear_if_set_fields (debounceTimer w') st0)
      as (_ & _ & Hel & Hs & Hwr & _ & Ht).
    destruct Heff0 as (E1 & E2 & E3 & E4).
    split; [|split; [|split]].
    - intros x Hx. cbn. rewrite Ht. by apply E1.
    - intros x Hx. cbn. rewrite Hwr. cbn. by rewrite list_lookup_alter_ne.
    - eexists. cbn. rewrite Hwr. cbn. rewrite list_lookup_alter_eq, Hw. cbn. done.
    - left. cbn. by rewrite Hs, Hel. }
  destruct (truthy (w_options w' ≫= opt_throttle)).
  - destruct (_ <=? _); [|eauto].
    eapply (Hexec _ _ (wr_set_lastCallTime (now st0) w')); try done.
    + intros x Hx. apply calls_of_log_wrapped.
    + intros x Hx. cbn. by rewrite list_lookup_alter_ne.
    + cbn. by rewrite list_lookup_alter_eq, Hw.
  - eapply (Hexec _ _ w'); try done.
    intros x Hx. apply calls_of_log_wrapped.
Qed.
End WrappedEffect.
Lemma tracked_preserved sid k lid n lid'' w st st' :
  tracked sid k lid n st →
  wrappers st !! lid'' = Some w →
  (lid'' ≠ lid → w_listeners w = sid) →
  wrapped_effect lid'' w st st' →
  tracked sid k lid n st'.
Proof.
  intros (l & Hl & Hn & Hmem) Hw Hsid (E1 & E2 & (w'' & E3 & E3a & _) & E4).
  assert (∀ lid', lid' ≠ lid →
            (∃ w0, wrappers st !! lid' = Some w0 ∧ w_listeners w0 = sid) →
            ∃ w0, wrappers st' !! lid' = Some w0 ∧ w_listeners w0 = sid) as Hwr.
  { intros lid' Hne (w0 & Hw0 & Hs0).
    destruct (decide (lid' = lid'')) as [->|Hne'].
    - exists w''. split; [done|]. simplify_eq. by rewrite E3a.
    - exists w0. by rewrite E2. }
  destruct E4 as [[Es _]|[Es _]].
  - exists l. rewrite Es. split; [done|]. split; [done|].
    intros j lid' Hj Hjk. destruct (Hmem _ _ Hj Hjk) as [Hne Hal].
    split; [done|]. by apply Hwr.
  - destruct (decide (w_listeners w = sid)) as [Heq|Hneq].
    + exists (set_delete Nat.eqb lid'' l).
      rewrite Es, Heq, list_lookup_alter_eq, Hl. split; [done|].
      rewrite set_delete_length. split; [done|].
      intros j lid' [Hj _]%set_delete_lookup_Some Hjk.
      destruct (Hmem _ _ Hj Hjk) as [Hne Hal]. split; [done|]. by apply Hwr.
    + exists l. rewrite Es, list_lookup_alter_ne by done. split; [done|].
      split; [done|]. intros j lid' Hj Hjk.
      destruct (Hmem _ _ Hj Hjk) as [Hne Hal]. split; [done|]. by apply Hwr.
Qed.

Lemma effect_keeps_slot sid k lid'' w st st' e :
  wrapped_effect lid'' w st st' →
  listeners_of sid st !! k = Some e → e ≠ Some lid'' →
  listeners_of sid st' !! k = Some e.
Proof.
  intros (_ & _ & _ & E4) Hk Hne. unfold listeners_of in *.
  destruct E4 as [[Es _]|[Es _]]; rewrite Es; [done|].
  destruct (decide (w_listeners w = sid)) as [<-|Hneq];
    [|by rewrite list_lookup_alter_ne].
  rewrite list_lookup_alter_eq.
  destruct (sets st !! w_listeners w) as [l|]; [cbn in *|done].
  destruct e as [x|].
  - apply set_delete_lookup_ne; [congruence|done].
  - unfold set_delete. change (map ?f l) with (f <$> l).
    by rewrite list_lookup_fmap, Hk.
Qed.

Lemma effect_keeps_registry sid lid'' w st st' :
  wrapped_effect lid'' w st st' →
  w_listeners w = sid →
  set_size (listeners_of sid st') ≠ 0%nat →
  eventListeners st' = eventListeners st.
Proof.
  intros (_ & _ & _ & E4) <- Hsz.
  by destruct E4 as [[_ ?]|[_ [?|[? _]]]].
Qed.

Section OwnStep.
Context `{Host}.

Lemma own_step lid W0 data st :
  host_total → host_leaves_topics →
  wrappers st !! lid = Some W0 →
  w_options W0 = Some once_only → hasExecuted W0 = false →
  ∃ o s1,
    invoke (w_listener W0) [data]
      (log (EvListener lid data) (log (EvWrapped lid data) st)) = Some (o, s1) ∧
    wrappedListener lid data (log (EvWrapped lid data) st) =
      Some match o with
           | Thrown => s1
           | Returned => unlisten lid (update_wrapper lid (wr_set_hasExecuted true) s1)
           end ∧
    calls_of lid (trace s1) = calls_of lid (trace st) ++ [data] ∧
    sets s1 = sets st ∧ wrappers s1 = wrappers st ∧
    eventListeners s1 = eventListeners st.
Proof.
  intros Htot Hfr Hw Hopt Hex.
  destruct (Htot (w_listener W0) [data]
              (log (EvListener lid data) (log (EvWrapped lid data) st)))
    as [[o s1] Hinv].
  exists o, s1. split; [done|].
  unfold wrappedListener, executeListener.
  change (wrappers (log _ st)) with (wrappers st). rewrite Hw.
  cbn [mbind option_bind]. rewrite Hopt, Hex. cbn.
  rewrite Hinv. cbn [mbind option_bind fst snd].
  split; [by destruct o|].
  apply Hfr in Hinv as (Hel & Hsets & Hwr & Hcalls).
  rewrite Hcalls, calls_of_log_listener, calls_of_log_wrapped, Nat.eqb_refl.
  done.
Qed.
End OwnStep.

Lemma tracked_length sid k lid n st :
  tracked sid k lid n st → length (listeners_of sid st) = n.
Proof. intros (l & Hl & Hn & _). unfold listeners_of. by rewrite Hl. Qed.

Section OtherStep.
Context `{Host}.

Lemma other_step sid k lid n j lid' data st :
  host_total → host_leaves_topics →
  tracked sid k lid n st →
  listeners_of sid st !! j = Some (Some lid') → j ≠ k →
  ∃ st',
    wrappedListener lid' data (log (EvWrapped lid' data) st) = Some st' ∧
    tracked sid k lid n st' ∧
    calls_of lid (trace st') = calls_of lid (trace st) ∧
    wrappers st' !! lid = wrappers st !! lid ∧
    (∀ e, listeners_of sid st !! k = Some e → e = Some lid ∨ e = None →
          listeners_of sid st' !! k = Some e) ∧
    (set_size (listeners_of sid st') ≠ 0%nat →
     eventListeners st' = eventListeners st) ∧
    (∀ name, eventListeners st' !! name = eventListeners st !! name
             ∨ eventListeners st' !! name = None).
Proof.
  intros Htot Hfr Htr Hj Hjk.
  destruct Htr as (l & Hl & Hn & Hmem).
  assert (l !! j = Some (Some lid')) as Hj'.
  { unfold listeners_of in Hj. by rewrite Hl in Hj. }
  destruct (Hmem _ _ Hj' Hjk) as (Hne & w' & Hw' & Hsid).
  destruct (wrappedListener_effect lid' w' data st Htot Hfr Hw')
    as (st' & Hrun & Heff).
  exists st'. split; [done|].
  split.
  { eapply tracked_preserved; [by exists l|exact Hw'|done|exact Heff]. }
  destruct Heff as (E1 & E2 & E3 & E4) eqn:Heq. clear Heq.
  split; [by apply E1|]. split; [by apply E2|].
  split.
  { intros e He Hcase. eapply effect_keeps_slot; [exact Heff|done|].
    destruct Hcase as [->| ->]; congruence. }
  split.
  { intros Hsz. by eapply effect_keeps_registry. }
  intros name.
  destruct E4 as [[_ ->]|[_ [->|[_ ->]]]]; [by left..|].
  destruct (decide (name = w_eventName w')) as [->|Hnn].
  - right. apply lookup_delete_eq.
  - left. by apply lookup_delete_ne.
Qed.
End OtherStep.
Lemma set_has_false (x : nat) (l : SetData nat) :
  (∀ j y, l !! j = Some (Some y) → y ≠ x) → set_has Nat.eqb x l = false.
Proof.
  intros Hne. unfold set_has. apply not_true_is_false.
  intros (e & Hin & He)%existsb_exists.
  apply list_elem_of_In, list_elem_of_lookup in Hin as [j Hj].
  destruct e as [y|]; [|done]. cbn in He. apply Nat.eqb_eq in He as ->.
  by eapply Hne.
Qed.

Lemma on_registers eventName listener options s :
  topic_wf eventName s →
  ∃ sid l,
    (on eventName listener options s).1 = length (wrappers s) ∧
    eventListeners (on eventName listener options s).2 !! eventName = Some sid ∧
    sets (on eventName listener options s).2 !! sid =
      Some (l ++ [Some (length (wrappers s))]) ∧
    length l = listener_slots eventName s ∧
    wrappers (on eventName listener options s).2 =
      wrappers s ++ [fresh_wrapper eventName listener options sid] ∧
    trace (on eventName listener options s).2 = trace s ∧
    ∀ j lid', l !! j = Some (Some lid') →
      ∃ w, wrappers s !! lid' = Some w ∧ w_listeners w = sid.
Proof.
  intros Hwf. unfold on, listener_slots.
  destruct (eventListeners s !! eventName) as [sid|] eqn:Hreg.
  - destruct (Hwf _ Hreg) as (l & Hl & Hmem).
    exists sid, l. cbn. rewrite Hreg, list_lookup_alter_eq, Hl. cbn.
    unfold set_add. rewrite set_has_false.
    + repeat split; try done. unfold listeners_of. by rewrite Hl.
    + intros j y Hy ->. destruct (Hmem _ _ Hy) as (w & Hw & _).
      apply lookup_lt_Some in Hw. lia.
  - exists (length (sets s)), []. cbn.
    rewrite lookup_insert_eq, list_lookup_alter_eq, list_lookup_middle by done.
    cbn. repeat split; done.
Qed.

(** The set to which [on] appends holds the listeners of the topic. *)
Lemma on_registers_members eventName listener options s :
  topic_wf eventName s →
  ∃ sid l,
    eventListeners (on eventName listener options s).2 !! eventName = Some sid ∧
    sets (on eventName listener options s).2 !! sid =
      Some (l ++ [Some (length (wrappers s))]) ∧
    members l = topic_members eventName s.
Proof.
  intros Hwf. unfold on, topic_members.
  destruct (eventListeners s !! eventName) as [sid|] eqn:Hreg.
  - destruct (Hwf _ Hreg) as (l & Hl & Hmem).
    exists sid, l. cbn. rewrite Hreg, list_lookup_alter_eq, Hl. cbn.
    unfold set_add. rewrite set_has_false.
    + repeat split; try done. unfold listeners_of. by rewrite Hl.
    + intros j y Hy ->. destruct (Hmem _ _ Hy) as (w & Hw & _).
      apply lookup_lt_Some in Hw. lia.
  - exists (length (sets s)), []. cbn.
    rewrite lookup_insert_eq, list_lookup_alter_eq, list_lookup_middle by done.
    cbn. repeat split; done.
Qed.


Section OnceThrows.
Context `{Host}.


End OnceThrows.


Section OnceReturns.
Context `{Host}.

(** Companion of C8 and C9: a listener registered with [once] that returns
    normally from its first call is called exactly once by two successive
    emits, with the first payload, and is unregistered after that call. *)
Lemma once_listener_that_returns_runs_once (fuel : nat) (eventName : string)
    (listener : fn) (x1 x2 : value) (s : State) :
  host_total → host_leaves_topics → topic_wf eventName s →
  (∀ st o st', invoke listener [x1] st = Some (o, st') → o = Returned) →
  (listener_slots eventName s + 1 < fuel)%nat →
  ∃ s2 s3 w,
    emit fuel eventName x1 (once eventName listener s).2 = Some s2 ∧
    calls_of (once eventName listener s).1 (trace s2) =
      calls_of (once eventName listener s).1 (trace s) ++ [x1] ∧
    wrappers s2 !! (once eventName listener s).1 = Some w ∧
    hasExecuted w = true ∧
    (Some (once eventName listener s).1 ∉ listeners_of (w_listeners w) s2) ∧
    emit fuel eventName x2 s2 = Some s3 ∧
    calls_of (once eventName listener s).1 (trace s3) =
      calls_of (once eventName listener s).1 (trace s) ++ [x1].
Proof.
  intros Htot Hfr Hwf Hret Hfuel. unfold once.
  destruct (on_registers eventName listener (Some once_only) s Hwf)
    as (sid & l & -> & Hreg & Hset & Hlen & Hwr & Htr & Hmem).
  set (s1 := (on eventName listener (Some once_only) s).2) in *.
  set (lid := length (wrappers s)) in *.
  set (k := length l). set (n := S k).
  set (W0 := fresh_wrapper eventName listener (Some once_only) sid) in *.
  set (W1 := wr_set_hasExecuted true W0).
  set (c0 := calls_of lid (trace s)).
  assert (wrappers s1 !! lid = Some W0) as Hw0.
  { rewrite Hwr. by apply list_lookup_middle. }
  assert (listeners_of sid s1 !! k = Some (Some lid)) as Hk1.
  { unfold listeners_of. rewrite Hset. cbn. by apply list_lookup_middle. }
  assert (tracked sid k lid n s1) as Htr1.
  { exists (l ++ [Some lid]). split; [done|]. split.
    { rewrite length_app. cbn. subst n k. lia. }
    intros j lid' Hj Hjk.
    assert (j < length (l ++ [Some lid]))%nat as Hlt by (by eapply lookup_lt_Some).
    rewrite length_app in Hlt. cbn in Hlt.
    rewrite lookup_app_l in Hj by (subst k; lia).
    destruct (Hmem _ _ Hj) as (w & Hw & Hs). split.
    - apply lookup_lt_Some in Hw. subst lid. lia.
    - exists w. split; [|done]. rewrite Hwr. by apply lookup_app_l_Some. }
  assert (∀ j j' : nat, j ≠ k →
            bool_decide (S j ≤ k)%nat = bool_decide (j ≤ k)%nat) as Hbd.
  { intros j _ Hjk. destruct (decide (j ≤ k)%nat).
    - by rewrite !bool_decide_eq_true_2 by lia.
    - by rewrite !bool_decide_eq_false_2 by lia. }
  (* first emit *)
  set (Q1 := λ (j : nat) (st : State),
    tracked sid k lid n st ∧
    calls_of lid (trace st) = c0 ++ (if bool_decide (j ≤ k)%nat then [] else [x1]) ∧
    ((j ≤ k)%nat → wrappers st !! lid = Some W0 ∧
                   listeners_of sid st !! k = Some (Some lid)) ∧
    ((k < j)%nat → wrappers st !! lid = Some W1 ∧
                   listeners_of sid st !! k = Some None) ∧
    (eventListeners st !! eventName = Some sid ∨
     eventListeners st !! eventName = None)).
  assert (∃ s2, emit fuel eventName x1 s1 = Some s2 ∧ Q1 n s2) as (s2 & Hemit1 & HQ1).
  { unfold emit. rewrite Hreg.
    rewrite (proj2 (Nat.eqb_neq _ _)) by (by eapply set_size_pos).
    apply (forEach_fixed Q1 _ _ n).
    - intros j st (Ht & _). by eapply tracked_length.
    - intros j st e (Ht & Hc & Hpre & Hpost & Hr) He.
      destruct (decide (j = k)) as [->|Hjk].
      + destruct (Hpre (le_n _)) as [Hw Hk].
        rewrite Hk in He. injection He as <-.
        destruct (own_step lid W0 x1 st Htot Hfr Hw eq_refl eq_refl)
          as (o & st1 & Hinv & Hrun & Hc' & Hs' & Hw' & He').
        apply Hret in Hinv as Ho. subst o.
        destruct (wrappedListener_effect lid W0 x1 st Htot Hfr Hw)
          as (st' & Hrun' & Heff).
        rewrite Hrun in Hrun'. injection Hrun' as Hst'.
        assert (wrappers (update_wrapper lid (wr_set_hasExecuted true) st1) !! lid
                = Some W1) as Hw1.
        { cbn. by rewrite Hw', list_lookup_alter_eq, Hw. }
        destruct (unlisten_effect lid _ _ Hw1) as (Ht1 & Hwu & Hsu & Heu).
        rewrite Hst' in Ht1, Hwu, Hsu, Heu.
        change (trace st' = trace st1) in Ht1.
        exists st'. split; [by rewrite <-Hst'|]. split.
        { eapply tracked_preserved; [exact Ht|exact Hw|done|exact Heff]. }
        split.
        { rewrite Ht1, Hc', Hc.
          rewrite bool_decide_eq_true_2, bool_decide_eq_false_2 by lia.
          by rewrite app_nil_r. }
        split; [lia|]. split.
        { intros _. split; [by rewrite Hwu|].
          unfold listeners_of. rewrite Hsu. cbn. rewrite Hs'.
          rewrite list_lookup_alter_eq.
          unfold listeners_of in Hk.
          destruct (sets st !! sid) as [l0|]; [cbn in *|done].
          by apply set_delete_lookup_eq. }
        destruct Heu as [->|[_ ->]]; cbn.
        * by rewrite He'.
        * right. apply lookup_delete_eq.
      + destruct (other_step sid k lid n j e x1 st Htot Hfr Ht He Hjk)
          as (st' & Hrun & Ht' & Hc' & Hw' & Hslot & _ & Hreg').
        exists st'. split; [done|]. split; [done|]. split.
        { by rewrite Hc', Hc, Hbd. }
        split.
        { intros Hle. destruct Hpre as [Hw Hk]; [lia|]. split; [by rewrite Hw'|].
          apply Hslot; [done|by left]. }
        split.
        { intros Hlt. destruct Hpost as [Hw Hk]; [lia|]. split; [by rewrite Hw'|].
          apply Hslot; [done|by right]. }
        destruct (Hreg' eventName) as [->| ->]; [done|by right].
    - intros j st (Ht & Hc & Hpre & Hpost & Hr) He.
      assert (j ≠ k) as Hjk.
      { intros ->. destruct (Hpre (le_n _)) as [_ Hk]. congruence. }
      split; [done|]. split; [by rewrite Hc, Hbd|].
      split; [intros ?; apply Hpre; lia|].
      split; [intros ?; apply Hpost; lia|done].
    - lia.
    - subst n k. rewrite Hlen. lia.
    - split; [done|]. split.
      { rewrite bool_decide_eq_true_2 by lia.
        rewrite app_nil_r. subst c0. by rewrite Htr. }
      split; [done|]. split; [lia|by left]. }
  destruct HQ1 as (Ht2 & Hc2 & _ & Hpost2 & Hr2).
  rewrite bool_decide_eq_false_2 in Hc2 by (subst n; lia).
  destruct Hpost2 as [Hw2 Hk2]; [subst n; lia|].
  assert (Some lid ∉ listeners_of sid s2) as Hnotin.
  { intros [j Hj]%list_elem_of_lookup.
    destruct (decide (j = k)) as [->|Hjk]; [congruence|].
    destruct Ht2 as (l2 & Hl2 & _ & Hmem2).
    unfold listeners_of in Hj. rewrite Hl2 in Hj. cbn in Hj.
    by destruct (Hmem2 _ _ Hj Hjk) as [? _]. }
  (* second emit *)
  set (Q2 := λ (j : nat) (st : State),
    tracked sid k lid n st ∧
    calls_of lid (trace st) = c0 ++ [x1] ∧
    listeners_of sid st !! k = Some None).
  assert (∃ s3, emit fuel eventName x2 s2 = Some s3 ∧
                calls_of lid (trace s3) = c0 ++ [x1]) as (s3 & Hemit2 & Hc3).
  { unfold emit. destruct Hr2 as [-> | ->]; [|eauto].
    destruct (set_size _ =? 0)%nat; [eauto|].
    destruct (forEach_fixed Q2 (listeners_of sid)
                (λ lid0 s', wrappedListener lid0 x2 (log (EvWrapped lid0 x2) s'))
                n) with (fuel := fuel) (i := 0%nat) (st := s2)
      as (s3 & Hrun & _ & Hc3 & _).
    - intros j st (Ht & _). by eapply tracked_length.
    - intros j st e (Ht & Hc & Hk) He.
      assert (j ≠ k) as Hjk by (intros ->; congruence).
      destruct (other_step sid k lid n j e x2 st Htot Hfr Ht He Hjk)
        as (st' & Hrun & Ht' & Hc' & _ & Hslot & _).
      exists st'. split; [done|]. split; [done|]. split; [by rewrite Hc'|].
      apply Hslot; [done|by right].
    - intros j st HQ _. exact HQ.
    - lia.
    - subst n k. rewrite Hlen. lia.
    - done.
    - eauto. }
  exists s2, s3, W1. repeat split; done.
Qed.
End OnceReturns.

(** C8 at a listener that throws: [once("t", f)] with [f] throwing, then
    two emits.  Both emits reach [f], which is therefore called twice. *)
Lemma once_throwing_listener_called_twice :
  trace <$> (emit (H := throwing_host) 3 "t" (VNum 1)
               (once "t" 1%nat (initial_state 0)).2
             ≫= emit (H := throwing_host) 3 "t" (VNum 2)) =
  Some [(0, EvWrapped 0%nat (VNum 1)); (0, EvListener 0%nat (VNum 1));
        (0, EvWrapped 0%nat (VNum 2)); (0, EvListener 0%nat (VNum 2))].
Proof. vm_compute. reflexivity. Qed.

(** ** Callbacks outside the broker *)

Lemma quiet_host_outside : host_outside (H := quiet_host).
Proof. intros f args s. by exists Returned. Qed.

Lemma throwing_host_outside : host_outside (H := throwing_host).
Proof. intros f args s. by eexists. Qed.

Lemma small_json_host_outside : host_outside (H := small_json_host).
Proof. intros f args s. by exists Returned. Qed.

Lemma log_with_trace e s : log e s = with_trace (trace s ++ [(now s, e)]) s.
Proof. done. Qed.

Section Outside.
Context `{Host}.
Context (Hout : host_outside).

Lemma host_outside_total : host_total.
Proof using Hout. intros f args s. destruct (Hout f args s) as [o ->]. done. Qed.

Lemma host_outside_leaves_channel channelName a :
  host_leaves_channel channelName a.
Proof using Hout.
  intros f args s o s' Hinv. destruct (Hout f args s) as [o' Ho].
  rewrite Ho in Hinv. injection Hinv as _ <-. apply chan_frame_refl.
Qed.

Lemma host_outside_leaves_clock : host_leaves_clock.
Proof using Hout.
  intros f args s o s' Hinv. destruct (Hout f args s) as [o' Ho].
  rewrite Ho in Hinv. by injection Hinv as _ <-.
Qed.

Lemma host_outside_leaves_topics : host_leaves_topics.
Proof using Hout.
  intros f args s o s' Hinv. destruct (Hout f args s) as [o' Ho].
  rewrite Ho in Hinv. by injection Hinv as _ <-.
Qed.

Lemma call_hook_outside e f args s : call_hook e f args s = Some (log e s).
Proof using Hout.
  unfold call_hook. by destruct (Hout f args (log e s)) as [o ->].
Qed.

(** The channel object that [channel] creates, field by field. *)
Lemma channel_new channelName cfg s :
  channels s !! channelName = None →
  ∃ s1 ch1,
    channel channelName cfg s = Some (length (chan_heap s), s1) ∧
    channels s1 = <[channelName := length (chan_heap s)]> (channels s) ∧
    chan_heap s1 = chan_heap s ++ [ch1] ∧
    signal ch1 =
      (if defined (getFromStorage (storageKey ch1) (storage ch1) s)
       then getFromStorage (storageKey ch1) (storage ch1) s
       else cfg_initialValue (default empty_config cfg)) ∧
    storage ch1 = default memory (cfg_storage (default empty_config cfg)) ∧
    storageKey ch1 =
      default ("lithium:" +:+ channelName)
        (cfg_storageKey (default empty_config cfg)) ∧
    subscribers ch1 = [] ∧
    ttl ch1 = cfg_ttl (default empty_config cfg) ∧
    autoCleanup ch1 = default false (cfg_autoCleanup (default empty_config cfg)) ∧
    timeoutId ch1 =
      match truthy (ttl ch1) with
      | Some _ => Some (Z.of_nat (length (timers s)) + 1)
      | None => None
      end ∧
    createdAt ch1 = now s ∧ config ch1 = cfg ∧
    isInitialized ch1 = present (signal ch1) ∧
    onChangeDebounceTimer ch1 = None ∧ onChangeLastCall ch1 = None ∧
    timers s1 =
      timers s ++
      match truthy (ttl ch1) with
      | Some t => [Some (now s + timer_delay t, TTLExpire channelName)]
      | None => []
      end ∧
    trace s1 =
      trace s ++
      (if present (signal ch1)
       then match cfg ≫= cfg_onInit with
            | Some _ => [(now s, EvOnInit (length (chan_heap s)) (signal ch1))]
            | None => []
            end
       else []) ∧
    now s1 = now s ∧
    sessionStorage s1 = sessionStorage s ∧ localStorage s1 = localStorage s ∧
    eventListeners s1 = eventListeners s ∧ sets s1 = sets s ∧
    wrappers s1 = wrappers s.
Proof using Hout.
  intros Hfresh. unfold channel. rewrite channels_init, Hfresh.
  destruct (init_fields s) as (Hh & He & Hs & Hw & Hss & Hls & Hn & Htm & Htr).
  set (c := default empty_config cfg).
  assert (∀ key st, getFromStorage key st (init s) = getFromStorage key st s) as Hget.
  { intros key st. unfold getFromStorage, store_of. by rewrite Hss, Hls. }
  rewrite Hget, Hh, Hn.
  set (v0 := if defined _ then _ else _).
  destruct (truthy (cfg_ttl c)) as [t|] eqn:Httl;
    destruct (present v0) eqn:Hp; cbn [mbind option_bind];
    try destruct (cfg ≫= cfg_onInit) as [h|] eqn:Hhook;
    rewrite ?call_hook_outside; cbn [mbind option_bind];
    (eexists _, _; split; [reflexivity|]); cbn;
    rewrite ?channels_init, ?Hh, ?He, ?Hs, ?Hw, ?Hss, ?Hls, ?Hn, ?Htm, ?Htr.
  all: try (rewrite alter_app_r_alt by lia; rewrite Nat.sub_diag; cbn).
  all: unfold chan_set_timeoutId; cbn.
  all: rewrite ?Httl, ?Hp, ?app_nil_r.
  all: repeat split; try done.
  all: cbn; rewrite ?Httl, ?Hp, ?Hhook, ?app_nil_r; try done.
Qed.
End Outside.
(** ** Channels: creation *)

(** X1. [channel] on a name that already has a channel returns that
    channel and ignores the configuration it is given: the registry, every
    channel object (value, hooks, storage settings), the record of
    callback calls, the timers and both stores stay as they were. *)
Theorem channel_existing_ignores_config `{Host} (channelName : string)
    (cfg : option ChannelConfig) (s : State) (a : nat) :
  channels s !! channelName = Some a →
  ∃ s',
    channel channelName cfg s = Some (a, s') ∧
    channels s' = channels s ∧ chan_heap s' = chan_heap s ∧
    getValue channelName s' = getValue channelName s ∧
    trace s' = trace s ∧ timers s' = timers s ∧
    sessionStorage s' = sessionStorage s ∧ localStorage s' = localStorage s.
Proof.
  intros Hn. unfold channel. rewrite channels_init, Hn.
  destruct (init_fields s) as (Hh & _ & _ & _ & Hss & Hls & _ & Htm & Htr).
  exists (init s). split; [done|]. rewrite channels_init.
  unfold getValue. rewrite channels_init, Hh. done.
Qed.

Lemma channel_existing_ignores_config_witness :
  ∃ s',
    channel (H := quiet_host) "a" (Some doubling_config)
      (with_channel_a (H := quiet_host) positive_only) = Some (0%nat, s') ∧
    channels s' = channels (with_channel_a (H := quiet_host) positive_only) ∧
    chan_heap s' = chan_heap (with_channel_a (H := quiet_host) positive_only) ∧
    getValue "a" s' = getValue "a" (with_channel_a (H := quiet_host) positive_only) ∧
    trace s' = trace (with_channel_a (H := quiet_host) positive_only) ∧
    timers s' = timers (with_channel_a (H := quiet_host) positive_only) ∧
    sessionStorage s' = sessionStorage (with_channel_a (H := quiet_host) positive_only) ∧
    localStorage s' = localStorage (with_channel_a (H := quiet_host) positive_only).
Proof.
  apply (channel_existing_ignores_config (H := quiet_host) "a"
           (Some doubling_config) (with_channel_a (H := quiet_host) positive_only)
           0%nat).
  vm_compute. reflexivity.
Defined.

Lemma getValue_new channelName s ch :
  getValue channelName
    (with_channels (<[channelName := length (chan_heap s)]>)
       (with_chan_heap (λ h, h ++ [ch]) s)) = signal ch.
Proof.
  unfold getValue. cbn. rewrite lookup_insert_eq. cbn.
  by rewrite list_lookup_middle.
Qed.

Lemma getValue_created channelName s s1 ch1 :
  channels s1 = <[channelName := length (chan_heap s)]> (channels s) →
  chan_heap s1 = chan_heap s ++ [ch1] →
  getValue channelName s1 = signal ch1.
Proof.
  intros Hc Hh. unfold getValue. rewrite Hc, lookup_insert_eq. cbn.
  by rewrite Hh, list_lookup_middle.
Qed.



(** X3. Without a usable stored entry the channel starts with its
    [initialValue] ([undefined] when none is configured): for a memory
    channel, when the store has nothing or the empty text under the key,
    and when [JSON.parse] rejects the stored text.  Creating the channel
    writes to neither store, so an unreadable entry stays where it is. *)
Theorem channel_falls_back_to_initialValue `{Host} (channelName : string)
    (cfg : option ChannelConfig) (s : State) :
  host_outside →
  channels s !! channelName = None →
  (default memory (cfg_storage (default empty_config cfg)) = memory ∨
   match store_of (default memory (cfg_storage (default empty_config cfg))) s
           !! default ("lithium:" +:+ channelName)
                (cfg_storageKey (default empty_config cfg)) with
   | None => True
   | Some raw => raw = ""%string ∨ JSON_parse raw = None
   end) →
  ∃ s1,
    channel channelName cfg s = Some (length (chan_heap s), s1) ∧
    getValue channelName s1 = cfg_initialValue (default empty_config cfg) ∧
    sessionStorage s1 = sessionStorage s ∧ localStorage s1 = localStorage s.
Proof.
  intros Hout Hfresh Hcase.
  destruct (channel_new Hout channelName cfg s Hfresh)
    as (s1 & ch1 & Hrun & Hc & Hh & Hsig & Hsto & Hkey & _ & _ & _ & _ & _ & _
        & _ & _ & _ & _ & _ & _ & Hss & Hls & _).
  assert (getFromStorage (storageKey ch1) (storage ch1) s = VUndefined) as Hget.
  { rewrite Hkey, Hsto. unfold getFromStorage.
    destruct Hcase as [->|Hcase]; [done|].
    destruct (is_memory _); [done|].
    destruct (store_of _ s !! _) as [raw|]; [|done].
    destruct Hcase as [-> | ->]; [done|]. by destruct (String.eqb raw ""). }
  rewrite Hget in Hsig. cbn in Hsig.
  exists s1. split; [done|].
  split; [by rewrite (getValue_created _ _ _ _ Hc Hh)|done].
Qed.

Lemma channel_falls_back_to_initialValue_witness :
  ∃ s1,
    channel (H := small_json_host) "a" (Some busy_config)
      (with_sessionStorage (<["lithium:a" := "{oops"%string]>) (initial_state 0))
      = Some (0%nat, s1) ∧
    getValue "a" s1 = VNum 1 ∧
    sessionStorage s1 = <["lithium:a" := "{oops"%string]> ∅ ∧
    localStorage s1 = ∅.
Proof.
  assert (default memory (cfg_storage (default empty_config (Some busy_config)))
            = memory ∨
          match store_of (default memory
                   (cfg_storage (default empty_config (Some busy_config))))
                  (with_sessionStorage (<["lithium:a" := "{oops"%string]>)
                     (initial_state 0))
                  !! default ("lithium:" +:+ "a")
                       (cfg_storageKey (default empty_config (Some busy_config)))
          with
          | None => True
          | Some raw => raw = ""%string ∨ JSON_parse (Host := small_json_host) raw = None
          end) as Hcase.
  { right. vm_compute. by right. }
  exact (channel_falls_back_to_initialValue (H := small_json_host) "a"
           (Some busy_config)
           (with_sessionStorage (<["lithium:a" := "{oops"%string]>) (initial_state 0))
           small_json_host_outside eq_refl Hcase).
Defined.
(** ** Channels: clearing and starting afresh *)

Lemma clear_if_set_eq handle s :
  clear_if_set handle s = with_timers (cancel handle) s.
Proof.
  unfold clear_if_set, cancel, clearTimeout.
  destruct (truthy handle) as [id|]; [destruct (1 <=? id)|]; by destruct s.
Qed.

Section OutsideClear.
Context `{Host}.
Context (Hout : host_outside).

(** What [clear] leaves behind, field by field. *)
Lemma clear_outside channelName s a ch :
  channels s !! channelName = Some a →
  chan_heap s !! a = Some ch →
  ∃ s1,
    clear channelName s = Some s1 ∧
    channels s1 = delete channelName (channels s) ∧
    chan_heap s1 = alter (chan_set_subscribers set_clear) a (chan_heap s) ∧
    timers s1 = cancel (onChangeDebounceTimer ch) (cancel (timeoutId ch) (timers s)) ∧
    trace s1 =
      trace s ++
      match config ch ≫= cfg_onClear with
      | Some _ => [(now s, EvOnClear a)]
      | None => []
      end ∧
    now s1 = now s ∧
    sessionStorage s1 =
      (if storage ch is session then delete (storageKey ch) (sessionStorage s)
       else sessionStorage s) ∧
    localStorage s1 =
      (if storage ch is local then delete (storageKey ch) (localStorage s)
       else localStorage s) ∧
    eventListeners s1 = eventListeners s ∧ sets s1 = sets s ∧
    wrappers s1 = wrappers s.
Proof using Hout.
  intros Hn Hch. unfold clear. rewrite Hn. cbn [mbind option_bind].
  rewrite Hch. cbn [mbind option_bind].
  destruct (config ch ≫= cfg_onClear) as [h|];
    rewrite ?(call_hook_outside Hout); cbn [mbind option_bind];
    change (chan_heap (log (EvOnClear a) s)) with (chan_heap s);
    rewrite Hch; cbn [mbind option_bind];
    (eexists; split; [reflexivity|]);
    rewrite !clear_if_set_eq;
    unfold removeFromStorage, with_store;
    destruct (storage ch); cbn; rewrite ?app_nil_r; done.
Qed.
End OutsideClear.
(** X4. Clearing a channel drops its configuration with it.  A publish
    to the same name afterwards starts a new channel from nothing: the
    value is stored as given, without the old [validate] and [transform],
    the new channel is a memory channel without hooks or lifetime, and
    [getSignal] returns a new signal.  The signal of the cleared channel
    keeps the value it had and is no longer updated. *)
Theorem publish_after_clear_starts_afresh `{Host} (fuel : nat)
    (channelName : string) (v : value) (s : State) (a : nat) (ch : Channel) :
  host_outside →
  channels s !! channelName = Some a →
  chan_heap s !! a = Some ch →
  ∃ s1 s2 ch2,
    clear channelName s = Some s1 ∧
    getValue channelName s1 = VUndefined ∧
    publish fuel channelName v s1 = Some s2 ∧
    getValue channelName s2 = v ∧
    getSignal channelName s2 = Some (length (chan_heap s)) ∧
    getSignal channelName s2 ≠ Some a ∧
    signal_get (length (chan_heap s)) s2 = Some v ∧
    signal_get a s2 = Some (signal ch) ∧
    chan_heap s2 !! length (chan_heap s) = Some ch2 ∧
    config ch2 = Some (initial_only v) ∧ storage ch2 = memory ∧
    ttl ch2 = None ∧ autoCleanup ch2 = false.
Proof.
  intros Hout Hn Hch.
  destruct (clear_outside Hout channelName s a ch Hn Hch)
    as (s1 & Hclear & Hc1 & Hh1 & _).
  assert (channels s1 !! channelName = None) as Hfresh.
  { by rewrite Hc1, lookup_delete_eq. }
  assert (length (chan_heap s1) = length (chan_heap s)) as Hlen.
  { by rewrite Hh1, length_alter. }
  destruct (channel_new Hout channelName (Some (initial_only v)) s1 Hfresh)
    as (s2 & ch2 & Hrun & Hc2 & Hh2 & Hsig & Hsto & _ & _ & Httl & Hauto & _ & _
        & Hcfg & _).
  cbn in Hsig, Hsto, Httl, Hauto. rewrite Hsto in Hsig. cbn in Hsig.
  rewrite Hlen in Hrun, Hc2.
  assert (a < length (chan_heap s))%nat as Hlt by (by eapply lookup_lt_Some).
  exists s1, s2, ch2. split; [done|].
  split. { unfold getValue. by rewrite Hfresh. }
  split. { unfold publish. rewrite Hfresh, Hrun. done. }
  split. { unfold getValue. rewrite Hc2, lookup_insert_eq. cbn.
           by rewrite Hh2, <-Hlen, list_lookup_middle. }
  unfold getSignal, signal_get. rewrite Hc2, lookup_insert_eq.
  split; [done|]. split; [intros [= ?]; lia|].
  split. { rewrite Hh2, <-Hlen, list_lookup_middle by done. cbn. by rewrite Hsig. }
  split. { rewrite Hh2, lookup_app_l by lia.
           by rewrite Hh1, list_lookup_alter_eq, Hch. }
  split. { by rewrite Hh2, <-Hlen, list_lookup_middle. }
  done.
Qed.

Lemma publish_after_clear_starts_afresh_witness :
  publish (H := quiet_host) 1 "a" (VNum (-1))
    (with_channel_a (H := quiet_host) positive_only)
  = Some (with_channel_a (H := quiet_host) positive_only) ∧
  ∃ s1 s2 ch2,
    clear (H := quiet_host) "a" (with_channel_a (H := quiet_host) positive_only)
      = Some s1 ∧
    getValue "a" s1 = VUndefined ∧
    publish (H := quiet_host) 1 "a" (VNum (-1)) s1 = Some s2 ∧
    getValue "a" s2 = VNum (-1) ∧
    getSignal "a" s2 = Some 1%nat ∧
    getSignal "a" s2 ≠ Some 0%nat ∧
    signal_get 1 s2 = Some (VNum (-1)) ∧
    signal_get 0 s2 = Some (VNum 1) ∧
    chan_heap s2 !! 1%nat = Some ch2 ∧
    config ch2 = Some (initial_only (VNum (-1))) ∧ storage ch2 = memory ∧
    ttl ch2 = None ∧ autoCleanup ch2 = false.
Proof.
  split; [vm_compute; reflexivity|].
  exact (publish_after_clear_starts_afresh (H := quiet_host) 1 "a" (VNum (-1))
           (with_channel_a (H := quiet_host) positive_only) 0%nat
           {| signal := VNum 1; storage := memory; storageKey := "lithium:a";
              subscribers := []; ttl := None; autoCleanup := false;
              timeoutId := None; createdAt := 0; config := Some positive_only;
              isInitialized := true; onChangeDebounceTimer := None;
              onChangeLastCall := None |}
           quiet_host_outside eq_refl eq_refl).
Defined.

(** ** Channels: subscriptions *)

Lemma elem_of_members_add (x : fn) (d : SetData fn) :
  x ∈ members (set_add Nat.eqb x d).
Proof.
  unfold set_add. destruct (set_has Nat.eqb x d) eqn:Hhas.
  - unfold set_has in Hhas. apply existsb_exists in Hhas as (e & Hin & He).
    destruct e as [y|]; [|done]. cbn in He. apply Nat.eqb_eq in He as <-.
    apply list_elem_of_omap. exists (Some x). split; [|done].
    by apply list_elem_of_In.
  - unfold members. rewrite omap_app. cbn. apply elem_of_app. right.
    by apply list_elem_of_singleton.
Qed.

(** X5. [subscribe] only registers the callback.  It always returns; the
    channel exists afterwards and the callback is a member of its
    subscriber set.  A channel that existed keeps every field but that
    set, to which the callback is added unless it is a member already; a
    channel that did not exist is created without configuration: a memory
    channel keyed [lithium:<name>] without value, lifetime, auto-cleanup or
    hooks, whose only subscriber is the callback.  [subscribe] calls
    neither the callback nor any hook (the current value is not replayed
    to the new subscriber), it starts no timer and writes to no store, and
    the value of the channel is what it was.  The function it returns
    remembers the channel object, the callback and the name. *)
Theorem subscribe_is_silent `{Host} (channelName : string) (callback : fn)
    (s : State) :
  registry_wf s →
  ∃ u s' ch',
    subscribe channelName callback s = Some (u, s') ∧
    u_callback u = callback ∧ u_channelName u = channelName ∧
    channels s' !! channelName = Some (u_channel u) ∧
    chan_heap s' !! u_channel u = Some ch' ∧
    callback ∈ members (subscribers ch') ∧
    match channels s !! channelName with
    | Some a =>
        u_channel u = a ∧
        ∃ ch, chan_heap s !! a = Some ch ∧
              ch' = chan_set_subscribers (set_add Nat.eqb callback) ch
    | None =>
        u_channel u = length (chan_heap s) ∧
        ch' = {| signal := VUndefined; storage := memory;
                 storageKey := "lithium:" +:+ channelName;
                 subscribers := [Some callback]; ttl := None;
                 autoCleanup := false; timeoutId := None;
                 createdAt := now s; config := None; isInitialized := false;
                 onChangeDebounceTimer := None; onChangeLastCall := None |}
    end ∧
    getValue channelName s' = getValue channelName s ∧
    trace s' = trace s ∧ timers s' = timers s ∧
    sessionStorage s' = sessionStorage s ∧ localStorage s' = localStorage s.
Proof.
  intros Hwf. unfold subscribe.
  destruct (channels s !! channelName) as [a|] eqn:Hn.
  - rewrite bool_decide_eq_true_2 by done. cbn [mbind option_bind].
    rewrite Hn. cbn [mbind option_bind].
    destruct (Hwf _ _ Hn) as [Hlt _].
    apply lookup_lt_is_Some_2 in Hlt as [ch Hch].
    eexists _, _, (chan_set_subscribers (set_add Nat.eqb callback) ch).
    split; [reflexivity|]. cbn. rewrite Hn.
    split; [done|]. split; [done|]. split; [done|].
    split; [by rewrite list_lookup_alter_eq, Hch|].
    split; [apply elem_of_members_add|].
    split; [split; [done|by exists ch]|]. split; [|done].
    unfold getValue. cbn. rewrite Hn. cbn.
    by rewrite list_lookup_alter_eq, Hch.
  - rewrite bool_decide_eq_false_2 by (by intros [? ?]).
    unfold channel. rewrite channels_init, Hn.
    destruct (init_fields s) as (Hh & _ & _ & _ & Hss & Hls & Hnow & Htm & Htr).
    cbn. rewrite lookup_insert_eq. cbn.
    eexists _, _, _. split; [reflexivity|]. cbn. rewrite lookup_insert_eq.
    split; [done|]. split; [done|]. split; [done|].
    rewrite Hh, Hnow.
    split. { rewrite list_lookup_alter_eq, list_lookup_middle by done. reflexivity. }
    split. { cbn. apply list_elem_of_singleton. done. }
    split; [done|]. split; [|done].
    unfold getValue. cbn. rewrite lookup_insert_eq, Hn. cbn.
    rewrite list_lookup_alter_eq, Hh, list_lookup_middle by done. done.
Qed.

Lemma subscribe_is_silent_witness :
  ∃ u s' ch',
    subscribe (H := quiet_host) "a" 5%nat (initial_state 0) = Some (u, s') ∧
    channels s' !! "a" = Some (u_channel u) ∧
    chan_heap s' !! u_channel u = Some ch' ∧
    subscribers ch' = [Some 5%nat] ∧ config ch' = None ∧
    trace s' = [] ∧ timers s' = [].
Proof.
  assert (registry_wf (initial_state 0)) as Hwf by (by intros n a Hn).
  destruct (subscribe_is_silent (H := quiet_host) "a" 5%nat (initial_state 0) Hwf)
    as (u & s' & ch' & Hrun & _ & _ & Hc & Hch & _ & Hnew & _ & Htr & Htm & _).
  change (channels (initial_state 0) !! "a") with (@None nat) in Hnew.
  destruct Hnew as [_ ->].
  exists u, s'. eexists. split; [exact Hrun|]. split; [exact Hc|].
  split; [exact Hch|]. split; [reflexivity|]. split; [reflexivity|].
  split; [exact Htr|exact Htm].
Defined.

Lemma set_has_members (x : nat) (l : list nat) :
  set_has Nat.eqb x (Some <$> l) = bool_decide (x ∈ l).
Proof.
  unfold set_has. induction l as [|y l IH]; [done|].
  cbn [fmap list_fmap existsb entry_is]. rewrite IH.
  destruct (Nat.eqb_spec x y) as [->|Hne].
  - cbn. symmetry. apply bool_decide_eq_true_2. by left.
  - cbn. apply bool_decide_ext. rewrite elem_of_cons.
    split; [by right|by intros [->|?]].
Qed.

Lemma set_size_members {A} (l : list A) : set_size (Some <$> l) = length l.
Proof.
  unfold set_size. induction l as [|x l IH]; [done|].
  rewrite fmap_cons, filter_cons_True by done. cbn [length]. by rewrite IH.
Qed.

Lemma list_to_set_subscribed (cb : nat) (l cbs : list nat) :
  (list_to_set (if bool_decide (cb ∈ l) then l else l ++ [cb])
     ∪ list_to_set cbs : gset nat) =
  list_to_set l ∪ list_to_set (cb :: cbs).
Proof.
  destruct (bool_decide_reflect (cb ∈ l)) as [Hin|Hin].
  - apply (elem_of_list_to_set (C := gset nat)) in Hin.
    rewrite list_to_set_cons, (assoc_L (∪)). f_equal.
    apply set_eq. intros x. rewrite elem_of_union, elem_of_singleton.
    split; [by left|by intros [?| ->]].
  - rewrite list_to_set_app_L, !list_to_set_cons, list_to_set_nil.
    by rewrite (right_id_L ∅ (∪)), <-!(assoc_L (∪)).
Qed.

Lemma subscribe_registered `{Host} channelName callback s a :
  channels s !! channelName = Some a →
  subscribe channelName callback s =
    Some ({| u_channel := a; u_callback := callback; u_channelName := channelName |},
          update_chan a (chan_set_subscribers (set_add Nat.eqb callback)) s).
Proof.
  intros Hn. unfold subscribe.
  rewrite bool_decide_eq_true_2 by (by rewrite Hn).
  cbn [mbind option_bind]. by rewrite Hn.
Qed.

(** Subscribing a list of callbacks to a channel whose set has no gap. *)
Lemma subscribe_many `{Host} fuel channelName a cbs : ∀ s ch l,
  channels s !! channelName = Some a →
  chan_heap s !! a = Some ch →
  subscribers ch = Some <$> l → NoDup l →
  ∃ s' l',
    run_uses fuel channelName (Subscribe <$> cbs) s = Some s' ∧
    channels s' = channels s ∧
    chan_heap s' !! a = Some (chan_set_subscribers (λ _, Some <$> l') ch) ∧
    NoDup l' ∧
    list_to_set l' = (list_to_set l ∪ list_to_set cbs : gset nat) ∧
    now s' = now s.
Proof.
  induction cbs as [|cb cbs IH]; intros s ch l Hn Hch Hsub Hnd.
  - exists s, l. split; [done|]. split; [done|].
    split; [by rewrite Hch, <-Hsub; destruct ch|].
    split; [done|]. split; [|done].
    by rewrite list_to_set_nil, (right_id_L ∅ (∪)).
  - cbn [fmap list_fmap run_uses].
    rewrite (subscribe_registered channelName cb s a Hn).
    cbn [mbind option_bind snd].
    set (s1 := update_chan a _ s).
    set (l1 := if bool_decide (cb ∈ l) then l else l ++ [cb]).
    assert (chan_heap s1 !! a = Some (chan_set_subscribers (λ _, Some <$> l1) ch))
      as Hch1.
    { subst s1. cbn. rewrite list_lookup_alter_eq, Hch. cbn. f_equal.
      unfold chan_set_subscribers. f_equal. rewrite Hsub. unfold set_add.
      rewrite set_has_members. subst l1.
      destruct (bool_decide (cb ∈ l)); [done|]. by rewrite fmap_app. }
    assert (NoDup l1) as Hnd1.
    { subst l1. destruct (bool_decide_reflect (cb ∈ l)); [done|].
      apply NoDup_app. split; [done|]. split; [|apply NoDup_singleton].
      intros x Hx Hx'. apply list_elem_of_singleton in Hx'. by subst. }
    destruct (IH s1 _ l1 Hn Hch1 eq_refl Hnd1) as (s' & l' & Hrun & Hc & Hh & Hnd' & Hset & Hnow).
    exists s', l'. split; [done|]. split; [done|]. split; [by rewrite Hh|].
    split; [done|]. split; [|done].
    rewrite Hset. subst l1. apply list_to_set_subscribed.
Qed.

(** X6. [getChannelInfo] is [undefined] for a name without a channel.
    After callbacks have subscribed to such a name, it describes the
    channel that the first subscription created: a memory channel keyed
    [lithium:<name>], without lifetime or auto-cleanup, created now; the
    subscriber count is the number of distinct callbacks, since a
    callback that subscribes twice is held once. *)
Theorem getChannelInfo_counts_distinct_subscribers `{Host} (fuel : nat)
    (channelName : string) (cbs : list fn) (s : State) :
  channels s !! channelName = None →
  cbs ≠ [] →
  getChannelInfo channelName s = None ∧
  ∃ s',
    run_uses fuel channelName (Subscribe <$> cbs) s = Some s' ∧
    getChannelInfo channelName s' =
      Some {| info_storage := memory;
              info_storageKey := "lithium:" +:+ channelName;
              info_subscribersCount := size (list_to_set cbs : gset nat);
              info_ttl := None; info_autoCleanup := false;
              info_createdAt := now s; info_age := 0 |}.
Proof.
  intros Hfresh Hne. split.
  { unfold getChannelInfo. by rewrite Hfresh. }
  destruct cbs as [|cb cbs]; [done|]. clear Hne.
  cbn [fmap list_fmap run_uses].
  assert (∃ s1 ch1,
            subscribe channelName cb s = Some
              ({| u_channel := length (chan_heap s); u_callback := cb;
                  u_channelName := channelName |}, s1) ∧
            channels s1 !! channelName = Some (length (chan_heap s)) ∧
            chan_heap s1 !! length (chan_heap s) = Some ch1 ∧
            subscribers ch1 = Some <$> [cb] ∧ storage ch1 = memory ∧
            storageKey ch1 = "lithium:" +:+ channelName ∧ ttl ch1 = None ∧
            autoCleanup ch1 = false ∧ createdAt ch1 = now s ∧ now s1 = now s)
    as (s1 & ch1 & Hsub & Hn1 & Hch1 & Hd1 & Hst & Hkey & Httl & Hauto & Hat & Hnow).
  { unfold subscribe. rewrite bool_decide_eq_false_2 by (rewrite Hfresh; by intros [? ?]).
    unfold channel. rewrite channels_init, Hfresh.
    destruct (init_fields s) as (Hh & _ & _ & _ & _ & _ & Hnw & _ & _).
    cbn. rewrite lookup_insert_eq. cbn. rewrite Hh.
    eexists _, _. split; [reflexivity|]. cbn. rewrite lookup_insert_eq.
    split; [done|]. rewrite list_lookup_alter_eq, Hh, list_lookup_middle by done.
    cbn. split; [reflexivity|]. cbn. by rewrite Hnw. }
  rewrite Hsub. cbn [mbind option_bind snd].
  destruct (subscribe_many fuel channelName _ cbs s1 ch1 [cb] Hn1 Hch1 Hd1)
    as (s' & l' & Hrun & Hc & Hh & Hnd & Hset & Hnow').
  { apply NoDup_singleton. }
  exists s'. split; [done|].
  unfold getChannelInfo. rewrite Hc, Hn1. cbn [mbind option_bind].
  rewrite Hh. cbn. rewrite Hst, Hkey, Httl, Hauto, Hat, Hnow', Hnow.
  fold (set_size (Some <$> l')).
  rewrite set_size_members, Z.sub_diag.
  rewrite <-(size_list_to_set (C := gset nat) l') by done.
  rewrite Hset. do 3 f_equal.
  by rewrite list_to_set_cons, list_to_set_nil, (right_id_L ∅ (∪)).
Qed.

Lemma getChannelInfo_counts_distinct_subscribers_witness :
  getChannelInfo "a" (initial_state 5) = None ∧
  ∃ s',
    run_uses (H := quiet_host) 0 "a" (Subscribe <$> [4; 5; 4]%nat) (initial_state 5)
      = Some s' ∧
    getChannelInfo "a" s' =
      Some {| info_storage := memory;
              info_storageKey := "lithium:a";
              info_subscribersCount := 2;
              info_ttl := None; info_autoCleanup := false;
              info_createdAt := 5; info_age := 0 |}.
Proof.
  exact (getChannelInfo_counts_distinct_subscribers (H := quiet_host) 0 "a"
           [4; 5; 4]%nat (initial_state 5) eq_refl
           (λ E, eq_ind [4; 5; 4]%nat
                   (λ l, match l with [] => False | _ => True end) I [] E)).
Defined.
(** ** Channels: the publish pipeline *)

Lemma with_trace_same s : with_trace (trace s ++ []) s = s.
Proof. destruct s. unfold with_trace. cbn. by rewrite app_nil_r. Qed.

Lemma members_cons_Some {A} (x : A) (d : SetData A) :
  members (Some x :: d) = x :: members d.
Proof. done. Qed.

Lemma members_cons_None {A} (d : SetData A) : members (None :: d) = members d.
Proof. done. Qed.

(** A walk whose callback only records an event visits the members in
    insertion order. *)
Lemma forEach_log {A} (entries : State → SetData A) (ev : A → event)
    (body : A → State → option State) (l : SetData A) :
  (∀ e st, body e st = Some (log (ev e) st)) →
  (∀ e st, entries (log e st) = entries st) →
  ∀ fuel i s, entries s = l → (length l - i < fuel)%nat →
    forEach fuel entries body i s =
      Some (with_trace
              (trace s ++ map (λ e, (now s, ev e)) (members (drop i l))) s).
Proof.
  intros Hbody Hent fuel.
  induction fuel as [|fuel IH]; intros i s Hl Hfuel; [lia|].
  cbn [forEach]. rewrite Hl.
  destruct (l !! i) as [[e|]|] eqn:Hi.
  - rewrite Hbody. cbn [mbind option_bind].
    rewrite (IH (S i) (log (ev e) s)); [|by rewrite Hent|].
    + rewrite (drop_S _ _ _ Hi), members_cons_Some. cbn [map].
      f_equal. unfold with_trace. cbn. by rewrite <-(assoc_L (++)).
    + apply lookup_lt_Some in Hi. lia.
  - rewrite (IH (S i) s Hl).
    + by rewrite (drop_S _ _ _ Hi), members_cons_None.
    + apply lookup_lt_Some in Hi. lia.
  - apply lookup_ge_None in Hi. rewrite drop_ge by lia.
    cbn. by rewrite with_trace_same.
Qed.

Lemma notified_of_app a tr1 tr2 :
  notified_of a (tr1 ++ tr2) = notified_of a tr1 ++ notified_of a tr2.
Proof. apply omap_app. Qed.

Lemma notified_of_subscribers a v t (cbs : list fn) :
  notified_of a (map (λ cb, (t, EvSubscriber a cb v)) cbs) =
  map (λ cb, (cb, v)) cbs.
Proof.
  induction cbs as [|cb cbs IH]; [done|].
  cbn. rewrite Nat.eqb_refl. cbn. f_equal. exact IH.
Qed.

Section OutsidePublish.
Context `{Host}.
Context (Hout : host_outside).

Lemma executeOnChange_outside channelName a newValue oldValue s ch :
  chan_heap s !! a = Some ch →
  ∃ s' ch',
    executeOnChange channelName a newValue oldValue s = Some s' ∧
    channels s' = channels s ∧
    chan_heap s' !! a = Some ch' ∧ chan_core ch' = chan_core ch ∧
    sessionStorage s' = sessionStorage s ∧ localStorage s' = localStorage s ∧
    now s' = now s ∧
    notified_of a (trace s') = notified_of a (trace s) ∧
    (truthy (cfg_debounce (default empty_config (config ch))) = None →
     truthy (cfg_throttle (default empty_config (config ch))) = None →
     timers s' = timers s ∧
     trace s' =
       trace s ++
       match config ch ≫= cfg_onChange with
       | Some _ => [(now s, EvOnChange a newValue oldValue)]
       | None => []
       end).
Proof using Hout.
  intros Hch. unfold executeOnChange. rewrite Hch. cbn [mbind option_bind].
  destruct (config ch ≫= cfg_onChange) as [h|].
  2:{ exists s, ch. rewrite app_nil_r. done. }
  destruct (truthy (cfg_debounce _)) as [d|].
  { rewrite clear_if_set_eq. eexists _, _. split; [reflexivity|]. cbn.
    rewrite list_lookup_alter_eq, Hch. cbn. done. }
  destruct (truthy (cfg_throttle _)) as [t|].
  { destruct (t <=? _).
    - unfold executeCallback. rewrite (call_hook_outside Hout).
      eexists _, _. split; [reflexivity|]. cbn.
      rewrite list_lookup_alter_eq, Hch, omap_app. cbn.
      rewrite app_nil_r. done.
    - exists s, ch. done. }
  unfold executeCallback. rewrite (call_hook_outside Hout).
  exists (log (EvOnChange a newValue oldValue) s), ch.
  rewrite trace_log, notified_of_app. cbn. rewrite app_nil_r. done.
Qed.
End OutsidePublish.
Section OutsidePublished.
Context `{Host}.
Context (Hout : host_outside).

(** What an accepted publish on an existing channel leaves behind. *)
Lemma publish_outside fuel channelName v s a ch :
  channels s !! channelName = Some a →
  chan_heap s !! a = Some ch →
  accepts (config ch) v = true →
  (length (subscribers ch) < fuel)%nat →
  ∃ s' ch',
    publish fuel channelName v s = Some s' ∧
    channels s' = channels s ∧
    chan_heap s' !! a = Some ch' ∧
    chan_core ch' =
      chan_core (chan_set_isInitialized
                   (isInitialized ch || present (transformed (config ch) v))
                   (chan_set_signal (transformed (config ch) v) ch)) ∧
    sessionStorage s' =
      (if storage ch is session
       then <[storageKey ch :=
                default "undefined"%string
                  (JSON_stringify (transformed (config ch) v))]> (sessionStorage s)
       else sessionStorage s) ∧
    localStorage s' =
      (if storage ch is local
       then <[storageKey ch :=
                default "undefined"%string
                  (JSON_stringify (transformed (config ch) v))]> (localStorage s)
       else localStorage s) ∧
    now s' = now s ∧
    notified_of a (trace s') =
      notified_of a (trace s) ++
      map (λ cb, (cb, transformed (config ch) v)) (members (subscribers ch)) ∧
    (truthy (cfg_debounce (default empty_config (config ch))) = None →
     truthy (cfg_throttle (default empty_config (config ch))) = None →
     timers s' = timers s ∧
     trace s' =
       trace s ++
       (if negb (isInitialized ch) && present (transformed (config ch) v)
        then match config ch ≫= cfg_onInit with
             | Some _ => [(now s, EvOnInit a (transformed (config ch) v))]
             | None => []
             end
        else []) ++
       match config ch ≫= cfg_onChange with
       | Some _ => [(now s, EvOnChange a (transformed (config ch) v) (signal ch))]
       | None => []
       end ++
       map (λ cb, (now s, EvSubscriber a cb (transformed (config ch) v)))
         (members (subscribers ch))).
Proof using Hout.
  intros Hn Hch Hacc Hfuel. unfold publish. rewrite Hn. cbn [mbind option_bind].
  rewrite Hch. cbn [mbind option_bind].
  unfold accepts in Hacc. fold (transformed (config ch) v).
  set (tv := transformed (config ch) v).
  assert (match config ch ≫= cfg_validate with
          | Some validate => negb (validate v)
          | None => false
          end = false) as ->.
  { destruct (config ch ≫= cfg_validate); [by rewrite Hacc|done]. }
  set (s2 := if negb (is_memory (storage ch)) then _ else _).
  set (ch2 := chan_set_signal tv ch).
  set (raw := default "undefined"%string (JSON_stringify tv)).
  assert (channels s2 = channels s ∧ chan_heap s2 !! a = Some ch2 ∧
          trace s2 = trace s ∧ now s2 = now s ∧ timers s2 = timers s ∧
          sessionStorage s2 =
            (if storage ch is session
             then <[storageKey ch := raw]> (sessionStorage s)
             else sessionStorage s) ∧
          localStorage s2 =
            (if storage ch is local
             then <[storageKey ch := raw]> (localStorage s)
             else localStorage s))
    as (Hc2 & Hh2 & Ht2 & Hn2 & Htm2 & Hss2 & Hls2).
  { subst s2. unfold saveToStorage.
    destruct (storage ch); cbn; by rewrite list_lookup_alter_eq, Hch. }
  clearbody s2.
  set (init_evs :=
         if negb (isInitialized ch) && present tv
         then match config ch ≫= cfg_onInit with
              | Some _ => [(now s, EvOnInit a tv)]
              | None => []
              end
         else []).
  set (stage3 := if negb (isInitialized ch) && present tv then _ else _).
  assert (∃ s3, stage3 = Some s3 ∧
            channels s3 = channels s ∧
            chan_heap s3 !! a =
              Some (chan_set_isInitialized (isInitialized ch || present tv) ch2) ∧
            trace s3 = trace s ++ init_evs ∧
            notified_of a (init_evs) = [] ∧ now s3 = now s ∧
            timers s3 = timers s ∧
            sessionStorage s3 = sessionStorage s2 ∧
            localStorage s3 = localStorage s2)
    as (s3 & -> & Hc3 & Hh3 & Ht3 & Hni & Hn3 & Htm3 & Hss3 & Hls3).
  { subst stage3 init_evs. destruct (isInitialized ch) eqn:Hi; cbn [negb andb orb].
    { exists s2. rewrite Hc2, Ht2, app_nil_r. repeat split; try done.
      rewrite Hh2. f_equal. subst ch2. destruct ch. cbn in *. by rewrite Hi. }
    destruct (present tv) eqn:Hp.
    - destruct (config ch ≫= cfg_onInit) as [h|].
      + rewrite (call_hook_outside Hout). eexists. split; [reflexivity|].
        cbn. rewrite list_lookup_alter_eq, Hh2, Hc2, Ht2, Hn2. done.
      + eexists. split; [reflexivity|].
        cbn. rewrite list_lookup_alter_eq, Hh2, Hc2, Ht2, app_nil_r. done.
    - exists s2. rewrite Hc2, Ht2, app_nil_r. repeat split; try done.
      rewrite Hh2. f_equal. subst ch2. destruct ch. cbn in *. by rewrite Hi. }
  cbn [mbind option_bind].
  set (ch3 := chan_set_isInitialized _ ch2) in Hh3.
  set (stage4 := match config ch ≫= cfg_onChange with Some _ => _ | None => _ end).
  assert (∃ s4 ch4, stage4 = Some s4 ∧
            channels s4 = channels s ∧
            chan_heap s4 !! a = Some ch4 ∧ chan_core ch4 = chan_core ch3 ∧
            sessionStorage s4 = sessionStorage s2 ∧
            localStorage s4 = localStorage s2 ∧ now s4 = now s ∧
            notified_of a (trace s4) = notified_of a (trace s) ∧
            (truthy (cfg_debounce (default empty_config (config ch))) = None →
             truthy (cfg_throttle (default empty_config (config ch))) = None →
             timers s4 = timers s ∧
             trace s4 =
               (trace s ++ init_evs) ++
               match config ch ≫= cfg_onChange with
               | Some _ => [(now s, EvOnChange a tv (signal ch))]
               | None => []
               end))
    as (s4 & ch4 & -> & Hc4 & Hh4 & Hcore & Hss4 & Hls4 & Hn4 & Hnt4 & Ht4).
  { subst stage4. destruct (config ch ≫= cfg_onChange) as [h|] eqn:Hhook.
    - destruct (executeOnChange_outside Hout channelName a tv (signal ch) s3 ch3 Hh3)
        as (s4 & ch4 & Hrun & G1 & G2 & G3 & G4 & G5 & G6 & Gn & G7).
      exists s4, ch4. split; [done|]. split; [congruence|].
      split; [done|]. split; [done|]. split; [congruence|].
      split; [congruence|]. split; [congruence|].
      split. { by rewrite Gn, Ht3, notified_of_app, Hni, app_nil_r. }
      intros Hd Ht. destruct (G7 Hd Ht) as (G8 & G9).
      change (config ch3) with (config ch) in G9.
      rewrite Hhook in G9. rewrite G8, G9, Ht3, Hn3. done.
    - exists s3, ch3. rewrite app_nil_r.
      do 7 (split; [done|]). split; [|done].
      by rewrite Ht3, notified_of_app, Hni, app_nil_r. }
  cbn [mbind option_bind].
  assert (subscribers ch4 = subscribers ch) as Hsub.
  { unfold chan_core in Hcore. by injection Hcore as _ _ _ -> _ _ _ _ _ _. }
  rewrite (forEach_log (subscribers_of a) (λ cb, EvSubscriber a cb tv) _
             (subscribers ch)).
  - eexists _, ch4. split; [reflexivity|].
    cbn [with_trace channels chan_heap sessionStorage localStorage now trace timers].
    rewrite Hc4, Hh4, Hss4, Hls4, Hss2, Hls2, Hn4, drop_0.
    do 6 (split; [done|]). split.
    { by rewrite notified_of_app, Hnt4, notified_of_subscribers. }
    intros Hd Ht. destruct (Ht4 Hd Ht) as (-> & ->).
    by rewrite <-!(assoc_L (++)).
  - intros cb st. apply (call_hook_outside Hout).
  - done.
  - unfold subscribers_of. by rewrite Hh4.
  - lia.
Qed.
End OutsidePublished.
(** X7. The value that a publish leaves in the channel is the value the
    store returns later.  An accepted publish on a session or local
    channel writes [JSON.stringify] of the transformed value under the
    channel's key; a channel created afterwards over the same key, in any
    state whose store still holds that entry, starts with that value when
    [JSON.parse] reads the text back: it is stored transformed and is not
    transformed or validated again on the way back. *)
Theorem published_value_is_restored `{Host} (fuel : nat) (channelName : string)
    (v : value) (s : State) (a : nat) (ch : Channel) (st : StorageType)
    (raw : string) :
  host_outside →
  channels s !! channelName = Some a →
  chan_heap s !! a = Some ch →
  accepts (config ch) v = true →
  (length (subscribers ch) < fuel)%nat →
  storage ch = st → st ≠ memory →
  JSON_stringify (transformed (config ch) v) = Some raw →
  raw ≠ ""%string →
  JSON_parse raw = Some (transformed (config ch) v) →
  transformed (config ch) v ≠ VUndefined →
  ∃ s1,
    publish fuel channelName v s = Some s1 ∧
    store_of st s1 !! storageKey ch = Some raw ∧
    ∀ name2 cfg2 s2,
      channels s2 !! name2 = None →
      cfg_storage cfg2 = Some st →
      default ("lithium:" +:+ name2) (cfg_storageKey cfg2) = storageKey ch →
      store_of st s2 !! storageKey ch = store_of st s1 !! storageKey ch →
      ∃ s3,
        channel name2 (Some cfg2) s2 = Some (length (chan_heap s2), s3) ∧
        getValue name2 s3 = transformed (config ch) v.
Proof.
  intros Hout Hn Hch Hacc Hfuel Hst Hmem Hstr Hne Hparse Hdef.
  destruct (publish_outside Hout fuel channelName v s a ch Hn Hch Hacc Hfuel)
    as (s1 & ch' & Hrun & _ & _ & _ & Hss & Hls & _).
  rewrite Hstr in Hss, Hls. cbn in Hss, Hls.
  assert (store_of st s1 !! storageKey ch = Some raw) as Hstored.
  { subst st. destruct (storage ch); [done| |]; cbn [store_of].
    - by rewrite Hss, lookup_insert_eq.
    - by rewrite Hls, lookup_insert_eq. }
  exists s1. split; [done|]. split; [done|].
  intros name2 cfg2 s2 Hfresh Hst2 Hkey2 Hsame.
  destruct (channel_new Hout name2 (Some cfg2) s2 Hfresh)
    as (s3 & ch3 & Hrun3 & Hc3 & Hh3 & Hsig & Hsto & Hkey & _).
  change (default empty_config (Some cfg2)) with cfg2 in Hsig, Hsto, Hkey.
  rewrite Hst2 in Hsto. cbn in Hsto.
  exists s3. split; [done|].
  rewrite (getValue_created _ _ _ _ Hc3 Hh3), Hsig, Hkey, Hkey2, Hsto.
  assert (getFromStorage (storageKey ch) st s2 = transformed (config ch) v) as ->.
  { unfold getFromStorage. destruct (is_memory st) eqn:Hm; [by destruct st|].
    rewrite Hsame, Hstored. destruct (String.eqb_spec raw ""); [done|].
    by rewrite Hparse. }
  by destruct (transformed (config ch) v).
Qed.


Lemma published_value_is_restored_witness :
  ∃ s1,
    publish (H := small_json_host) 1 "a" (VNum 7)
      (with_channel_a (H := small_json_host) session_config) = Some s1 ∧
    sessionStorage s1 !! "lithium:a" = Some "7"%string ∧
    ∃ s3,
      channel (H := small_json_host) "a" (Some session_config)
        (with_sessionStorage (λ _, sessionStorage s1) (initial_state 100))
        = Some (0%nat, s3) ∧
      getValue "a" s3 = VNum 7.
Proof.
  assert (length (subscribers session_channel) < 1)%nat as Hfuel by (cbn; lia).
  assert (session ≠ memory) as Hmem by done.
  assert ("7"%string ≠ ""%string) as Hne by done.
  assert (transformed (config session_channel) (VNum 7) ≠ VUndefined) as Hdef by done.
  destruct (published_value_is_restored (H := small_json_host) 1 "a" (VNum 7)
              (with_channel_a (H := small_json_host) session_config) 0%nat
              session_channel session "7" small_json_host_outside
              eq_refl eq_refl eq_refl Hfuel eq_refl Hmem eq_refl Hne eq_refl Hdef)
    as (s1 & Hrun & Hstored & Hback).
  exists s1. split; [exact Hrun|]. split; [exact Hstored|].
  exact (Hback "a" session_config
           (with_sessionStorage (λ _, sessionStorage s1) (initial_state 100))
           eq_refl eq_refl eq_refl eq_refl).
Defined.

(** ** Channels: leaving a subscription *)

Lemma members_set_delete (x : nat) (d : SetData nat) :
  members (set_delete Nat.eqb x d) = filter (λ y, y ≠ x) (members d).
Proof.
  induction d as [|[y|] d IH]; [done| |exact IH].
  unfold set_delete. cbn [map entry_is]. fold (set_delete Nat.eqb x d).
  rewrite members_cons_Some.
  destruct (Nat.eqb_spec x y) as [->|Hne].
  - rewrite members_cons_None, filter_cons_False by (by intros ?). exact IH.
  - rewrite members_cons_Some, filter_cons_True by done. by rewrite IH.
Qed.

Lemma set_size_members_length {A} (d : SetData A) :
  set_size d = length (members d).
Proof.
  unfold set_size. induction d as [|[x|] d IH]; [done| |].
  - rewrite filter_cons_True by done. cbn. by rewrite IH.
  - rewrite filter_cons_False by (by intros [? ?]). exact IH.
Qed.





(** ** Channels: lifetime *)

Lemma onclear_of_app a tr1 tr2 :
  onclear_of a (tr1 ++ tr2) = onclear_of a tr1 ++ onclear_of a tr2.
Proof. apply omap_app. Qed.



(** ** Topics: what a listener receives *)

Section PlainListener.
Context `{Host}.
Context (Hout : host_outside).

End PlainListener.

Section ListenerPayload.
Context `{Host}.

End ListenerPayload.

(** ** Topics: leaving a topic *)

Lemma set_delete_fresh (x : nat) (l : SetData nat) :
  (∀ j y, l !! j = Some (Some y) → y ≠ x) → set_delete Nat.eqb x l = l.
Proof.
  induction l as [|[y|] l IH]; intros Hfresh; [done| |].
  - unfold set_delete. cbn [map entry_is]. fold (set_delete Nat.eqb x l).
    rewrite (proj2 (Nat.eqb_neq x y)).
    + f_equal. apply IH. intros j z Hj. by apply (Hfresh (S j)).
    + intros ->. by apply (Hfresh 0%nat y).
  - unfold set_delete. cbn [map entry_is]. fold (set_delete Nat.eqb x l).
    f_equal. apply IH. intros j z Hj. by apply (Hfresh (S j)).
Qed.

Lemma set_delete_app (x : nat) (l1 l2 : SetData nat) :
  set_delete Nat.eqb x (l1 ++ l2) =
  set_delete Nat.eqb x l1 ++ set_delete Nat.eqb x l2.
Proof. apply map_app. Qed.

(** What [unlisten] does to the registry of topics. *)
Lemma unlisten_registry lid w st l :
  wrappers st !! lid = Some w →
  sets st !! w_listeners w = Some l →
  sets (unlisten lid st) = <[w_listeners w := set_delete Nat.eqb lid l]> (sets st) ∧
  eventListeners (unlisten lid st) =
    (if (set_size (set_delete Nat.eqb lid l) =? 0)%nat
     then delete (w_eventName w) (eventListeners st)
     else eventListeners st) ∧
  wrappers (unlisten lid st) = wrappers st ∧
  trace (unlisten lid st) = trace st.
Proof.
  intros Hw Hl. unfold unlisten. rewrite Hw. rewrite clear_if_set_eq.
  unfold listeners_of. cbn [update_set with_sets with_timers sets].
  rewrite list_lookup_alter_eq, Hl. cbn [fmap option_fmap option_map default].
  assert (alter (set_delete Nat.eqb lid) (w_listeners w) (sets st) =
          <[w_listeners w := set_delete Nat.eqb lid l]> (sets st)) as Halt.
  { apply list_eq. intros i. destruct (decide (i = w_listeners w)) as [->|Hne].
    - rewrite list_lookup_alter_eq, Hl, list_lookup_insert_eq; [done|].
      by eapply lookup_lt_Some.
    - by rewrite list_lookup_alter_ne, list_lookup_insert_ne. }
  destruct (set_size _ =? 0)%nat; cbn; by rewrite Halt.
Qed.
Section Unlisten.
Context `{Host}.

(** Calling the function returned by [on] takes the listener out of its
    topic: the next [emit] of the topic does not call it.  When the topic
    had no listener before the [on], it is no longer registered
    afterwards. *)
Lemma unlisten_silences (fuel : nat) (eventName : string)
    (listener : fn) (options : option ListenerOptions) (data : value)
    (s : State) :
  host_outside → topic_wf eventName s →
  (listener_slots eventName s + 1 < fuel)%nat →
  (eventListeners s !! eventName = None →
   eventListeners
     (unlisten (on eventName listener options s).1
        (on eventName listener options s).2) !! eventName = None) ∧
  ∃ s2,
    emit fuel eventName data
      (unlisten (on eventName listener options s).1
         (on eventName listener options s).2) = Some s2 ∧
    calls_of (on eventName listener options s).1 (trace s2) =
      calls_of (on eventName listener options s).1 (trace s).
Proof.
  intros Hout Hwf Hfuel.
  pose proof (host_outside_total Hout) as Htot.
  pose proof (host_outside_leaves_topics Hout) as Hfr.
  destruct (on_registers eventName listener options s Hwf)
    as (sid & l & -> & Hreg & Hset & Hlen & Hwr & Htr & Hmem).
  set (s1 := (on eventName listener options s).2) in *.
  set (lid := length (wrappers s)) in *.
  set (k := length l). set (n := S k).
  set (W0 := fresh_wrapper eventName listener options sid) in *.
  assert (wrappers s1 !! lid = Some W0) as Hw0.
  { rewrite Hwr. by apply list_lookup_middle. }
  destruct (unlisten_registry lid W0 s1 _ Hw0 Hset) as (Hs' & He' & Hw' & Ht').
  set (s1' := unlisten lid s1) in *.
  assert (set_delete Nat.eqb lid (l ++ [Some lid]) = l ++ [None]) as Hdel.
  { rewrite set_delete_app. f_equal.
    - apply set_delete_fresh. intros j y Hj ->.
      destruct (Hmem _ _ Hj) as (w & Hw & _). apply lookup_lt_Some in Hw.
      subst lid. lia.
    - cbn. by rewrite Nat.eqb_refl. }
  rewrite Hdel in Hs', He'.
  assert (set_size (l ++ [None]) = set_size l) as Hsz.
  { rewrite !set_size_members_length. unfold members.
    rewrite omap_app. cbn. by rewrite app_nil_r. }
  rewrite Hsz in He'.
  change (w_eventName W0) with eventName in He'.
  change (w_listeners W0) with sid in Hs'.
  assert (listeners_of sid s1' = l ++ [None]) as Hl'.
  { unfold listeners_of. rewrite Hs', list_lookup_insert_eq; [done|].
    by eapply lookup_lt_Some. }
  split.
  { intros Hnone. unfold listener_slots in Hlen. rewrite Hnone in Hlen.
    destruct l; [|done]. rewrite He'. cbn. by rewrite lookup_delete_eq. }
  destruct (set_size l =? 0)%nat eqn:Hz.
  { exists s1'. unfold emit. rewrite He', lookup_delete_eq.
    split; [done|]. by rewrite Ht', Htr. }
  apply Nat.eqb_neq in Hz.
  assert (tracked sid k lid n s1') as Htr1.
  { exists (l ++ [None]). split.
    { rewrite Hs', list_lookup_insert_eq; [done|]. by eapply lookup_lt_Some. }
    split. { rewrite length_app. cbn. subst n k. lia. }
    intros j lid' Hj Hjk.
    assert (j < length (l ++ [None : option nat]))%nat as Hlt
      by (by eapply lookup_lt_Some).
    rewrite length_app in Hlt. cbn in Hlt.
    rewrite lookup_app_l in Hj by (subst k; lia).
    destruct (Hmem _ _ Hj) as (w & Hw & Hsid). split.
    - apply lookup_lt_Some in Hw. subst lid. lia.
    - exists w. split; [|done]. rewrite Hw', Hwr. by apply lookup_app_l_Some. }
  set (Q := λ (j : nat) (st : State),
    tracked sid k lid n st ∧
    listeners_of sid st !! k = Some None ∧
    calls_of lid (trace st) = calls_of lid (trace s)).
  assert (∃ s2, emit fuel eventName data s1' = Some s2 ∧ Q n s2)
    as (s2 & Hemit & HQ).
  { unfold emit. rewrite He', Hreg, Hl', Hsz.
    rewrite (proj2 (Nat.eqb_neq _ _)) by done.
    apply (forEach_fixed Q _ _ n).
    - intros j st (Ht & _). by eapply tracked_length.
    - intros j st e (Ht & Hk & Hc) He.
      assert (j ≠ k) as Hjk by (intros ->; congruence).
      destruct (other_step sid k lid n j e data st Htot Hfr Ht He Hjk)
        as (st' & Hrun & Ht2 & Hc' & _ & Hslot & _).
      exists st'. split; [done|]. split; [done|].
      split; [apply Hslot; [done|by right]|]. by rewrite Hc'.
    - intros j st HQ _. exact HQ.
    - lia.
    - subst n k. rewrite Hlen. lia.
    - split; [done|]. split.
      + rewrite Hl'. by apply list_lookup_middle.
      + by rewrite Ht', Htr. }
  exists s2. split; [done|]. by destruct HQ as (_ & _ & ->).
Qed.
End Unlisten.

(** [on] for a topic that is not registered. *)
Lemma on_fresh eventName listener options s :
  eventListeners s !! eventName = None →
  (on eventName listener options s).1 = length (wrappers s) ∧
  eventListeners (on eventName listener options s).2 =
    <[eventName := length (sets s)]> (eventListeners s) ∧
  sets (on eventName listener options s).2 =
    sets s ++ [[Some (length (wrappers s))]] ∧
  wrappers (on eventName listener options s).2 =
    wrappers s ++ [fresh_wrapper eventName listener options (length (sets s))] ∧
  timers (on eventName listener options s).2 = timers s ∧
  now (on eventName listener options s).2 = now s ∧
  trace (on eventName listener options s).2 = trace s.
Proof.
  intros Hnone. unfold on. rewrite Hnone. cbn.
  rewrite alter_app_r_alt by lia. rewrite Nat.sub_diag. done.
Qed.

(** X14. [off] forgets the topic's listener set but not the functions that
    [on] had returned for it.  After [on(e, f)], [off(e)] and a new
    [on(e, g)], calling the function returned by the first [on] finds its
    own, abandoned set empty and unregisters the topic: [g] is still in
    the new set, but the set is no longer reachable and an [emit] calls
    nobody. *)
Theorem stale_unlisten_unregisters_topic `{Host} (fuel : nat)
    (eventName : string) (f g : fn) (o1 o2 : option ListenerOptions)
    (data : value) (s : State) :
  eventListeners s !! eventName = None →
  ∃ lid1 s1 lid2 s3 sid,
    on eventName f o1 s = (lid1, s1) ∧
    on eventName g o2 (off eventName s1) = (lid2, s3) ∧
    lid1 ≠ lid2 ∧
    eventListeners s3 !! eventName = Some sid ∧
    listeners_of sid s3 = [Some lid2] ∧
    eventListeners (unlisten lid1 s3) !! eventName = None ∧
    listeners_of sid (unlisten lid1 s3) = [Some lid2] ∧
    emit fuel eventName data (unlisten lid1 s3) = Some (unlisten lid1 s3).
Proof.
  intros Hnone.
  destruct (on_fresh eventName f o1 s Hnone) as (Hl1 & He1 & Hs1 & Hw1 & _).
  destruct (on eventName f o1 s) as [lid1 s1] eqn:Hon1. cbn [fst snd] in *.
  assert (eventListeners (off eventName s1) !! eventName = None) as Hoff.
  { cbn. by rewrite lookup_delete_eq. }
  destruct (on_fresh eventName g o2 (off eventName s1) Hoff)
    as (Hl2 & He2 & Hs2 & Hw2 & _).
  destruct (on eventName g o2 (off eventName s1)) as [lid2 s3] eqn:Hon2.
  cbn [fst snd] in *.
  change (sets (off eventName s1)) with (sets s1) in *.
  change (wrappers (off eventName s1)) with (wrappers s1) in *.
  rewrite Hs1 in Hs2, He2. rewrite Hw1 in Hw2, Hl2, Hs2.
  rewrite !length_app in *. cbn [length] in *.
  set (sid1 := length (sets s)) in *.
  set (W1 := fresh_wrapper eventName f o1 sid1) in *.
  assert (wrappers s3 !! lid1 = Some W1) as HW1.
  { rewrite Hw2, Hl1, lookup_app_l by (rewrite length_app; cbn; lia).
    by apply list_lookup_middle. }
  assert (sets s3 !! sid1 = Some [Some lid1]) as HS1.
  { rewrite Hs2, Hl1, lookup_app_l by (rewrite length_app; cbn; lia).
    by apply list_lookup_middle. }
  destruct (unlisten_registry lid1 W1 s3 _ HW1 HS1) as (Hs' & He' & _).
  rewrite set_size_members_length in He'.
  cbn [set_delete map entry_is] in Hs', He'. rewrite Nat.eqb_refl in Hs', He'.
  change (w_listeners W1) with sid1 in Hs'.
  change (w_eventName W1) with eventName in He'.
  change ((length (members [None : option nat]) =? 0)%nat) with true in He'.
  exists lid1, s1, lid2, s3, (sid1 + 1)%nat.
  split; [done|]. split; [done|]. split; [lia|].
  split. { by rewrite He2, lookup_insert_eq. }
  assert (sets s3 !! (sid1 + 1)%nat = Some [Some lid2]) as HS2.
  { rewrite Hs2, Hl2. apply list_lookup_middle. rewrite length_app. cbn. lia. }
  split. { unfold listeners_of. by rewrite HS2. }
  split. { by rewrite He', lookup_delete_eq. }
  split. { unfold listeners_of. rewrite Hs', list_lookup_insert_ne by lia.
           by rewrite HS2. }
  unfold emit. by rewrite He', lookup_delete_eq.
Qed.

Lemma stale_unlisten_unregisters_topic_witness :
  ∃ lid1 s1 lid2 s3 sid,
    on "t" 1%nat None (initial_state 0) = (lid1, s1) ∧
    on "t" 2%nat None (off "t" s1) = (lid2, s3) ∧
    lid1 ≠ lid2 ∧
    eventListeners s3 !! "t" = Some sid ∧
    listeners_of sid s3 = [Some lid2] ∧
    eventListeners (unlisten lid1 s3) !! "t" = None ∧
    listeners_of sid (unlisten lid1 s3) = [Some lid2] ∧
    emit (H := quiet_host) 2 "t" (VNum 1) (unlisten lid1 s3)
      = Some (unlisten lid1 s3).
Proof.
  exact (stale_unlisten_unregisters_topic (H := quiet_host) 2 "t" 1%nat 2%nat
           None None (VNum 1) (initial_state 0) eq_refl).
Defined.
(** ** Topics: debounced and throttled listeners *)




Section DebouncedListener.
Context `{Host}.

End DebouncedListener.

Section ThrottledListener.
Context `{Host}.

End ThrottledListener.


(** ** The registry of channels *)

Lemma key_of_Some a s channelName :
  key_of a s = Some channelName → channels s !! channelName = Some a.
Proof.
  unfold key_of.
  destruct (head _) as [[name b]|] eqn:Hhead; [|done].
  intros [= <-]. apply head_Some_elem_of in Hhead.
  apply list_elem_of_filter in Hhead as [Hb Hin]. cbn in Hb. subst b.
  by apply elem_of_map_to_list in Hin.
Qed.



Lemma onclear_of_log_clear a a' s :
  onclear_of a (trace s ++ [(now s, EvOnClear a')]) =
  onclear_of a (trace s) ++ (if (a' =? a)%nat then [now s] else []).
Proof. rewrite onclear_of_app. cbn. by destruct (a' =? a)%nat. Qed.

Section ClearWalk.
Context `{Host}.
Context (Hout : host_outside).
Context (s : State) (Hwf : registry_wf s).
Context (sel : Channel → bool) (body : string * nat → State → option State).
Context (Hbody : ∀ channelName a st ch,
           chan_heap st !! a = Some ch →
           body (channelName, a) st =
             if sel ch then clear channelName st else Some st).


Lemma cleared_by_unregistered a :
  (∀ channelName, channels s !! channelName ≠ Some a) → cleared_by sel s a = false.
Proof.
  intros Hno. unfold cleared_by.
  destruct (key_of a s) as [name|] eqn:Hk; [|done].
  apply key_of_Some in Hk. by apply Hno in Hk.
Qed.




End ClearWalk.

Section ClearAll.
Context `{Host}.


End ClearAll.
(** ** Well-formed broker states *)


Lemma fmap_alter_same {A B} (g : A → B) (f : A → A) (i : nat) (l : list A) :
  (∀ x, g (f x) = g x) → g <$> alter f i l = g <$> l.
Proof.
  intros Hgf. apply list_eq. intros j. rewrite !list_lookup_fmap.
  destruct (decide (i = j)) as [->|Hne].
  - rewrite list_lookup_alter_eq. destruct (l !! j); cbn; [by rewrite Hgf|done].
  - by rewrite list_lookup_alter_ne.
Qed.

Lemma broker_wf_same s s' :
  channels s' = channels s →
  length (chan_heap s') = length (chan_heap s) →
  eventListeners s' = eventListeners s → sets s' = sets s →
  w_listeners <$> wrappers s' = w_listeners <$> wrappers s →
  broker_wf s → broker_wf s'.
Proof.
  intros Hc Hh He Hs Hw [Hreg (Ht1 & Ht2 & Ht3)]. split; [|split; [|split]].
  - intros name a. rewrite Hc, Hh. apply Hreg.
  - intros e sid. rewrite He, Hs. apply Ht1.
  - intros sid l j lid. rewrite Hs, Hw. apply Ht2.
  - intros sid l. rewrite Hs. apply Ht3.
Qed.

Lemma broker_wf_initial t0 : broker_wf (initial_state t0).
Proof.
  split; [|split; [|split]].
  - intros name a Hn. cbn in Hn. by rewrite lookup_empty in Hn.
  - intros e sid He. cbn in He. by rewrite lookup_empty in He.
  - intros sid l j lid Hl. by destruct sid.
  - intros sid l Hl. by destruct sid.
Qed.

Lemma broker_wf_topic eventName s : broker_wf s → topic_wf eventName s.
Proof.
  intros [_ (Ht1 & Ht2 & _)] sid Hsid.
  destruct (lookup_lt_is_Some_2 _ _ (Ht1 _ _ Hsid)) as [l Hl].
  exists l. split; [done|]. intros j lid Hj.
  specialize (Ht2 _ _ _ _ Hl Hj). rewrite list_lookup_fmap in Ht2.
  destruct (wrappers s !! lid) as [w|]; [|done].
  exists w. split; [done|]. cbn in Ht2. congruence.
Qed.

Lemma broker_wf_log e s : broker_wf s → broker_wf (log e s).
Proof. by apply broker_wf_same. Qed.

Lemma broker_wf_update_chan a f s : broker_wf s → broker_wf (update_chan a f s).
Proof. apply broker_wf_same; try done. cbn. by rewrite length_alter. Qed.

Lemma broker_wf_clear_if_set handle s :
  broker_wf s → broker_wf (clear_if_set handle s).
Proof. rewrite clear_if_set_eq. by apply broker_wf_same. Qed.

Lemma broker_wf_alloc channelName ch s :
  channels s !! channelName = None →
  broker_wf s →
  broker_wf (with_channels (<[channelName := length (chan_heap s)]>)
               (with_chan_heap (λ h, h ++ [ch]) s)).
Proof.
  intros Hfresh [Hreg Htop]. split; [|exact Htop].
  intros name a. cbn. rewrite length_app. cbn.
  destruct (decide (name = channelName)) as [->|Hne].
  - rewrite lookup_insert_eq. intros [= <-]. split; [lia|].
    intros name'. destruct (decide (name' = channelName)) as [->|Hne']; [done|].
    rewrite lookup_insert_ne by done. intros Hn'.
    destruct (Hreg _ _ Hn') as [Hlt _]. lia.
  - rewrite lookup_insert_ne by done. intros Hn.
    destruct (Hreg _ _ Hn) as [Hlt Hinj]. split; [lia|].
    intros name'. destruct (decide (name' = channelName)) as [->|Hne'].
    + rewrite lookup_insert_eq. intros [= <-]. lia.
    + rewrite lookup_insert_ne by done. apply Hinj.
Qed.

Lemma broker_wf_unregister channelName s :
  broker_wf s → broker_wf (with_channels (delete channelName) s).
Proof.
  intros [Hreg Htop]. split; [|exact Htop].
  intros name a. cbn. intros Hn.
  apply lookup_delete_Some in Hn as [Hne Hn].
  destruct (Hreg _ _ Hn) as [Hlt Hinj]. split; [done|].
  intros name' Hn'. apply lookup_delete_Some in Hn' as [_ Hn']. by apply Hinj.
Qed.

Lemma set_has_false_members (x : nat) (d : SetData nat) :
  set_has Nat.eqb x d = false → x ∉ members d.
Proof.
  unfold set_has. induction d as [|[y|] d IH]; cbn [existsb entry_is].
  - intros _. apply not_elem_of_nil.
  - rewrite members_cons_Some. intros Hor.
    apply orb_false_iff in Hor as [Hxy Hd].
    apply Nat.eqb_neq in Hxy. apply not_elem_of_cons. split; [done|by apply IH].
  - rewrite members_cons_None. exact IH.
Qed.

Lemma NoDup_set_add (x : nat) (d : SetData nat) :
  NoDup (members d) → NoDup (members (set_add Nat.eqb x d)).
Proof.
  intros Hnd. unfold set_add. destruct (set_has _ _ _) eqn:Hhas; [done|].
  unfold members. rewrite omap_app. cbn.
  apply NoDup_app. split; [done|]. split; [|apply NoDup_singleton].
  intros y Hy Hin. apply list_elem_of_singleton in Hin as ->.
  by apply set_has_false_members in Hhas.
Qed.

Lemma broker_wf_unlisten lid s : broker_wf s → broker_wf (unlisten lid s).
Proof.
  intros Hok. unfold unlisten. destruct (wrappers s !! lid) as [w|]; [|done].
  rewrite clear_if_set_eq.
  set (s2 := update_set _ _ _).
  assert (broker_wf s2) as [Hreg (Ht1 & Ht2 & Ht3)].
  { destruct Hok as [Hreg (Ht1 & Ht2 & Ht3)]. split; [exact Hreg|].
    split; [|split].
    - intros e sid He. subst s2. cbn. rewrite length_alter. by eapply Ht1.
    - intros sid l j x. subst s2. cbn. intros Hl Hj.
      destruct (decide (w_listeners w = sid)) as [<-|Hne].
      + rewrite list_lookup_alter_eq in Hl.
        destruct (sets s !! w_listeners w) as [l0|] eqn:Hl0; [|done].
        injection Hl as <-. apply set_delete_lookup_Some in Hj as [Hj _].
        by eapply Ht2.
      + rewrite list_lookup_alter_ne in Hl by done. by eapply Ht2.
    - intros sid l. subst s2. cbn. intros Hl.
      destruct (decide (w_listeners w = sid)) as [<-|Hne].
      + rewrite list_lookup_alter_eq in Hl.
        destruct (sets s !! w_listeners w) as [l0|] eqn:Hl0; [|done].
        injection Hl as <-. rewrite members_set_delete.
        apply NoDup_filter. by eapply Ht3.
      + rewrite list_lookup_alter_ne in Hl by done. by eapply Ht3. }
  destruct (_ =? _)%nat; [|by split].
  split; [exact Hreg|]. split; [|by split].
  intros e sid He. cbn in He. apply lookup_delete_Some in He as [_ He].
  by eapply Ht1.
Qed.

Lemma broker_wf_on eventName listener options s :
  broker_wf s → broker_wf (on eventName listener options s).2.
Proof.
  intros [Hreg (Ht1 & Ht2 & Ht3)]. unfold on.
  destruct (eventListeners s !! eventName) as [sid|] eqn:He; cbn [fst snd].
  - split; [exact Hreg|]. split; [|split].
    + intros e sid' He'. cbn. rewrite length_alter. by eapply Ht1.
    + intros sid' l j lid. cbn. rewrite fmap_app. cbn. intros Hl Hj.
      destruct (decide (sid = sid')) as [<-|Hne].
      * rewrite list_lookup_alter_eq in Hl.
        destruct (sets s !! sid) as [l0|] eqn:Hl0; [|done].
        injection Hl as <-. unfold set_add in Hj.
        destruct (set_has _ _ _).
        -- apply lookup_app_l_Some. by eapply Ht2.
        -- destruct (decide (j < length l0)%nat) as [Hlt|Hge].
           ++ rewrite lookup_app_l in Hj by done.
              apply lookup_app_l_Some. by eapply Ht2.
           ++ rewrite lookup_app_r in Hj by lia.
              apply list_lookup_singleton_Some in Hj as [_ [= <-]].
              rewrite <-(length_fmap w_listeners). by apply list_lookup_middle.
      * rewrite list_lookup_alter_ne in Hl by done.
        apply lookup_app_l_Some. by eapply Ht2.
    + intros sid' l. cbn. intros Hl.
      destruct (decide (sid = sid')) as [<-|Hne].
      * rewrite list_lookup_alter_eq in Hl.
        destruct (sets s !! sid) as [l0|] eqn:Hl0; [|done].
        injection Hl as <-. by apply NoDup_set_add, (Ht3 sid).
      * rewrite list_lookup_alter_ne in Hl by done. by eapply Ht3.
  - split; [exact Hreg|]. split; [|split].
    + intros e sid' He'. cbn in *. rewrite length_alter, length_app. cbn.
      destruct (decide (e = eventName)) as [->|Hne].
      * rewrite lookup_insert_eq in He'. injection He' as <-. lia.
      * rewrite lookup_insert_ne in He' by done.
        specialize (Ht1 _ _ He'). lia.
    + intros sid' l j lid. cbn. rewrite fmap_app. cbn. intros Hl Hj.
      destruct (decide (sid' < length (sets s))%nat) as [Hlt|Hge].
      * rewrite list_lookup_alter_ne in Hl by lia.
        rewrite lookup_app_l in Hl by done.
        apply lookup_app_l_Some. by eapply Ht2.
      * destruct (decide (sid' = length (sets s))) as [->|Hne].
        -- rewrite list_lookup_alter_eq, list_lookup_middle in Hl by done.
           cbn in Hl. injection Hl as <-.
           apply list_lookup_singleton_Some in Hj as [_ [= <-]].
           rewrite <-(length_fmap w_listeners). by apply list_lookup_middle.
        -- rewrite list_lookup_alter_ne in Hl by done.
           apply lookup_lt_Some in Hl. rewrite length_app in Hl. cbn in Hl. lia.
    + intros sid' l. cbn. intros Hl.
      destruct (decide (sid' < length (sets s))%nat) as [Hlt|Hge].
      * rewrite list_lookup_alter_ne in Hl by lia.
        rewrite lookup_app_l in Hl by done. by eapply Ht3.
      * destruct (decide (sid' = length (sets s))) as [->|Hne].
        -- rewrite list_lookup_alter_eq, list_lookup_middle in Hl by done.
           cbn in Hl. injection Hl as <-. apply NoDup_singleton.
        -- rewrite list_lookup_alter_ne in Hl by done.
           apply lookup_lt_Some in Hl. rewrite length_app in Hl. cbn in Hl. lia.
Qed.
Section WellFormed.
Context `{Host}.
Context (Hpres : host_preserves broker_wf).

Lemma call_hook_wf e f args s s' :
  broker_wf s → call_hook e f args s = Some s' → broker_wf s'.
Proof using Hpres.
  intros Hok. unfold call_hook.
  destruct (invoke f args (log e s)) as [[o s1]|] eqn:Hinv; [cbn|done].
  intros [= <-]. eapply Hpres; [exact Hinv|]. by apply broker_wf_log.
Qed.

Lemma channel_wf channelName cfg s r :
  broker_wf s → channel channelName cfg s = Some r → broker_wf r.2.
Proof using Hpres.
  intros Hok. unfold channel.
  assert (broker_wf (init s)) as Hok0.
  { unfold init. destruct (initialized s); [done|]. by eapply broker_wf_same. }
  destruct (channels (init s) !! channelName) as [a|] eqn:Hn;
    [by intros [= <-]|].
  set (ch := {| signal := _ |}).
  set (s1 := with_channels _ _).
  assert (broker_wf s1) as Hok1 by (by apply broker_wf_alloc).
  set (s2 := match truthy _ with Some t => _ | None => s1 end).
  assert (broker_wf s2) as Hok2.
  { subst s2. destruct (truthy _); [|done].
    apply broker_wf_update_chan. by eapply broker_wf_same. }
  clearbody s2.
  destruct (present _); cbn [mbind option_bind].
  - destruct (cfg ≫= cfg_onInit) as [h|].
    + destruct (call_hook _ _ _ _) as [s3|] eqn:Hrun; [cbn|done].
      intros [= <-]. by eapply call_hook_wf.
    + cbn. by intros [= <-].
  - cbn. by intros [= <-].
Qed.

Lemma executeOnChange_wf channelName a newValue oldValue s s' :
  broker_wf s →
  executeOnChange channelName a newValue oldValue s = Some s' → broker_wf s'.
Proof using Hpres.
  intros Hok. unfold executeOnChange.
  destruct (chan_heap s !! a) as [ch|]; [cbn [mbind option_bind]|done].
  destruct (config ch ≫= cfg_onChange) as [h|]; [|by intros [= <-]].
  destruct (truthy (cfg_debounce _)).
  { intros [= <-]. apply broker_wf_update_chan. rewrite clear_if_set_eq.
    by eapply broker_wf_same. }
  destruct (truthy (cfg_throttle _)).
  - destruct (_ <=? _); [|by intros [= <-]].
    apply call_hook_wf. by apply broker_wf_update_chan.
  - by apply call_hook_wf.
Qed.

Lemma publish_wf fuel channelName v s s' :
  broker_wf s → publish fuel channelName v s = Some s' → broker_wf s'.
Proof using Hpres.
  intros Hok. unfold publish.
  destruct (channels s !! channelName) as [a|].
  2:{ destruct (channel _ _ _) as [r|] eqn:Hr; [cbn|done]. intros [= <-].
      by eapply channel_wf. }
  destruct (chan_heap s !! a) as [ch|] eqn:Hch; [cbn [mbind option_bind]|done].
  case_match; [by intros [= <-]|].
  set (tv := match config ch ≫= cfg_transform with Some t => t v | None => v end).
  set (s2 := if negb (is_memory (storage ch)) then _ else _).
  assert (broker_wf s2) as Hok2.
  { subst s2. unfold saveToStorage.
    destruct (storage ch); cbn [negb is_memory];
      (eapply (broker_wf_same (update_chan a (chan_set_signal tv) s));
       [done|done|done|done|done|by apply broker_wf_update_chan]). }
  clearbody s2.
  set (stage3 := if negb (isInitialized ch) && present tv then _ else _).
  destruct stage3 as [s3|] eqn:H3; [cbn [mbind option_bind]|done].
  assert (broker_wf s3) as Hok3.
  { subst stage3. destruct (negb (isInitialized ch) && present tv).
    - destruct (config ch ≫= cfg_onInit) as [h|].
      + eapply call_hook_wf; [|exact H3]. by apply broker_wf_update_chan.
      + injection H3 as <-. by apply broker_wf_update_chan.
    - by injection H3 as <-. }
  set (stage4 := match config ch ≫= cfg_onChange with Some _ => _ | None => _ end).
  destruct stage4 as [s4|] eqn:H4; [cbn [mbind option_bind]|done].
  assert (broker_wf s4) as Hok4.
  { subst stage4. destruct (config ch ≫= cfg_onChange).
    - by eapply executeOnChange_wf.
    - by injection H4 as <-. }
  apply forEach_preserves; [|done].
  intros cb st st' Hst. by apply call_hook_wf.
Qed.

Lemma clear_wf channelName s s' :
  broker_wf s → clear channelName s = Some s' → broker_wf s'.
Proof using Hpres.
  intros Hok. unfold clear.
  destruct (channels s !! channelName) as [a|]; [|by intros [= <-]].
  destruct (chan_heap s !! a) as [ch|]; [cbn [mbind option_bind]|done].
  set (stage1 := match config ch ≫= cfg_onClear with Some _ => _ | None => _ end).
  destruct stage1 as [s1|] eqn:H1; [cbn [mbind option_bind]|done].
  assert (broker_wf s1) as Hok1.
  { subst stage1. destruct (config ch ≫= cfg_onClear).
    - by eapply call_hook_wf.
    - by injection H1 as <-. }
  destruct (chan_heap s1 !! a) as [ch1|]; [cbn [mbind option_bind]|done].
  intros [= <-]. apply broker_wf_unregister, broker_wf_update_chan.
  rewrite !clear_if_set_eq. unfold removeFromStorage.
  destruct (storage ch1); cbn [negb is_memory with_store];
    by eapply broker_wf_same.
Qed.

Lemma subscribe_wf channelName callback s r :
  broker_wf s → subscribe channelName callback s = Some r → broker_wf r.2.
Proof using Hpres.
  intros Hok. unfold subscribe.
  set (stage1 := if bool_decide _ then _ else _).
  destruct stage1 as [s1|] eqn:H1; [cbn [mbind option_bind]|done].
  assert (broker_wf s1) as Hok1.
  { subst stage1. destruct (bool_decide _); [by injection H1 as <-|].
    destruct (channel _ _ _) as [r0|] eqn:Hr; [|done].
    injection H1 as <-. by eapply channel_wf. }
  destruct (channels s1 !! channelName) as [a|]; [cbn|done].
  intros [= <-]. cbn [snd]. by apply broker_wf_update_chan.
Qed.

Lemma unsubscribe_wf u s s' :
  broker_wf s → unsubscribe u s = Some s' → broker_wf s'.
Proof using Hpres.
  intros Hok. unfold unsubscribe.
  set (s1 := update_chan _ _ s).
  assert (broker_wf s1) as Hok1 by (by apply broker_wf_update_chan).
  destruct (chan_heap s1 !! u_channel u) as [ch|]; [cbn [mbind option_bind]|done].
  destruct (_ && _); [by apply clear_wf|by intros [= <-]].
Qed.

Lemma broker_wf_update_wrapper lid f s :
  (∀ w, w_listeners (f w) = w_listeners w) →
  broker_wf s → broker_wf (update_wrapper lid f s).
Proof.
  intros Hf. apply broker_wf_same; try done. cbn. by apply fmap_alter_same.
Qed.

Lemma executeListener_wf lid v s s' :
  broker_wf s → executeListener lid v s = Some s' → broker_wf s'.
Proof using Hpres.
  intros Hok. unfold executeListener.
  destruct (wrappers s !! lid) as [w|]; [cbn [mbind option_bind]|done].
  destruct (invoke _ _ _) as [[o s1]|] eqn:Hinv;
    [cbn [mbind option_bind fst snd]|done].
  assert (broker_wf s1) as Hok1.
  { eapply Hpres; [exact Hinv|]. by apply broker_wf_log. }
  destruct o; [|by intros [= <-]].
  destruct (truthy_bool _); intros [= <-].
  - apply broker_wf_unlisten. by apply broker_wf_update_wrapper.
  - by apply broker_wf_update_wrapper.
Qed.

Lemma wrappedListener_wf lid data s s' :
  broker_wf s → wrappedListener lid data s = Some s' → broker_wf s'.
Proof using Hpres.
  intros Hok. unfold wrappedListener.
  destruct (wrappers s !! lid) as [w|]; [cbn [mbind option_bind]|done].
  destruct (_ && _); [by intros [= <-]|].
  case_match; [by intros [= <-]|].
  destruct (truthy (w_options w ≫= opt_debounce)).
  { intros [= <-]. apply broker_wf_update_wrapper; [done|].
    rewrite clear_if_set_eq. by eapply broker_wf_same. }
  destruct (truthy (w_options w ≫= opt_throttle)).
  - destruct (_ <=? _); [|by intros [= <-]].
    apply executeListener_wf. by apply broker_wf_update_wrapper.
  - by apply executeListener_wf.
Qed.

Lemma emit_wf fuel eventName data s s' :
  broker_wf s → emit fuel eventName data s = Some s' → broker_wf s'.
Proof using Hpres.
  intros Hok. unfold emit.
  destruct (eventListeners s !! eventName) as [sid|]; [|by intros [= <-]].
  destruct (_ =? _)%nat; [by intros [= <-]|].
  apply forEach_preserves; [|done].
  intros lid st st' Hst. apply wrappedListener_wf. by apply broker_wf_log.
Qed.

Lemma advance_wf fuel T : ∀ s s',
  broker_wf s → advance fuel T s = Some s' → broker_wf s'.
Proof using Hpres.
  induction fuel as [|fuel IH]; intros s s' Hok; cbn [advance].
  - destruct (next_due T s) as [[[i due] tk]|]; [done|].
    intros [= <-]. by eapply broker_wf_same.
  - destruct (next_due T s) as [[[i due] tk]|];
      [|intros [= <-]; by eapply broker_wf_same].
    destruct (run_task _ _) as [s1|] eqn:Hrun; [cbn [mbind option_bind]|done].
    apply IH. revert Hrun.
    assert (broker_wf (with_now (Z.max (now s) due)
                         (with_timers <[i:=None]> s))) as Hok'
      by (by eapply broker_wf_same).
    destruct tk; cbn [run_task].
    + by apply clear_wf.
    + by apply call_hook_wf.
    + by apply executeListener_wf.
Qed.

Lemma run_call_wf fuel c s s' :
  broker_wf s → run_call fuel c s = Some s' → broker_wf s'.
Proof using Hpres.
  intros Hok. destruct c; cbn [run_call].
  - destruct (channel _ _ _) as [r|] eqn:Hr; [cbn|done]. intros [= <-].
    by eapply channel_wf.
  - by apply publish_wf.
  - destruct (subscribe _ _ _) as [r|] eqn:Hr; [cbn|done]. intros [= <-].
    by eapply subscribe_wf.
  - by apply unsubscribe_wf.
  - by apply clear_wf.
  - by apply emit_wf.
  - intros [= <-]. by apply broker_wf_on.
  - intros [= <-]. by apply broker_wf_on.
  - intros [= <-]. by apply broker_wf_unlisten.
  - intros [= <-]. destruct Hok as [Hreg [Ht1 Ht2]].
    split; [exact Hreg|]. split; [|exact Ht2].
    intros e sid He. cbn in He. apply lookup_delete_Some in He as [_ He].
    by eapply Ht1.
  - by apply advance_wf.
Qed.

Lemma run_calls_wf fuel cs : ∀ s s',
  broker_wf s → run_calls fuel cs s = Some s' → broker_wf s'.
Proof using Hpres.
  induction cs as [|c cs IH]; intros s s' Hok; cbn [run_calls].
  - by intros [= <-].
  - destruct (run_call fuel c s) as [s1|] eqn:Hc; [cbn [mbind option_bind]|done].
    apply IH. by eapply run_call_wf.
Qed.
End WellFormed.

Lemma scripted_host_keeps_wf base code fuel depth :
  host_preserves (H := scripted_host base code fuel depth) broker_wf.
Proof.
  induction depth as [|depth IH]; intros f args s o s'; cbn [invoke scripted_host].
  - done.
  - destruct (run_calls _ _ _) as [s1|] eqn:Hrun; [cbn|done].
    intros [= _ <-] Hok. by eapply (run_calls_wf IH).
Qed.

(** X19. Whatever program over the public surface runs from a fresh
    broker, and whatever the callbacks do through that surface, nested to
    any depth, the registries stay well formed: every registered channel
    name denotes an existing channel object and no two names denote the
    same object, every registered topic denotes an existing listener set,
    the members of a listener set are wrapped listeners created for that
    set, and no listener set holds a member twice. *)
Theorem reachable_states_are_well_formed (base : Host)
    (code : fn → list value → list call * outcome) (fuel depth : nat) (t0 : Z)
    (cs : list call) (s' : State) :
  run_calls (H := scripted_host base code fuel depth) fuel cs (initial_state t0)
    = Some s' →
  broker_wf s' ∧ ∀ eventName, topic_wf eventName s'.
Proof.
  intros Hrun.
  assert (broker_wf s') as Hok.
  { eapply (run_calls_wf (scripted_host_keeps_wf base code fuel depth));
      [apply broker_wf_initial|exact Hrun]. }
  split; [exact Hok|]. intros e. by apply broker_wf_topic.
Qed.



Lemma reachable_states_are_well_formed_witness :
  ∃ s',
    run_calls (H := scripted_host quiet_host reentrant_code 5 3) 5
      reentrant_program (initial_state 0) = Some s' ∧
    broker_wf s' ∧ ∀ eventName, topic_wf eventName s'.
Proof.
  destruct (run_calls (H := scripted_host quiet_host reentrant_code 5 3) 5
              reentrant_program (initial_state 0)) as [s'|] eqn:Hrun;
    [|vm_compute in Hrun; discriminate].
  exists s'. split; [reflexivity|].
  exact (reachable_states_are_well_formed quiet_host reentrant_code 5 3 0
           reentrant_program s' Hrun).
Defined.

(** ** Channels: values that cannot be stored *)

(** X20. A value that [JSON.stringify] maps to [undefined] is written to
    the store as the text ["undefined"], which [JSON.parse] rejects: the
    channel holds the published value, but a channel created afterwards
    over that store entry starts with its own [initialValue]. *)
Theorem unserializable_value_is_not_restored `{Host} (fuel : nat)
    (channelName : string) (v : value) (s : State) (a : nat) (ch : Channel)
    (st : StorageType) :
  host_outside →
  channels s !! channelName = Some a →
  chan_heap s !! a = Some ch →
  accepts (config ch) v = true →
  (length (subscribers ch) < fuel)%nat →
  storage ch = st → st ≠ memory →
  JSON_stringify (transformed (config ch) v) = None →
  JSON_parse "undefined" = None →
  ∃ s1,
    publish fuel channelName v s = Some s1 ∧
    getValue channelName s1 = transformed (config ch) v ∧
    store_of st s1 !! storageKey ch = Some "undefined"%string ∧
    ∀ name2 cfg2 s2,
      channels s2 !! name2 = None →
      cfg_storage cfg2 = Some st →
      default ("lithium:" +:+ name2) (cfg_storageKey cfg2) = storageKey ch →
      store_of st s2 !! storageKey ch = store_of st s1 !! storageKey ch →
      ∃ s3,
        channel name2 (Some cfg2) s2 = Some (length (chan_heap s2), s3) ∧
        getValue name2 s3 = cfg_initialValue cfg2.
Proof.
  intros Hout Hn Hch Hacc Hfuel Hst Hmem Hstr Hparse.
  destruct (publish_outside Hout fuel channelName v s a ch Hn Hch Hacc Hfuel)
    as (s1 & ch' & Hrun & Hc & Hh & Hcore & Hss & Hls & _).
  rewrite Hstr in Hss, Hls. cbn in Hss, Hls.
  assert (store_of st s1 !! storageKey ch = Some "undefined"%string) as Hstored.
  { subst st. destruct (storage ch); [done| |]; cbn [store_of].
    - by rewrite Hss, lookup_insert_eq.
    - by rewrite Hls, lookup_insert_eq. }
  exists s1. split; [done|]. split.
  { unfold getValue. rewrite Hc, Hn. cbn. rewrite Hh.
    unfold chan_core in Hcore. by injection Hcore as -> _. }
  split; [done|].
  intros name2 cfg2 s2 Hfresh Hst2 Hkey2 Hsame.
  destruct (channel_new Hout name2 (Some cfg2) s2 Hfresh)
    as (s3 & ch3 & Hrun3 & Hc3 & Hh3 & Hsig & Hsto & Hkey & _).
  change (default empty_config (Some cfg2)) with cfg2 in Hsig, Hsto, Hkey.
  rewrite Hst2 in Hsto. cbn in Hsto.
  exists s3. split; [done|].
  rewrite (getValue_created _ _ _ _ Hc3 Hh3), Hsig, Hkey, Hkey2, Hsto.
  assert (getFromStorage (storageKey ch) st s2 = VUndefined) as ->.
  { unfold getFromStorage. destruct (is_memory st) eqn:Hm; [done|].
    rewrite Hsame, Hstored. cbn. by rewrite Hparse. }
  done.
Qed.

Lemma unserializable_value_is_not_restored_witness :
  ∃ s1,
    publish (H := small_json_host) 1 "a" VUndefined
      (with_channel_a (H := small_json_host) session_config) = Some s1 ∧
    getValue "a" s1 = VUndefined ∧
    sessionStorage s1 !! "lithium:a" = Some "undefined"%string ∧
    ∃ s3,
      channel (H := small_json_host) "a" (Some session_config)
        (with_sessionStorage (λ _, sessionStorage s1) (initial_state 100))
        = Some (0%nat, s3) ∧
      getValue "a" s3 = VNum 1.
Proof.
  assert (length (subscribers session_channel) < 1)%nat as Hfuel by (cbn; lia).
  assert (session ≠ memory) as Hmem by done.
  destruct (unserializable_value_is_not_restored (H := small_json_host) 1 "a"
              VUndefined (with_channel_a (H := small_json_host) session_config)
              0%nat session_channel session small_json_host_outside
              eq_refl eq_refl eq_refl Hfuel eq_refl Hmem eq_refl eq_refl)
    as (s1 & Hrun & Hval & Hstored & Hback).
  exists s1. split; [exact Hrun|]. split; [exact Hval|]. split; [exact Hstored|].
  exact (Hback "a" session_config
           (with_sessionStorage (λ _, sessionStorage s1) (initial_state 100))
           eq_refl eq_refl eq_refl eq_refl).
Defined.
(** ** Topics: the walk of [emit] *)

Lemma wrapped_calls_app tr1 tr2 :
  wrapped_calls (tr1 ++ tr2) = wrapped_calls tr1 ++ wrapped_calls tr2.
Proof. apply omap_app. Qed.

Lemma NoDup_members_lookup (l : SetData nat) i j x :
  NoDup (members l) → l !! i = Some (Some x) → l !! j = Some (Some x) → i = j.
Proof.
  revert i j. induction l as [|[y|] l IH]; intros i j Hnd Hi Hj; [done| |].
  - rewrite members_cons_Some in Hnd. apply NoDup_cons in Hnd as [Hy Hnd].
    assert (∀ k, l !! k = Some (Some y) → False) as Hno.
    { intros k Hk. apply Hy. apply list_elem_of_omap. exists (Some y).
      split; [by eapply list_elem_of_lookup_2|done]. }
    destruct i as [|i], j as [|j]; cbn in Hi, Hj; [done| | |].
    + injection Hi as ->. by destruct (Hno j).
    + injection Hj as ->. by destruct (Hno i).
    + f_equal. by apply IH.
  - rewrite members_cons_None in Hnd.
    destruct i as [|i], j as [|j]; cbn in Hi, Hj; [done..|].
    f_equal. by apply IH.
Qed.

Lemma set_delete_lookup_other (x : nat) (l : SetData nat) i :
  l !! i ≠ Some (Some x) → set_delete Nat.eqb x l !! i = l !! i.
Proof.
  intros Hne. unfold set_delete. change (map ?f l) with (f <$> l).
  rewrite list_lookup_fmap. destruct (l !! i) as [[y|]|]; cbn; [|done..].
  destruct (Nat.eqb_spec x y) as [->|]; [done|done].
Qed.

Section OutsideEmit.
Context `{Host}.
Context (Hout : host_outside).

Lemma executeListener_wrapped_calls lid v st st' :
  executeListener lid v st = Some st' →
  wrapped_calls (trace st') = wrapped_calls (trace st).
Proof using Hout.
  unfold executeListener.
  destruct (wrappers st !! lid) as [w|]; [cbn [mbind option_bind]|done].
  destruct (Hout (w_listener w) [v] (log (EvListener lid v) st)) as [o ->].
  cbn [mbind option_bind fst snd].
  assert (wrapped_calls (trace (log (EvListener lid v) st)) =
          wrapped_calls (trace st)) as Hlog.
  { rewrite trace_log, wrapped_calls_app. cbn. by rewrite app_nil_r. }
  destruct o; [|by intros [= <-]].
  destruct (truthy_bool _); intros [= <-]; [|exact Hlog].
  destruct (unlisten_grows lid
              (update_wrapper lid (wr_set_hasExecuted true)
                 (log (EvListener lid v) st))) as [_ Hg].
  rewrite Hg. exact Hlog.
Qed.

Lemma wrappedListener_wrapped_calls lid data st st' :
  wrappedListener lid data (log (EvWrapped lid data) st) = Some st' →
  wrapped_calls (trace st') = wrapped_calls (trace st) ++ [(lid, data)].
Proof using Hout.
  assert (wrapped_calls (trace (log (EvWrapped lid data) st)) =
          wrapped_calls (trace st) ++ [(lid, data)]) as Hlog.
  { by rewrite trace_log, wrapped_calls_app. }
  unfold wrappedListener. set (st0 := log (EvWrapped lid data) st) in *.
  destruct (wrappers st0 !! lid) as [w|]; [cbn [mbind option_bind]|done].
  destruct (_ && _); [by intros [= <-]|].
  case_match; [by intros [= <-]|].
  destruct (truthy (w_options w ≫= opt_debounce)).
  { intros [= <-]. rewrite clear_if_set_eq. exact Hlog. }
  destruct (truthy (w_options w ≫= opt_throttle)).
  - destruct (_ <=? _); [|by intros [= <-]].
    intros Hex. apply executeListener_wrapped_calls in Hex. by rewrite Hex.
  - intros Hex. apply executeListener_wrapped_calls in Hex. by rewrite Hex.
Qed.

(** The walk of [forEach] over the listener set of a topic. *)
Lemma listeners_walk (fuel : nat) (eventName : string)
    (data : value) (s : State) (sid : nat) :
  broker_wf s →
  eventListeners s !! eventName = Some sid →
  (length (listeners_of sid s) < fuel)%nat →
  ∃ s',
    forEach fuel (listeners_of sid)
      (λ lid s', wrappedListener lid data (log (EvWrapped lid data) s'))
      0 s = Some s' ∧
    wrapped_calls (trace s') =
      wrapped_calls (trace s) ++
      map (λ lid, (lid, data)) (members (listeners_of sid s)).
Proof using Hout.
  intros [_ (Ht1 & Ht2 & Ht3)] Hreg Hfuel.
  destruct (lookup_lt_is_Some_2 _ _ (Ht1 _ _ Hreg)) as [l0 Hl0].
  assert (listeners_of sid s = l0) as Hls by (unfold listeners_of; by rewrite Hl0).
  rewrite Hls in *.
  set (body := λ lid s', wrappedListener lid data (log (EvWrapped lid data) s')).
  set (Q := λ (j : nat) (st : State),
    length (listeners_of sid st) = length l0 ∧
    (∀ i, (j ≤ i)%nat → listeners_of sid st !! i = l0 !! i) ∧
    (∀ i lid, l0 !! i = Some (Some lid) →
       ∃ w, wrappers st !! lid = Some w ∧ w_listeners w = sid) ∧
    wrapped_calls (trace st) =
      wrapped_calls (trace s) ++
      map (λ lid, (lid, data)) (members (take j l0))).
  assert (Q 0%nat s) as HQ0.
  { split; [by rewrite Hls|]. split; [intros i _; by rewrite Hls|].
    split; [|cbn; by rewrite app_nil_r].
    intros i lid Hi. specialize (Ht2 _ _ _ _ Hl0 Hi).
    rewrite list_lookup_fmap in Ht2.
    destruct (wrappers s !! lid) as [w|]; [|done].
    exists w. split; [done|]. cbn in Ht2. congruence. }
  assert (0 ≤ length l0)%nat as Hle by lia.
  assert (length l0 - 0 < fuel)%nat as Hlt by lia.
  pose proof (forEach_fixed Q (listeners_of sid) body (length l0)) as Hwalk.
  destruct Hwalk with (fuel := fuel) (i := 0%nat) (st := s)
    as (s' & Hrun & HQ); [| | |exact Hle|exact Hlt|exact HQ0|].
  - by intros j st (Hlen & _).
  - intros j st e (Hlen & Hrest & Hwr & Htr) Hj.
    rewrite Hrest in Hj by lia.
    destruct (Hwr _ _ Hj) as (w & Hw & Hwsid).
    destruct (wrappedListener_effect e w data st
                (host_outside_total Hout) (host_outside_leaves_topics Hout) Hw)
      as (st' & Hstep & _ & Hothers & (w'' & Hw'' & Hsid'' & _) & Hsets).
    exists st'. split; [exact Hstep|].
    assert (listeners_of sid st' = listeners_of sid st ∨
            listeners_of sid st' = set_delete Nat.eqb e (listeners_of sid st))
      as Hl'.
    { destruct Hsets as [[Hs _]|[Hs _]]; unfold listeners_of; rewrite Hs.
      - by left.
      - right. rewrite Hwsid. rewrite list_lookup_alter_eq.
        by destruct (sets st !! sid). }
    split; [|split; [|split]].
    + destruct Hl' as [-> | ->]; [done|].
      unfold set_delete. by rewrite length_map.
    + intros i Hi. destruct Hl' as [-> | ->]; [apply Hrest; lia|].
      rewrite set_delete_lookup_other; [apply Hrest; lia|].
      rewrite Hrest by lia. intros Hi'.
      assert (i = j) by (by eapply NoDup_members_lookup; [eapply Ht3|..]). lia.
    + intros i lid Hi. destruct (decide (lid = e)) as [->|Hne].
      * exists w''. split; [done|]. congruence.
      * rewrite Hothers by done. by eapply Hwr.
    + rewrite (wrappedListener_wrapped_calls _ _ _ _ Hstep), Htr.
      rewrite (take_S_r _ _ _ Hj). unfold members. rewrite omap_app, map_app.
      cbn. by rewrite <-app_assoc.
  - intros j st (Hlen & Hrest & Hwr & Htr) Hj.
    rewrite Hrest in Hj by lia.
    split; [done|]. split; [intros i Hi; apply Hrest; lia|]. split; [done|].
    rewrite Htr, (take_S_r _ _ _ Hj). unfold members. rewrite omap_app.
    cbn. by rewrite app_nil_r.
  - exists s'. split; [exact Hrun|].
    destruct HQ as (_ & _ & _ & Htr). by rewrite firstn_all in Htr.
Qed.

(** X21. When the callbacks stay outside the broker, [emit] calls the
    wrapped listeners that are members of the topic's set when it starts,
    each of them once and in the order of their registration, and no
    other: a listener that throws, and a [once] listener that removes
    itself, do not keep the listeners after them from being called. *)
Theorem emit_calls_members_in_order (fuel : nat) (eventName : string)
    (data : value) (s : State) (sid : nat) :
  broker_wf s →
  eventListeners s !! eventName = Some sid →
  (length (listeners_of sid s) < fuel)%nat →
  ∃ s',
    emit fuel eventName data s = Some s' ∧
    wrapped_calls (trace s') =
      wrapped_calls (trace s) ++
      map (λ lid, (lid, data)) (members (listeners_of sid s)).
Proof using Hout.
  intros Hwf Hreg Hfuel. unfold emit. rewrite Hreg.
  destruct (set_size (listeners_of sid s) =? 0)%nat eqn:Hsz.
  - apply Nat.eqb_eq in Hsz. rewrite set_size_members_length in Hsz.
    apply length_zero_iff_nil in Hsz. rewrite Hsz. cbn.
    exists s. by rewrite app_nil_r.
  - exact (listeners_walk fuel eventName data s sid Hwf Hreg Hfuel).
Qed.

(** X13. Calling the function returned by [on] takes the listener out of
    its topic, and only that listener: the next [emit] of the topic does
    not call it, and walks the listeners that the topic had before the
    [on], each of them once and in the order of their registration.  When
    the topic had no listener before the [on], it is no longer registered
    afterwards. *)
Theorem unlisten_stops_listener (fuel : nat) (eventName : string)
    (listener : fn) (options : option ListenerOptions) (data : value)
    (s : State) :
  broker_wf s →
  (listener_slots eventName s + 1 < fuel)%nat →
  (eventListeners s !! eventName = None →
   eventListeners
     (unlisten (on eventName listener options s).1
        (on eventName listener options s).2) !! eventName = None) ∧
  ((on eventName listener options s).1 ∉ topic_members eventName s) ∧
  ∃ s2,
    emit fuel eventName data
      (unlisten (on eventName listener options s).1
         (on eventName listener options s).2) = Some s2 ∧
    calls_of (on eventName listener options s).1 (trace s2) =
      calls_of (on eventName listener options s).1 (trace s) ∧
    wrapped_calls (trace s2) =
      wrapped_calls (trace s) ++
      map (λ lid, (lid, data)) (topic_members eventName s).
Proof using Hout.
  intros Hwf Hfuel.
  pose proof (broker_wf_topic eventName s Hwf) as Htwf.
  destruct (unlisten_silences fuel eventName listener options data s Hout
              Htwf Hfuel) as [Hgone (s2 & Hemit & Hcalls)].
  split; [exact Hgone|].
  destruct (on_registers eventName listener options s Htwf)
    as (sid & l & Hlid & Hreg & Hset & Hlen & Hwr & Htr & Hmem).
  destruct (on_registers_members eventName listener options s Htwf)
    as (sid' & l' & Hreg' & Hset' & Hmems).
  rewrite Hreg in Hreg'. injection Hreg' as <-.
  rewrite Hset in Hset'. injection Hset' as Heq.
  apply app_inv_tail in Heq. subst l'.
  split.
  { rewrite <-Hmems, Hlid. intros Hin.
    apply list_elem_of_omap in Hin as ([y|] & Hy & Heq); [|done].
    cbn in Heq. injection Heq as ->.
    apply list_elem_of_lookup_1 in Hy as [j Hj].
    destruct (Hmem _ _ Hj) as (w & Hw & _). apply lookup_lt_Some in Hw. lia. }
  exists s2. split; [exact Hemit|]. split; [exact Hcalls|].
  rewrite Hlid in Hemit.
  set (s1 := (on eventName listener options s).2) in *.
  set (lid := length (wrappers s)) in *.
  set (W0 := fresh_wrapper eventName listener options sid) in *.
  assert (wrappers s1 !! lid = Some W0) as Hw0.
  { rewrite Hwr. by apply list_lookup_middle. }
  destruct (unlisten_registry lid W0 s1 _ Hw0 Hset) as (Hs' & He' & _ & Ht').
  assert (broker_wf (unlisten lid s1)) as Hwf'
    by (apply broker_wf_unlisten, broker_wf_on, Hwf).
  set (s1' := unlisten lid s1) in *.
  assert (set_delete Nat.eqb lid (l ++ [Some lid]) = l ++ [None]) as Hdel.
  { rewrite set_delete_app. f_equal.
    - apply set_delete_fresh. intros j y Hj ->.
      destruct (Hmem _ _ Hj) as (w & Hw & _). apply lookup_lt_Some in Hw.
      subst lid. lia.
    - cbn. by rewrite Nat.eqb_refl. }
  rewrite Hdel in Hs', He'.
  assert (members (l ++ [None]) = members l) as Hml.
  { unfold members. rewrite omap_app. cbn. by rewrite app_nil_r. }
  rewrite set_size_members_length, Hml in He'.
  change (w_eventName W0) with eventName in He'.
  change (w_listeners W0) with sid in Hs'.
  rewrite <-Hmems.
  destruct (length (members l) =? 0)%nat eqn:Hz.
  - apply Nat.eqb_eq, length_zero_iff_nil in Hz. rewrite Hz. cbn.
    unfold emit in Hemit. rewrite He', lookup_delete_eq in Hemit.
    injection Hemit as <-. by rewrite app_nil_r, Ht', Htr.
  - assert (eventListeners s1' !! eventName = Some sid) as Hreg1
      by (by rewrite He').
    assert (listeners_of sid s1' = l ++ [None]) as Hl'.
    { unfold listeners_of. rewrite Hs', list_lookup_insert_eq; [done|].
      by eapply lookup_lt_Some. }
    destruct (listeners_walk fuel eventName data s1' sid Hwf' Hreg1)
      as (s2' & Hemit' & Hwalk).
    { rewrite Hl', length_app, Hlen. cbn. lia. }
    unfold emit in Hemit. rewrite Hreg1, Hl' in Hemit.
    rewrite set_size_members_length, Hml, Hz in Hemit.
    rewrite Hemit in Hemit'. injection Hemit' as <-.
    by rewrite Hwalk, Hl', Hml, Ht', Htr.
Qed.
End OutsideEmit.

Lemma emit_calls_members_in_order_witness :
  ∃ s',
    emit (H := throwing_host) 4 "t" (VNum 5) three_listeners = Some s' ∧
    wrapped_calls (trace s') =
      [(0%nat, VNum 5); (1%nat, VNum 5); (2%nat, VNum 5)].
Proof.
  assert (broker_wf three_listeners) as Hwf.
  { unfold three_listeners, once. do 3 apply broker_wf_on. apply broker_wf_initial. }
  assert (length (listeners_of 0 three_listeners) < 4)%nat as Hfuel
    by (vm_compute; lia).
  exact (emit_calls_members_in_order (H := throwing_host)
           throwing_host_outside 4 "t" (VNum 5) three_listeners 0%nat
           Hwf eq_refl Hfuel).
Defined.

Lemma unlisten_stops_listener_witness :
  (∃ s2,
     emit (H := quiet_host) 3 "t" (VNum 6)
       (unlisten 1 (on "t" 2%nat None one_listener).2) = Some s2 ∧
     calls_of 1 (trace s2) = [] ∧
     wrapped_calls (trace s2) = [(0%nat, VNum 6)]) ∧
  eventListeners
    (unlisten 0 (on "t" 1%nat None (initial_state 0)).2) !! "t" = None.
Proof.
  assert (broker_wf one_listener) as Hwf.
  { unfold one_listener. apply broker_wf_on, broker_wf_initial. }
  assert (listener_slots "t" one_listener + 1 < 3)%nat as Hfuel
    by (vm_compute; lia).
  assert (listener_slots "t" (initial_state 0) + 1 < 3)%nat as Hfuel0
    by (vm_compute; lia).
  split.
  - destruct (unlisten_stops_listener (H := quiet_host) quiet_host_outside
                3 "t" 2%nat None (VNum 6) one_listener Hwf Hfuel)
      as (_ & _ & s2 & Hrun & Hcalls & Hwalk).
    exists s2. split; [exact Hrun|]. split; [exact Hcalls|exact Hwalk].
  - exact (proj1 (unlisten_stops_listener (H := quiet_host) quiet_host_outside
                    3 "t" 1%nat None (VNum 6) (initial_state 0)
                    (broker_wf_initial 0) Hfuel0) eq_refl).
Defined.

(** ** The delay controller *)

Lemma delay_get_new `{Delay.Caller} getter ms opts t0 :
  Delay.get getter ms opts (Delay.new_element t0) =
  (placeholder_of opts,
   {| Delay.controller :=
        Some (Delay.set_timeoutId (Some 1)
                (Delay.new_DelayController getter ms opts));
      Delay.isConnected := true; Delay.now := t0;
      Delay.timers := [Some (t0 + timer_delay ms)];
      Delay.suspended := 0; Delay.trace := [] |}).
Proof.
  unfold Delay.get, placeholder_of. cbn. f_equal.
  unfold Delay.getValue. cbn. unfold Delay.nullish_or.
  destruct opts as [o|]; cbn; [|done].
  by destruct (Delay.placeholder o).
Qed.

(** X22. A getter decorated with [delay(ms)], for [ms] that fits the
    32-bit delay of a timer ([ms < 2^31]), and no loader shows the
    placeholder ([null] without one) from its first read until [ms]
    milliseconds later; at that moment the original getter is called
    once, the host is asked to update, and the getter shows what the
    original getter returned.  When the original getter throws, it is
    called a second time, no update is requested, and the getter shows
    [null] from then on, not the placeholder. *)
Theorem delayed_content_appears_when_due `{Delay.Caller} (getter : fn) (ms : Z)
    (opts : option Delay.DelayOptions) (t0 T : Z) :
  opts ≫= Delay.loader = None →
  ms < 2147483648 →
  t0 ≤ T →
  let due := t0 + Z.max 0 ms in
  let r := Delay.get getter ms opts (Delay.new_element t0) in
  r.1 = placeholder_of opts ∧
  ∃ e,
    Delay.advance 1 T r.2 = Some e ∧
    if T <? due
    then (Delay.get getter ms opts e).1 = placeholder_of opts ∧
         Delay.trace e = []
    else
      match Delay.call_getter getter due with
      | Some v =>
          (Delay.get getter ms opts e).1 = v ∧
          Delay.trace e = [(due, Delay.GetterCalled getter);
                           (due, Delay.UpdateRequested)]
      | None =>
          (Delay.get getter ms opts e).1 = VNull ∧
          Delay.trace e = [(due, Delay.GetterCalled getter);
                           (due, Delay.GetterCalled getter)]
      end.
Proof.
  intros Hloader Hms HT due r. subst r due.
  rewrite delay_get_new, timer_delay_small by done. cbn [fst snd].
  remember (t0 + Z.max 0 ms) as due eqn:Hdue.
  split; [done|].
  assert (Delay.loader (default {| Delay.placeholder := VUndefined;
                                   Delay.loader := None |} opts) = None) as Hl.
  { destruct opts as [o|]; [exact Hloader|done]. }
  cbn [Delay.advance]. unfold Delay.next_due. cbn [Delay.timers Delay.earliest].
  destruct (Z.leb_spec due T) as [Hle|Hlt].
  - assert ((T <? due) = false) as -> by lia.
    assert (Z.max t0 due = due) as Hmax by lia.
    unfold Delay.load, Delay.load_rest, Delay.load_catch. cbn.
    rewrite Hl, Hmax.
    destruct (Delay.call_getter getter due) as [v|] eqn:Hg; cbn.
    + eexists. split; [reflexivity|]. cbn. done.
    + eexists. split; [reflexivity|]. cbn. done.
  - assert ((T <? due) = true) as -> by lia.
    eexists. split; [reflexivity|]. cbn. split; [|done].
    unfold placeholder_of, Delay.getValue, Delay.nullish_or. cbn.
    destruct opts as [o|]; cbn; [|done]. by destruct (Delay.placeholder o).
Qed.


Lemma delayed_content_appears_when_due_witness :
  (Delay.get 0 50 (Some waiting_options)
     (Delay.new_element 100)).1 = VStr "wait" ∧
  ∃ e,
    Delay.advance (H := clock_caller) 1 150
      (Delay.get 0 50 (Some waiting_options)
         (Delay.new_element 100)).2 = Some e ∧
    (Delay.get 0 50 (Some waiting_options) e).1 = VNum 150 ∧
    Delay.trace e = [(150, Delay.GetterCalled 0); (150, Delay.UpdateRequested)].
Proof.
  assert (100 ≤ 150) as HT by lia.
  assert ((50 : Z) < 2147483648) as Hms by done.
  exact (delayed_content_appears_when_due (H := clock_caller) 0 50
           (Some waiting_options) 100 150 eq_refl Hms HT).
Defined.

Lemma placeholder_of_new getter ms opts :
  Delay.getValue (Delay.new_DelayController getter ms opts) = placeholder_of opts.
Proof.
  unfold placeholder_of, Delay.getValue, Delay.nullish_or. cbn.
  destruct opts as [o|]; cbn; [|done]. by destruct (Delay.placeholder o).
Qed.

(** X23. With a loader, and a delay that fits the 32-bit delay of a timer
    ([ms < 2^31]), the original getter is not called when the delay is
    over but when the promise of the loader settles, and it is called
    whether that promise is fulfilled or rejected: until then the getter
    keeps showing the placeholder, afterwards it shows the content.  A
    loader that throws when it is called does not delay the content
    either. *)
Theorem failed_loader_does_not_block_content `{Delay.Caller} (getter : fn)
    (ms : Z) (o : Delay.DelayOptions) (l : fn) (t0 T : Z) :
  Delay.loader o = Some l →
  ms < 2147483648 →
  t0 + Z.max 0 ms ≤ T →
  let due := t0 + Z.max 0 ms in
  ∃ e1,
    Delay.advance 1 T
      (Delay.get getter ms (Some o) (Delay.new_element t0)).2 = Some e1 ∧
    if Delay.call_loader l due
    then
      (Delay.get getter ms (Some o) e1).1 = placeholder_of (Some o) ∧
      Delay.trace e1 = [(due, Delay.LoaderCalled l)] ∧
      ∀ T2 fulfilled v, T ≤ T2 → Delay.call_getter getter T2 = Some v →
        ∃ e2,
          Delay.advance 0 T2 e1 = Some e2 ∧
          (Delay.get getter ms (Some o) (Delay.resume fulfilled e2)).1 = v ∧
          Delay.trace (Delay.resume fulfilled e2) =
            [(due, Delay.LoaderCalled l); (T2, Delay.GetterCalled getter);
             (T2, Delay.UpdateRequested)]
    else
      ∀ v, Delay.call_getter getter due = Some v →
        (Delay.get getter ms (Some o) e1).1 = v ∧
        Delay.trace e1 =
          [(due, Delay.LoaderCalled l); (due, Delay.GetterCalled getter);
           (due, Delay.UpdateRequested)].
Proof.
  intros Hl Hms HT due. subst due.
  rewrite delay_get_new, timer_delay_small by done. cbn [fst snd].
  remember (t0 + Z.max 0 ms) as due eqn:Hdue.
  cbn [Delay.advance]. unfold Delay.next_due. cbn [Delay.timers Delay.earliest].
  assert ((due <=? T) = true) as -> by lia.
  assert (Z.max t0 due = due) as Hmax by lia.
  unfold Delay.load, Delay.load_catch. cbn. rewrite Hl, Hmax.
  destruct (Delay.call_loader l due) eqn:Hload; cbn.
  - eexists. split; [reflexivity|]. cbn.
    split; [apply (placeholder_of_new getter ms (Some o))|]. split; [done|].
    intros T2 fulfilled v HT2 Hv.
    assert (Z.max (Z.max due T) T2 = T2) as Hmax2 by lia.
    eexists. split; [reflexivity|].
    unfold Delay.resume, Delay.load_rest, Delay.load_catch. cbn.
    rewrite Hmax2, Hv. by destruct fulfilled.
  - destruct (Delay.call_getter getter due) as [v|] eqn:Hv; cbn.
    + eexists. split; [reflexivity|]. cbn. by intros ? [= <-].
    + eexists. split; [reflexivity|]. done.
Qed.

Lemma failed_loader_does_not_block_content_witness :
  ∃ e1,
    Delay.advance (H := clock_caller) 1 200
      (Delay.get 0 50 (Some (loading_options 2)) (Delay.new_element 100)).2
      = Some e1 ∧
    (Delay.get 0 50 (Some (loading_options 2)) e1).1 = VStr "wait" ∧
    ∃ e2,
      Delay.advance (H := clock_caller) 0 300 e1 = Some e2 ∧
      (Delay.get 0 50 (Some (loading_options 2))
         (Delay.resume (H := clock_caller) false e2)).1 = VNum 300.
Proof.
  assert (100 + Z.max 0 50 ≤ 200) as HT by (cbn; lia).
  assert ((50 : Z) < 2147483648) as Hms by done.
  destruct (failed_loader_does_not_block_content (H := clock_caller) 0 50
              (loading_options 2) 2 100 200 eq_refl Hms HT)
    as (e1 & Hrun & Hshown & _ & Hlater).
  exists e1. split; [exact Hrun|]. split; [exact Hshown|].
  assert (200 ≤ 300) as HT2 by lia.
  destruct (Hlater 300 false (VNum 300) HT2 eq_refl) as (e2 & Hrun2 & Hv & _).
  exists e2. split; [exact Hrun2|exact Hv].
Defined.

Section DelayTimers.
Context `{Delay.Caller}.

Lemma load_catch_keeps_timers e :
  Delay.timers (Delay.load_catch e) = Delay.timers e ∧
  Delay.now (Delay.load_catch e) = Delay.now e.
Proof.
  unfold Delay.load_catch. destruct (Delay.controller e) as [c|]; [|done].
  by destruct (Delay.call_getter _ _).
Qed.

Lemma load_rest_keeps_timers e :
  Delay.timers (Delay.load_rest e) = Delay.timers e ∧
  Delay.now (Delay.load_rest e) = Delay.now e.
Proof.
  unfold Delay.load_rest. destruct (Delay.controller e) as [c|]; [|done].
  destruct (Delay.call_getter _ _); [done|].
  by destruct (load_catch_keeps_timers
                 (Delay.log (Delay.GetterCalled (Delay.originalGetter c))
                    (Delay.with_controller (Delay.set_isLoaded true) e)))
    as [-> ->].
Qed.

Lemma load_keeps_timers e :
  Delay.timers (Delay.load e) = Delay.timers e ∧
  Delay.now (Delay.load e) = Delay.now e.
Proof.
  unfold Delay.load. destruct (Delay.controller e) as [c|]; [|done].
  destruct (Delay.isLoaded c); [done|].
  destruct (Delay.loader (Delay.options c)) as [l|].
  - destruct (Delay.call_loader l (Delay.now e)); [done|].
    by destruct (load_catch_keeps_timers (Delay.log (Delay.LoaderCalled l) e))
      as [-> ->].
  - apply load_rest_keeps_timers.
Qed.

(** Nothing is due: only the clock moves. *)
Lemma advance_idle fuel T e :
  Delay.next_due T e = None →
  Delay.advance fuel T e = Some (Delay.with_now (Z.max (Delay.now e) T) e).
Proof. intros Hnone. destruct fuel; cbn [Delay.advance]; by rewrite Hnone. Qed.

(** One timer is due, and none after it. *)
Lemma advance_fires_one T e i due :
  Delay.next_due T e = Some (i, due) →
  Delay.earliest 0 (<[i := None]> (Delay.timers e)) None = None →
  Delay.advance 1 T e =
    Some (Delay.with_now (Z.max (Z.max (Delay.now e) due) T)
            (Delay.load (Delay.with_now (Z.max (Delay.now e) due)
                           (Delay.with_timers (<[i := None]>) e)))).
Proof.
  intros Hdue Hnone. cbn [Delay.advance]. rewrite Hdue.
  set (e1 := Delay.with_now _ _).
  destruct (load_keeps_timers e1) as [Ht Hn].
  unfold Delay.next_due. rewrite Ht. subst e1. cbn [Delay.timers Delay.with_now Delay.with_timers].
  rewrite Hnone, Hn. done.
Qed.
End DelayTimers.

(** X24. For a delay that fits the 32-bit delay of a timer
    ([ms < 2^31]), disconnecting the host before the delay is over cancels
    the load: however long the element stays disconnected, the original
    getter and the loader are not called and the getter keeps showing the
    placeholder.  Connecting the host again starts the whole delay anew,
    counted from the moment of the reconnection. *)
Theorem disconnect_cancels_the_delay `{Delay.Caller} (getter : fn) (ms : Z)
    (opts : option Delay.DelayOptions) (t0 T1 T2 : Z) :
  ms < 2147483648 →
  t0 ≤ T1 → T1 < t0 + Z.max 0 ms → T1 ≤ T2 →
  ∃ e1 e2,
    Delay.advance 0 T1
      (Delay.get getter ms opts (Delay.new_element t0)).2 = Some e1 ∧
    Delay.advance 0 T2 (Delay.disconnectedCallback e1) = Some e2 ∧
    (Delay.get getter ms opts e2).1 = placeholder_of opts ∧
    Delay.trace e2 = [] ∧
    ∀ T3, T2 ≤ T3 →
      ∃ e3,
        Delay.advance 1 T3 (Delay.connectedCallback e2) = Some e3 ∧
        if T3 <? T2 + Z.max 0 ms
        then (Delay.get getter ms opts e3).1 = placeholder_of opts ∧
             Delay.trace e3 = []
        else ∀ v, opts ≫= Delay.loader = None →
               Delay.call_getter getter (T2 + Z.max 0 ms) = Some v →
               (Delay.get getter ms opts e3).1 = v.
Proof.
  intros Hms HT1 Hdue HT2.
  rewrite delay_get_new, timer_delay_small by done. cbn [fst snd].
  remember (Z.max 0 ms) as d eqn:Hd.
  set (c1 := Delay.set_timeoutId (Some 1)
               (Delay.new_DelayController getter ms opts)).
  set (e0 := {| Delay.controller := Some c1; Delay.isConnected := true;
                Delay.now := t0; Delay.timers := [Some (t0 + d)];
                Delay.suspended := 0; Delay.trace := [] |}).
  set (e1 := {| Delay.controller := Some c1; Delay.isConnected := true;
                Delay.now := T1; Delay.timers := [Some (t0 + d)];
                Delay.suspended := 0; Delay.trace := [] |}).
  set (e2 := {| Delay.controller := Some c1; Delay.isConnected := false;
                Delay.now := T2; Delay.timers := [None];
                Delay.suspended := 0; Delay.trace := [] |}).
  exists e1, e2.
  assert (Delay.advance 0 T1 e0 = Some e1) as ->.
  { rewrite advance_idle.
    - unfold Delay.with_now, e0, e1. cbn [Delay.now]. by rewrite Z.max_r by lia.
    - unfold Delay.next_due, e0. cbn [Delay.timers Delay.earliest].
      by rewrite (proj2 (Z.leb_gt _ _)) by lia. }
  split; [done|].
  assert (Delay.disconnectedCallback e1 =
          {| Delay.controller := Some c1; Delay.isConnected := false;
             Delay.now := T1; Delay.timers := [None];
             Delay.suspended := 0; Delay.trace := [] |}) as -> by reflexivity.
  split.
  { rewrite advance_idle; [|reflexivity].
    unfold Delay.with_now, e2. cbn [Delay.now]. by rewrite Z.max_r by lia. }
  split; [exact (placeholder_of_new getter ms opts)|]. split; [done|].
  intros T3 HT3.
  assert (Delay.connectedCallback e2 =
          {| Delay.controller := Some (Delay.set_timeoutId (Some 2) c1);
             Delay.isConnected := true; Delay.now := T2;
             Delay.timers := [None; Some (T2 + d)];
             Delay.suspended := 0; Delay.trace := [] |}) as ->.
  { unfold Delay.connectedCallback, Delay.hostConnected, e2.
    cbn [Delay.controller Delay.with_isConnected Delay.with_controller
         Delay.with_timers Delay.timers Delay.now Delay.isConnected
         Delay.suspended Delay.trace fmap option_fmap option_map app length].
    change (Delay.delay c1) with ms.
    rewrite timer_delay_small by done. by rewrite <-Hd. }
  destruct (Z.ltb_spec T3 (T2 + d)) as [Hlt|Hle].
  - rewrite advance_idle.
    + eexists. split; [reflexivity|].
      split; [exact (placeholder_of_new getter ms opts)|done].
    + unfold Delay.next_due. cbn [Delay.timers Delay.earliest].
      by rewrite (proj2 (Z.leb_gt _ _)) by lia.
  - rewrite (advance_fires_one _ _ 1%nat (T2 + d)).
    + eexists. split; [reflexivity|]. intros v Hloader Hv.
      cbn [Delay.now]. rewrite (Z.max_r T2 (T2 + d)) by lia.
      assert (Delay.loader (default {| Delay.placeholder := VUndefined;
                                       Delay.loader := None |} opts) = None)
        as Hl by (destruct opts as [o|]; [exact Hloader|done]).
      unfold Delay.load.
      cbn [Delay.controller Delay.with_now Delay.with_timers Delay.isLoaded
           Delay.set_timeoutId c1 Delay.new_DelayController Delay.options
           Delay.loader].
      rewrite Hl. unfold Delay.load_rest. cbn. rewrite Hv. reflexivity.
    + unfold Delay.next_due. cbn [Delay.timers Delay.earliest].
      by rewrite (proj2 (Z.leb_le _ _)) by lia.
    + reflexivity.
Qed.

Lemma disconnect_cancels_the_delay_witness :
  ∃ e1 e2,
    Delay.advance (H := clock_caller) 0 120
      (Delay.get 0 50 (Some waiting_options) (Delay.new_element 100)).2
      = Some e1 ∧
    Delay.advance (H := clock_caller) 0 1000 (Delay.disconnectedCallback e1)
      = Some e2 ∧
    (Delay.get 0 50 (Some waiting_options) e2).1 = VStr "wait" ∧
    Delay.trace e2 = [].
Proof.
  assert (100 ≤ 120) as H1 by lia.
  assert (120 < 100 + Z.max 0 50) as H2 by (cbn; lia).
  assert (120 ≤ 1000) as H3 by lia.
  assert ((50 : Z) < 2147483648) as Hms by done.
  destruct (disconnect_cancels_the_delay (H := clock_caller) 0 50
              (Some waiting_options) 100 120 1000 Hms H1 H2 H3)
    as (e1 & e2 & Hr1 & Hr2 & Hshown & Htr & _).
  exists e1, e2. split; [exact Hr1|]. split; [exact Hr2|].
  split; [exact Hshown|exact Htr].
Defined.

Lemma delay_earliest_spec (ts : list (option Z)) : ∀ i best j due,
  Delay.earliest i ts best = Some (j, due) →
  best = Some (j, due) ∨ ∃ k, j = (i + k)%nat ∧ ts !! k = Some (Some due).
Proof.
  induction ts as [|t ts IH]; intros i best j due; cbn [Delay.earliest].
  - by left.
  - intros He. apply IH in He as [He|(k & -> & Hk)].
    + destruct t as [d|]; [|by left].
      destruct best as [[bi bd]|].
      * destruct (d <? bd); [|by left].
        injection He as <- <-. right. exists 0%nat. split; [lia|done].
      * injection He as <- <-. right. exists 0%nat. split; [lia|done].
    + right. exists (S k). split; [lia|done].
Qed.

Lemma members_fired (ts : list (option Z)) k due :
  ts !! k = Some (Some due) →
  (length (members (<[k := None]> ts)) < length (members ts))%nat.
Proof.
  revert k. induction ts as [|[d|] ts IH]; intros k Hk; [done| |].
  - destruct k as [|k].
    + change (<[0%nat:=None]> (Some d :: ts)) with (None :: ts).
      rewrite members_cons_None, members_cons_Some. cbn [length]. lia.
    + change (<[S k:=None]> (Some d :: ts)) with (Some d :: <[k:=None]> ts).
      rewrite !members_cons_Some. cbn [length]. apply IH in Hk. lia.
  - destruct k as [|k]; [done|].
    change (<[S k:=None]> (None :: ts)) with (None :: <[k:=None]> ts).
    rewrite !members_cons_None. by apply IH.
Qed.

Lemma members_length_le {A} (d : SetData A) :
  (length (members d) ≤ length d)%nat.
Proof.
  induction d as [|[x|] d IH]; [done| |].
  - rewrite members_cons_Some. cbn. lia.
  - rewrite members_cons_None. cbn. lia.
Qed.

Lemma delay_get_existing getter ms opts e c :
  Delay.controller e = Some c →
  Delay.get getter ms opts e = (Delay.getValue c, e).
Proof.
  intros Hc. unfold Delay.get. rewrite Hc. cbv zeta. by rewrite Hc.
Qed.

Section LoadedContent.
Context `{Delay.Caller}.

Lemma load_loaded v tr e : loaded_with v tr e → Delay.load e = e.
Proof.
  intros [(c & Hc & Hl & _) _]. unfold Delay.load. by rewrite Hc, Hl.
Qed.

Lemma advance_loaded v tr (fuel : nat) (T : Z) : ∀ e,
  loaded_with v tr e →
  (length (members (Delay.timers e)) < fuel)%nat →
  ∃ e', Delay.advance fuel T e = Some e' ∧ loaded_with v tr e' ∧
        length (Delay.timers e') = length (Delay.timers e).
Proof.
  induction fuel as [|fuel IH]; intros e Hloaded Hfuel; [lia|].
  cbn [Delay.advance]. unfold Delay.next_due.
  destruct (Delay.earliest 0 (Delay.timers e) None) as [[i due]|] eqn:He.
  - destruct (due <=? T); [|by eexists].
    apply delay_earliest_spec in He as [He|(k & -> & Hk)]; [done|].
    cbn [Nat.add].
    set (e1 := Delay.with_now _ _).
    assert (loaded_with v tr e1) as Hloaded1 by exact Hloaded.
    rewrite (load_loaded _ _ _ Hloaded1).
    destruct (IH e1 Hloaded1) as (e' & Hrun & Hloaded' & Hlen).
    { subst e1. cbn [Delay.timers Delay.with_now Delay.with_timers].
      apply members_fired in Hk. lia. }
    exists e'. split; [exact Hrun|]. split; [exact Hloaded'|].
    rewrite Hlen. subst e1. cbn [Delay.timers Delay.with_now Delay.with_timers].
    by rewrite length_insert.
  - by eexists.
Qed.

(** X25. Once the content is loaded it is never computed again: whatever
    happens to the element afterwards (reads of the getter, the host
    being disconnected and connected again, time passing), the original
    getter and the loader are not called any more, no update is
    requested, and the getter keeps showing the value that the original
    getter returned at the time of the load. *)
Theorem loaded_content_is_never_refreshed (getter : fn) (ms : Z)
    (opts : option Delay.DelayOptions) (fuel : nat) (sts : list page_step)
    (v : value) (tr : list (Z * Delay.effect)) (e : Delay.Element) :
  loaded_with v tr e →
  (length (Delay.timers e) + length sts < fuel)%nat →
  ∃ e',
    run_page_steps getter ms opts fuel sts e = Some e' ∧
    (Delay.get getter ms opts e').1 = v ∧
    Delay.trace e' = tr.
Proof.
  revert e. induction sts as [|st sts IH]; intros e Hloaded Hfuel.
  - exists e. split; [done|].
    destruct Hloaded as [(c & Hc & Hl & Hv) [_ Htr]].
    split; [|done]. rewrite (delay_get_existing _ _ _ _ _ Hc).
    unfold Delay.getValue. cbn [fst]. by rewrite Hl.
  - cbn [run_page_steps length] in *.
    assert (∃ e1, run_page_step getter ms opts fuel st e = Some e1 ∧
                  loaded_with v tr e1 ∧
                  (length (Delay.timers e1) ≤ S (length (Delay.timers e)))%nat)
      as (e1 & -> & Hloaded1 & Hlen).
    { destruct Hloaded as [(c & Hc & Hl & Hv) [Hsus Htr]] eqn:Heq.
      destruct st as [| | |T|fulfilled]; cbn [run_page_step].
      - eexists. split; [done|]. rewrite (delay_get_existing _ _ _ _ _ Hc).
        split; [exact Hloaded|cbn [snd]; lia].
      - eexists. split; [done|].
        unfold Delay.connectedCallback, Delay.hostConnected. cbn. rewrite Hc.
        split; [|cbn; rewrite length_app; cbn; lia].
        split; [|done]. cbn. rewrite Hc. cbn. by eexists.
      - eexists. split; [done|].
        unfold Delay.disconnectedCallback, Delay.hostDisconnected. cbn.
        rewrite Hc.
        destruct (truthy (Delay.timeoutId c)) as [id|];
          [destruct (1 <=? id)|]; cbn;
          (split; [split; [by eexists|done]|]);
          rewrite ?length_insert; lia.
      - destruct (advance_loaded v tr fuel T e Hloaded)
          as (e1 & Hrun & Hloaded1 & Hlen).
        { pose proof (members_length_le (Delay.timers e)). lia. }
        exists e1. split; [done|]. split; [done|lia].
      - eexists. split; [done|]. unfold Delay.resume. rewrite Hsus.
        split; [exact Hloaded|lia]. }
    cbn [mbind option_bind]. apply IH; [exact Hloaded1|lia].
Qed.
End LoadedContent.

Lemma loaded_content_is_never_refreshed_witness :
  ∃ e e',
    Delay.advance (H := clock_caller) 1 150
      (Delay.get 0 50 (Some waiting_options) (Delay.new_element 100)).2
      = Some e ∧
    run_page_steps (H := clock_caller) 0 50 (Some waiting_options) 6
      [HostDisconnects; HostConnects; TimePasses 900; ReadGetter] e = Some e' ∧
    (Delay.get 0 50 (Some waiting_options) e').1 = VNum 150 ∧
    Delay.trace e' = [(150, Delay.GetterCalled 0); (150, Delay.UpdateRequested)].
Proof.
  destruct (Delay.advance (H := clock_caller) 1 150
              (Delay.get 0 50 (Some waiting_options) (Delay.new_element 100)).2)
    as [e|] eqn:He; [|vm_compute in He; discriminate].
  assert (loaded_with (VNum 150)
            [(150, Delay.GetterCalled 0); (150, Delay.UpdateRequested)] e)
    as Hloaded.
  { vm_compute in He. injection He as <-. split; [by eexists|done]. }
  assert (length (Delay.timers e) +
          length [HostDisconnects; HostConnects; TimePasses 900; ReadGetter]
          < 6)%nat as Hfuel.
  { vm_compute in He. injection He as <-. cbn. lia. }
  destruct (loaded_content_is_never_refreshed (H := clock_caller) 0 50
              (Some waiting_options) 6
              [HostDisconnects; HostConnects; TimePasses 900; ReadGetter]
              (VNum 150)
              [(150, Delay.GetterCalled 0); (150, Delay.UpdateRequested)]
              e Hloaded Hfuel)
    as (e' & Hrun & Hv & Htr).
  exists e, e'. split; [reflexivity|]. split; [exact Hrun|].
  split; [exact Hv|exact Htr].
Defined.

Section DelayResume.
Context `{Delay.Caller}.

(** What the rest of [load] does when the original getter returns. *)
Lemma load_finishes (fulfilled : bool) e c v :
  Delay.controller e = Some c →
  Delay.call_getter (Delay.originalGetter c) (Delay.now e) = Some v →
  let e' := (if fulfilled then Delay.load_rest else Delay.load_catch) e in
  Delay.trace e' =
    Delay.trace e ++ [(Delay.now e, Delay.GetterCalled (Delay.originalGetter c));
                      (Delay.now e, Delay.UpdateRequested)] ∧
  Delay.now e' = Delay.now e ∧
  Delay.suspended e' = Delay.suspended e ∧
  ∃ c', Delay.controller e' = Some c' ∧
        Delay.originalGetter c' = Delay.originalGetter c.
Proof.
  intros Hc Hv e'. subst e'.
  destruct fulfilled; unfold Delay.load_rest, Delay.load_catch;
    rewrite Hc, Hv; cbn; rewrite Hc; cbn;
    (split; [by rewrite <-app_assoc|]); (split; [done|]); (split; [done|]);
    by eexists.
Qed.

Lemma resume_suspended (fulfilled : bool) e n :
  Delay.suspended e = S n →
  Delay.resume fulfilled e =
    (if fulfilled then Delay.load_rest else Delay.load_catch)
      (Delay.with_suspended (λ _, n) e).
Proof. intros Hs. unfold Delay.resume. rewrite Hs. by destruct fulfilled. Qed.
End DelayResume.

(** X26. [load] marks the content as loaded only after the loader has
    settled, so a load that is waiting for its loader does not keep a
    second one from starting: for a delay that fits the 32-bit delay of a
    timer ([ms < 2^31]), when the host is disconnected and connected
    again while the loader runs, the new timer calls the loader a second
    time, and each of the two loads, when its loader settles, calls the
    original getter and asks the host to update. *)
Theorem reconnect_while_loading_loads_twice `{Delay.Caller} (getter : fn)
    (ms : Z) (o : Delay.DelayOptions) (l : fn) (t0 T1 T2 : Z)
    (first second : bool) (v : value) :
  Delay.loader o = Some l →
  ms < 2147483648 →
  t0 + Z.max 0 ms ≤ T1 →
  T1 + Z.max 0 ms ≤ T2 →
  Delay.call_loader l (t0 + Z.max 0 ms) = true →
  Delay.call_loader l (T1 + Z.max 0 ms) = true →
  Delay.call_getter getter T2 = Some v →
  ∃ e1 e2,
    Delay.advance 1 T1
      (Delay.get getter ms (Some o) (Delay.new_element t0)).2 = Some e1 ∧
    Delay.advance 1 T2
      (Delay.connectedCallback (Delay.disconnectedCallback e1)) = Some e2 ∧
    Delay.trace e2 =
      [(t0 + Z.max 0 ms, Delay.LoaderCalled l);
       (T1 + Z.max 0 ms, Delay.LoaderCalled l)] ∧
    Delay.trace (Delay.resume second (Delay.resume first e2)) =
      Delay.trace e2 ++
      [(T2, Delay.GetterCalled getter); (T2, Delay.UpdateRequested);
       (T2, Delay.GetterCalled getter); (T2, Delay.UpdateRequested)].
Proof.
  intros Hl Hms HT1 HT2 Hload1 Hload2 Hv.
  rewrite delay_get_new, timer_delay_small by done. cbn [fst snd].
  remember (Z.max 0 ms) as d eqn:Hd.
  set (c1 := Delay.set_timeoutId (Some 1)
               (Delay.new_DelayController getter ms (Some o))).
  set (c2 := Delay.set_timeoutId (Some 2) c1).
  set (tr1 := [(t0 + d, Delay.LoaderCalled l)]).
  set (tr2 := [(t0 + d, Delay.LoaderCalled l); (T1 + d, Delay.LoaderCalled l)]).
  set (e1 := {| Delay.controller := Some c1; Delay.isConnected := true;
                Delay.now := T1; Delay.timers := [None];
                Delay.suspended := 1; Delay.trace := tr1 |}).
  set (e2 := {| Delay.controller := Some c2; Delay.isConnected := true;
                Delay.now := T2; Delay.timers := [None; None];
                Delay.suspended := 2; Delay.trace := tr2 |}).
  assert (Delay.loader (Delay.options c1) = Some l) as Hl1 by exact Hl.
  assert (Delay.loader (Delay.options c2) = Some l) as Hl2 by exact Hl.
  exists e1, e2. split; [|split; [|split]].
  - rewrite (advance_fires_one _ _ 0%nat (t0 + d)).
    + cbn [Delay.now]. rewrite (Z.max_r t0 (t0 + d)) by lia.
      rewrite (Z.max_r (t0 + d) T1) by lia.
      unfold Delay.load.
      cbn [Delay.controller Delay.with_now Delay.with_timers Delay.now].
      change (Delay.isLoaded c1) with false. cbv iota.
      rewrite Hl1, Hload1. reflexivity.
    + unfold Delay.next_due. cbn [Delay.timers Delay.earliest].
      by rewrite (proj2 (Z.leb_le _ _)) by lia.
    + reflexivity.
  - assert (Delay.connectedCallback (Delay.disconnectedCallback e1) =
            {| Delay.controller := Some c2; Delay.isConnected := true;
               Delay.now := T1; Delay.timers := [None; Some (T1 + d)];
               Delay.suspended := 1; Delay.trace := tr1 |}) as ->.
    { assert (Delay.disconnectedCallback e1 =
              {| Delay.controller := Some c1; Delay.isConnected := false;
                 Delay.now := T1; Delay.timers := [None];
                 Delay.suspended := 1; Delay.trace := tr1 |}) as ->
        by reflexivity.
      unfold Delay.connectedCallback, Delay.hostConnected.
      cbn [Delay.controller Delay.with_isConnected Delay.with_controller
           Delay.with_timers Delay.timers Delay.now Delay.isConnected
           Delay.suspended Delay.trace fmap option_fmap option_map app length].
      change (Delay.delay c1) with ms.
      rewrite timer_delay_small by done. by rewrite <-Hd. }
    rewrite (advance_fires_one _ _ 1%nat (T1 + d)).
    + cbn [Delay.now]. rewrite (Z.max_r T1 (T1 + d)) by lia.
      rewrite (Z.max_r (T1 + d) T2) by lia.
      unfold Delay.load.
      cbn [Delay.controller Delay.with_now Delay.with_timers Delay.now].
      change (Delay.isLoaded c2) with false. cbv iota.
      rewrite Hl2, Hload2. reflexivity.
    + unfold Delay.next_due. cbn [Delay.timers Delay.earliest].
      by rewrite (proj2 (Z.leb_le _ _)) by lia.
    + reflexivity.
  - reflexivity.
  - rewrite (resume_suspended first e2 1%nat) by reflexivity.
    set (e3 := Delay.with_suspended (λ _, 1%nat) e2).
    destruct (load_finishes first e3 c2 v eq_refl Hv)
      as (Htr3 & Hnow3 & Hsus3 & c3 & Hc3 & Hg3).
    set (e4 := (if first then Delay.load_rest else Delay.load_catch) e3) in *.
    rewrite (resume_suspended second e4 0%nat) by exact Hsus3.
    set (e5 := Delay.with_suspended (λ _, 0%nat) e4).
    assert (Delay.call_getter (Delay.originalGetter c3) (Delay.now e5) = Some v)
      as Hv5.
    { rewrite Hg3. change (Delay.now e5) with (Delay.now e4).
      rewrite Hnow3. exact Hv. }
    destruct (load_finishes second e5 c3 v Hc3 Hv5) as (Htr5 & _).
    cbv zeta in Htr5. rewrite Htr5.
    change (Delay.trace e5) with (Delay.trace e4).
    change (Delay.now e5) with (Delay.now e4).
    rewrite Htr3, Hnow3, Hg3, <-app_assoc. reflexivity.
Qed.

Lemma reconnect_while_loading_loads_twice_witness :
  ∃ e1 e2,
    Delay.advance (H := clock_caller) 1 200
      (Delay.get 0 50 (Some (loading_options 2)) (Delay.new_element 100)).2
      = Some e1 ∧
    Delay.advance (H := clock_caller) 1 300
      (Delay.connectedCallback (Delay.disconnectedCallback e1)) = Some e2 ∧
    Delay.trace e2 = [(150, Delay.LoaderCalled 2); (250, Delay.LoaderCalled 2)] ∧
    Delay.trace (Delay.resume (H := clock_caller) false
                   (Delay.resume (H := clock_caller) true e2)) =
      [(150, Delay.LoaderCalled 2); (250, Delay.LoaderCalled 2);
       (300, Delay.GetterCalled 0); (300, Delay.UpdateRequested);
       (300, Delay.GetterCalled 0); (300, Delay.UpdateRequested)].
Proof.
  assert (100 + Z.max 0 50 ≤ 200) as H1 by (cbn; lia).
  assert (200 + Z.max 0 50 ≤ 300) as H2 by (cbn; lia).
  assert ((50 : Z) < 2147483648) as Hms by done.
  destruct (reconnect_while_loading_loads_twice (H := clock_caller) 0 50
              (loading_options 2) 2 100 200 300 true false (VNum 300)
              eq_refl Hms H1 H2 eq_refl eq_refl eq_refl)
    as (e1 & e2 & Hr1 & Hr2 & Htr & Hall).
  exists e1, e2. split; [exact Hr1|]. split; [exact Hr2|].
  split; [exact Htr|]. rewrite Hall, Htr. reflexivity.
Defined.
